(** * cellx.tools.projection: image normalisation and the 2-D manifold projection

    A shallow embedding of [src/cellx/tools/projection.py].

    Conventions of the embedding:
    - Python integers (shapes, bin numbers, slice bounds) are [Z];
    - float64 pixel intensities are real numbers [R] (the normalisation takes
      square roots), embedding coordinates are exact rationals [Q], so that the
      binning can be evaluated on concrete manifolds; rounding is not
      modelled, so pixel values are stated relative to the images the code
      computes, as bounds, or for inputs that double precision handles
      exactly;
    - a three-axis numpy array is a shape together with an index function;
    - arrays live in a heap and are referred to by location, the lists held in
      [self._images] and in the grid buckets are lists of locations (aliases);
    - exceptions are an error result, image I/O and the binning call are
      recorded in an event trace. *)

From Stdlib Require Import ZArith QArith Qminmax Reals List String Bool Lia Lra FinFun.
From Stdlib Require Lqa.
Import ListNotations.

Open Scope Z_scope.

(** ** numpy arrays *)

Record ndarray (A : Type) : Type := mk_ndarray {
  shape : Z * Z * Z;
  data : Z -> Z -> Z -> A
}.
Arguments mk_ndarray {A} _ _.
Arguments shape {A} _.
Arguments data {A} _ _ _ _.

Definition in_bounds {A : Type} (a : ndarray A) (i j c : Z) : Prop :=
  0 <= i < fst (fst (shape a)) /\
  0 <= j < snd (fst (shape a)) /\
  0 <= c < snd (shape a).

(** [range(n)] *)
Definition zrange (n : Z) : list Z := map Z.of_nat (seq 0 (Z.to_nat n)).

(** [np.zeros(shape, dtype='uint8')] *)
Definition np_zeros (shp : Z * Z * Z) : ndarray Z :=
  mk_ndarray shp (fun _ _ _ => 0).

(** ** Exceptions *)

Inductive exn : Type :=
| AssertionError
| ValueError
| IndexError
| TypeError
| OSError.

Inductive result (A : Type) : Type :=
| Ok (a : A)
| Raise (e : exn).
Arguments Ok {A} _.
Arguments Raise {A} _.

(** ** numpy reductions and element-wise operations on float64 data *)

Definition np_sum (d : list R) : R := fold_right Rplus 0%R d.

Definition np_mean (d : list R) : R := (np_sum d / INR (List.length d))%R.

(** [np.std]: the square root of the mean squared deviation from the mean. *)
Definition np_std (d : list R) : R :=
  sqrt (np_mean (map (fun x => ((x - np_mean d) * (x - np_mean d))%R) d)).

(** [np.clip(x, lo, hi)] is [minimum(maximum(x, lo), hi)]. *)
Definition np_clip (x lo hi : R) : R := Rmin (Rmax x lo) hi.

(** [np.prod(output_shape)] *)
Definition np_prod (output_shape : Z * Z) : Z :=
  fst output_shape * snd output_shape.

(** ** [_load_and_normalize] *)

(** [image[..., dim]]: the values of one channel, row by row. *)
Definition channel (image : ndarray R) (dim : Z) : list R :=
  flat_map (fun i => map (fun j => data image i j dim)
                         (zrange (snd (fst (shape image)))))
           (zrange (fst (fst (shape image)))).

(** [a_std = lambda d: np.max([np.std(d), 1. / np.sqrt(n_pixels)])] *)
Definition a_std (n_pixels : Z) (d : list R) : R :=
  Rmax (np_std d) (1 / sqrt (IZR n_pixels))%R.

(** [nrm = lambda d: np.clip((d - np.mean(d)) / a_std(d), -4., 4.)], at one
    element [x] of the channel [d]. *)
Definition nrm (n_pixels : Z) (d : list R) (x : R) : R :=
  np_clip ((x - np_mean d) / a_std n_pixels d)%R (-4)%R 4%R.

(** [image[..., dim] = nrm(image[..., dim])]: the channel is read in full
    before it is overwritten in place. *)
Definition normalize_channel (n_pixels : Z) (image : ndarray R) (dim : Z)
  : ndarray R :=
  let d := channel image dim in
  mk_ndarray (shape image)
    (fun i j c => if c =? dim then nrm n_pixels d (data image i j c)
                  else data image i j c).

(** [for dim in range(n_channels): image[..., dim] = nrm(image[..., dim])] *)
Definition normalize_channels (n_pixels : Z) (image : ndarray R) : ndarray R :=
  let n_channels := snd (shape image) in
  fold_left (normalize_channel n_pixels) (zrange n_channels) image.

(** [np.clip(255. * ((image + 1.) / 5.), 0, 255)] *)
Definition rescale (image : ndarray R) : ndarray R :=
  mk_ndarray (shape image)
    (fun i j c => np_clip (255 * ((data image i j c + 1) / 5))%R 0%R 255%R).

Section Loader.

(** The image files and skimage's resampling are outside the repository:
    [imread] is the content of the file system ([None] for a file that cannot
    be read), [resize] is [skimage.transform.resize] with
    [preserve_range=True]. *)
Variable imread : string -> option (ndarray R).
Variable resize : ndarray R -> Z * Z -> ndarray R.

Definition _load_and_normalize (filename : string) (output_shape : Z * Z)
  : result (ndarray R) :=
  match imread filename with
  | None => Raise OSError
  | Some raw =>
      let image := resize raw output_shape in
      let n_pixels := np_prod output_shape in
      Ok (rescale (normalize_channels n_pixels image))
  end.

End Loader.

(** ** [scipy.stats.binned_statistic_2d]

    The binning routine is scipy's. It is modelled here over exact rationals
    from its documented behaviour for an integer [bins] and no [range]: each
    axis is cut into [bins] equal-width bins between the smallest and the
    largest sample (widened by one half on both sides when they coincide), a
    sample gets the number of the bin it falls into, counted from 1, and a
    sample on the rightmost edge belongs to the last bin. *)

(** [np.linspace(start, stop, bins + 1)]: the endpoint is stored as given. *)
Definition np_linspace (start stop : Q) (bins : Z) : list Q :=
  map (fun k => start + inject_Z k * ((stop - start) / inject_Z bins))%Q
      (zrange bins) ++ [stop].

(** [np.digitize(x, edges)] for increasing edges: the number of edges that
    are at most [x]. *)
Definition np_digitize (x : Q) (edges : list Q) : Z :=
  Z.of_nat (List.length (filter (fun e => Qle_bool e x) edges)).

(** Python's [min] and [max] on a sequence. *)
Definition py_min (l : list Q) : result Q :=
  match l with
  | [] => Raise ValueError
  | x :: r => Ok (fold_left Qmin r x)
  end.

Definition py_max (l : list Q) : result Q :=
  match l with
  | [] => Raise ValueError
  | x :: r => Ok (fold_left Qmax r x)
  end.

(** One axis: the bin edges and the bin number of every sample. *)
Definition bin_axis (sample : list Q) (bins : Z)
  : result (list Q * list Z) :=
  match sample with
  | [] => Raise ValueError
  | x0 :: r =>
      if bins <=? 0 then Raise ValueError
      else
        let smin := fold_left Qmin r x0 in
        let smax := fold_left Qmax r x0 in
        let '(smin, smax) :=
          if Qeq_bool smin smax
          then ((smin - (1 # 2))%Q, (smax + (1 # 2))%Q)
          else (smin, smax) in
        let edges := np_linspace smin smax bins in
        let last_edge := last edges smax in
        let number x :=
          let b := np_digitize x edges in
          if Qle_bool last_edge x && Qeq_bool x last_edge then b - 1 else b in
        Ok (edges, map number sample)
  end.

(** [binned_statistic_2d(x, y, [], bins=bins, statistic='count',
    expand_binnumbers=True)]: the edges of both axes and the two rows of bin
    numbers. The count statistic is not used by the caller and is left out. *)
Definition binned_statistic_2d (x y : list Q) (bins : Z)
  : result (list Q * list Q * list Z * list Z) :=
  match bin_axis x bins, bin_axis y bins with
  | Ok (xe, bn0), Ok (ye, bn1) => Ok (xe, ye, bn0, bn1)
  | Raise e, _ => Raise e
  | _, Raise e => Raise e
  end.

(** ** The heap, the event trace and the monad of the object's methods *)

Definition loc : Type := nat.

(** The attributes of a [ManifoldProjection2D] instance; [_images] holds
    references to the cached arrays. *)
Record ManifoldProjection2D : Type := mk_self {
  _output_shape : Z * Z;
  _image_files : list string;
  _images : list loc
}.

Inductive pyobj : Type :=
| F64 (a : ndarray R)
| U8 (a : ndarray Z)
| Instance (o : ManifoldProjection2D).

Inductive event : Type :=
| EvBinning
| EvImread (filename : string).

Record state : Type := mk_state {
  heap : list pyobj;
  trace : list event
}.

Definition M (A : Type) : Type := state -> result A * state.

Definition ret {A : Type} (a : A) : M A := fun st => (Ok a, st).

Definition raise {A : Type} (e : exn) : M A := fun st => (Raise e, st).

Definition bind {A B : Type} (m : M A) (k : A -> M B) : M B :=
  fun st =>
    match m st with
    | (Ok a, st') => k a st'
    | (Raise e, st') => (Raise e, st')
    end.

Notation "x <- m ;; k" := (bind m (fun x => k))
  (at level 61, m at next level, right associativity).
Notation "m ;;; k" := (bind m (fun _ => k))
  (at level 61, right associativity).

Definition lift {A : Type} (r : result A) : M A := fun st => (r, st).

Definition log (e : event) : M unit :=
  fun st => (Ok tt, mk_state (heap st) (trace st ++ [e])).

(** A new array is stored at the end of the heap. *)
Definition alloc (o : pyobj) : M loc :=
  fun st => (Ok (List.length (heap st)), mk_state (heap st ++ [o]) (trace st)).

Definition read_f64 (l : loc) : M (ndarray R) :=
  fun st =>
    match nth_error (heap st) l with
    | Some (F64 a) => (Ok a, st)
    | _ => (Raise TypeError, st)
    end.

Definition read_u8 (l : loc) : M (ndarray Z) :=
  fun st =>
    match nth_error (heap st) l with
    | Some (U8 a) => (Ok a, st)
    | _ => (Raise TypeError, st)
    end.

(** The attributes of the instance [self] refers to. *)
Definition read_self (self : loc) : M ManifoldProjection2D :=
  fun st =>
    match nth_error (heap st) self with
    | Some (Instance o) => (Ok o, st)
    | _ => (Raise TypeError, st)
    end.

Fixpoint list_set {A : Type} (l : list A) (n : nat) (x : A) : list A :=
  match l, n with
  | [], _ => []
  | _ :: r, O => x :: r
  | y :: r, S n' => y :: list_set r n' x
  end.

(** In-place update of the array stored at [l]. *)
Definition write (l : loc) (o : pyobj) : M unit :=
  fun st => (Ok tt, mk_state (list_set (heap st) l o) (trace st)).

Fixpoint mapM {A B : Type} (f : A -> M B) (l : list A) : M (list B) :=
  match l with
  | [] => ret []
  | x :: r => y <- f x ;; ys <- mapM f r ;; ret (y :: ys)
  end.

(** ** The grid: a dict from bin keys to buckets, in insertion order *)

Definition key : Type := Z * Z.

Definition key_eqb (a b : key) : bool :=
  (fst a =? fst b) && (snd a =? snd b).

Definition dict : Type := list (key * list loc).

Fixpoint dict_get (g : dict) (b : key) : option (list loc) :=
  match g with
  | [] => None
  | (k, v) :: r => if key_eqb k b then Some v else dict_get r b
  end.

(** [g[b] = v]: an existing key keeps its place, a new key goes last. *)
Fixpoint dict_set (g : dict) (b : key) (v : list loc) : dict :=
  match g with
  | [] => [(b, v)]
  | (k, w) :: r =>
      if key_eqb k b then (k, v) :: r else (k, w) :: dict_set r b v
  end.

(** [g[b].append(l)] *)
Definition dict_append (g : dict) (b : key) (l : loc) : dict :=
  match dict_get g b with
  | Some v => dict_set g b (v ++ [l])
  | None => g
  end.

(** ** Slices, broadcasting and the conversion to the canvas's dtype *)

(** [slice(start, stop, 1).indices(len)]: negative bounds count from the end,
    and both bounds are clamped to the axis. *)
Definition slice_bound (v len : Z) : Z :=
  if v <? 0 then Z.max (v + len) 0 else Z.min v len.

Definition slice_indices (start stop len : Z) : Z * Z :=
  (slice_bound start len, slice_bound stop len).

Definition slice_length (s : Z * Z) : Z := Z.max 0 (snd s - fst s).

(** An axis of the assigned value fits the target when it has the target's
    length or length 1. *)
Definition broadcastable (src tgt : Z) : bool := (src =? tgt) || (src =? 1).

Definition bcast_index (src i : Z) : Z := if src =? 1 then 0 else i.

(** float64 to uint8: the fraction is dropped, the integer wraps modulo 256. *)
Definition trunc (x : R) : Z :=
  if Rle_dec 0 x then Int_part x else - Int_part (- x).

Definition astype_uint8 (x : R) : Z := trunc x mod 256.

(** [canvas[blockx, blocky, :] = im] with [blockx = slice(x0, x1, 1)] and
    [blocky = slice(y0, y1, 1)]. *)
Definition setitem_block (canvas : ndarray Z) (blockx blocky : Z * Z)
  (im : ndarray R) : result (ndarray Z) :=
  let '(H, W, C) := shape canvas in
  let sx := slice_indices (fst blockx) (snd blockx) H in
  let sy := slice_indices (fst blocky) (snd blocky) W in
  let '(a, b, c) := shape im in
  if broadcastable a (slice_length sx) && broadcastable b (slice_length sy)
     && broadcastable c C
  then
    Ok (mk_ndarray (shape canvas)
          (fun i j k =>
             if (fst sx <=? i) && (i <? fst sx + slice_length sx)
                && (fst sy <=? j) && (j <? fst sy + slice_length sy)
                && (0 <=? k) && (k <? C)
             then astype_uint8 (data im (bcast_index a (i - fst sx))
                                        (bcast_index b (j - fst sy))
                                        (bcast_index c k))
             else data canvas i j k))
  else Raise ValueError.

Definition shape_eqb (s t : Z * Z * Z) : bool :=
  (fst (fst s) =? fst (fst t)) && (snd (fst s) =? snd (fst t))
  && (snd s =? snd t).

(** [np.mean(np.stack(images, axis=0), axis=0)]: [np.stack] needs at least
    one array and arrays of one shape. *)
Definition stack_mean (images : list (ndarray R)) : result (ndarray R) :=
  match images with
  | [] => Raise ValueError
  | a :: rest =>
      if forallb (fun b => shape_eqb (shape b) (shape a)) rest
      then Ok (mk_ndarray (shape a)
                 (fun i j c => np_mean (map (fun im => data im i j c) images)))
      else Raise ValueError
  end.

(** ** [ManifoldProjection2D] *)

(** [np.zeros(shape, dtype='uint8')] as a new object; numpy refuses negative
    dimensions. *)
Definition new_zeros (shp : Z * Z * Z) : M loc :=
  if (fst (fst shp) <? 0) || (snd (fst shp) <? 0) || (snd shp <? 0)
  then raise ValueError
  else alloc (U8 (np_zeros shp)).

Section Projection.

Variable imread : string -> option (ndarray R).
Variable resize : ndarray R -> Z * Z -> ndarray R.

(** [_get_image]: the file is read, and the normalised image is a new array. *)
Definition _get_image (self : loc) (filename : string) : M loc :=
  this <- read_self self ;;
  log (EvImread filename) ;;;
  image <- lift (_load_and_normalize imread resize filename
                   (_output_shape this)) ;;
  alloc (F64 image).

(** [__init__] fills the attributes of a new instance; the images are
    loaded after [_output_shape] and [_image_files] are set. *)
Definition __init__ (image_files : list string) (output_shape : Z * Z)
  (preload_images : bool) : M loc :=
  self <- alloc (Instance (mk_self output_shape image_files [])) ;;
  if preload_images
  then images <- mapM (_get_image self) image_files ;;
       write self (Instance (mk_self output_shape image_files images)) ;;;
       ret self
  else ret self.

(** The body of the loop [for idx, b in enumerate(bxy)]. *)
Definition grid_step (self : loc) (grid : dict) (idx : nat) (b : key)
  : M dict :=
  let grid :=
    match dict_get grid b with
    | None => dict_set grid b []
    | Some _ => grid
    end in
  this <- read_self self ;;
  match _images this with
  | _ :: _ =>
      match nth_error (_images this) idx with
      | Some l => ret (dict_append grid b l)
      | None => raise IndexError
      end
  | [] =>
      match dict_get grid b with
      | Some [] =>
          match nth_error (_image_files this) idx with
          | Some filename =>
              l <- _get_image self filename ;; ret (dict_append grid b l)
          | None => raise IndexError
          end
      | _ => ret grid
      end
  end.

Fixpoint build_grid (self : loc) (bxy : list key) (idx : nat) (grid : dict)
  : M dict :=
  match bxy with
  | [] => ret grid
  | b :: rest =>
      grid' <- grid_step self grid idx b ;;
      build_grid self rest (S idx) grid'
  end.

(** The body of the loop [for xy, images in grid.items()]. *)
Definition place_tile (full_bins half_bins : Z * Z) (imgrid : loc)
  (xy : key) (images : list loc) : M unit :=
  stack <- mapM read_f64 images ;;
  im <- lift (stack_mean stack) ;;
  let '(xx, yy) := xy in
  let blockx := (xx * fst full_bins - fst half_bins,
                 (xx + 1) * fst full_bins - fst half_bins) in
  let blocky := (yy * snd full_bins - snd half_bins,
                 (yy + 1) * snd full_bins - snd half_bins) in
  canvas <- read_u8 imgrid ;;
  canvas' <- lift (setitem_block canvas blockx blocky im) ;;
  write imgrid (U8 canvas').

Fixpoint fill_grid (full_bins half_bins : Z * Z) (imgrid : loc)
  (items : dict) : M unit :=
  match items with
  | [] => ret tt
  | (xy, images) :: rest =>
      place_tile full_bins half_bins imgrid xy images ;;;
      fill_grid full_bins half_bins imgrid rest
  end.

(** [__call__(manifold, bins)]; the rows of [manifold] are given by their
    first two columns, and [components] is not used by the method. *)
Definition __call__ (self : loc) (manifold : list (Q * Q)) (bins : Z)
  : M (loc * list Q) :=
  this <- read_self self ;;
  if negb (Nat.eqb (List.length manifold) (List.length (_image_files this)))
  then raise AssertionError
  else
    log EvBinning ;;;
    r <- lift (binned_statistic_2d (map fst manifold) (map snd manifold)
                 bins) ;;
    let '(xe, ye, bn0, bn1) := r in
    let bxy := combine bn0 bn1 in
    grid <- build_grid self bxy 0 [] ;;
    this <- read_self self ;;
    let full_bins := _output_shape this in
    let half_bins := (fst full_bins / 2, snd full_bins / 2) in
    imgrid <- new_zeros ((fst full_bins + 1) * bins + fst half_bins,
                         (snd full_bins + 1) * bins + snd half_bins, 3) ;;
    fill_grid full_bins half_bins imgrid grid ;;;
    x_lo <- lift (py_min xe) ;;
    x_hi <- lift (py_max xe) ;;
    y_lo <- lift (py_min ye) ;;
    y_hi <- lift (py_max ye) ;;
    ret (imgrid, [x_lo; x_hi; y_lo; y_hi]).

End Projection.

(** ** Vocabulary of the statements *)

(** The first canvas index of the tile of bin number [xx] on an axis whose
    tiles have [f] pixels: [xx * full_bins - half_bins]. *)
Definition tile_start (f xx : Z) : Z := xx * f - f / 2.

(** The canvas position [(i, j)] lies in the tile of the bin key [xy]. *)
Definition in_tile (output_shape : Z * Z) (xy : key) (i j : Z) : Prop :=
  (tile_start (fst output_shape) (fst xy) <= i
   < tile_start (fst output_shape) (fst xy) + fst output_shape) /\
  (tile_start (snd output_shape) (snd xy) <= j
   < tile_start (snd output_shape) (snd xy) + snd output_shape).

(** The float64 arrays stored at the given locations. *)
Definition arrays_at (hp : list pyobj) (locs : list loc)
  : list (ndarray R) :=
  flat_map (fun l => match nth_error hp l with
                     | Some (F64 a) => [a]
                     | _ => []
                     end) locs.

(** [l] holds a three-channel image of the object's output shape. *)
Definition is_image (output_shape : Z * Z) (hp : list pyobj) (l : loc)
  : Prop :=
  exists a, nth_error hp l = Some (F64 a) /\
            shape a = (fst output_shape, snd output_shape, 3).

(** The row indices, counted from [k], of the points with bin key [b]. *)
Fixpoint members_from (k : nat) (bxy : list key) (b : key) : list nat :=
  match bxy with
  | [] => []
  | b' :: rest =>
      if key_eqb b' b then k :: members_from (S k) rest b
      else members_from (S k) rest b
  end.

Definition bin_members (bxy : list key) (b : key) : list nat :=
  members_from 0 bxy b.

(** A bin key with both bin numbers from 1 to [bins]. *)
Definition key_in_range (bins : Z) (xy : key) : Prop :=
  1 <= fst xy <= bins /\ 1 <= snd xy <= bins.

(** The value a bucket leaves at the canvas position [(i, j, c)] of its tile:
    the mean over the bucket's images, converted to the canvas's dtype. *)
Definition tile_value (output_shape : Z * Z) (hp : list pyobj) (xy : key)
  (locs : list loc) (i j c : Z) : Z :=
  astype_uint8
    (np_mean
       (map (fun im => data im (i - tile_start (fst output_shape) (fst xy))
                               (j - tile_start (snd output_shape) (snd xy)) c)
            (arrays_at hp locs))).

(** The bucket of a key, empty for a key the grid does not have. *)
Definition bucket (g : dict) (b : key) : list loc :=
  match dict_get g b with
  | Some v => v
  | None => []
  end.

(** The row indices, counted from [k], at which a bin key that is not among
    [seen] occurs for the first time. *)
Fixpoint first_indices (k : nat) (bxy : list key) (seen : list key)
  : list nat :=
  match bxy with
  | [] => []
  | b :: rest =>
      if existsb (key_eqb b) seen then first_indices (S k) rest seen
      else k :: first_indices (S k) rest (seen ++ [b])
  end.

(** [if b not in grid: grid[b] = []] *)
Definition ensure (g : dict) (b : key) : dict :=
  match dict_get g b with
  | None => dict_set g b []
  | Some _ => g
  end.

(** The file of row [idx], and the image [_get_image] makes of a file. *)
Definition file_at (this : ManifoldProjection2D) (idx : nat) : string :=
  nth idx (_image_files this) EmptyString.

Definition load (imread : string -> option (ndarray R))
  (resize : ndarray R -> Z * Z -> ndarray R) (this : ManifoldProjection2D)
  (filename : string) : result (ndarray R) :=
  _load_and_normalize imread resize filename (_output_shape this).

(** [self] refers to an instance with the attributes [this]. *)
Definition self_at (hp : list pyobj) (self : loc)
  (this : ManifoldProjection2D) : Prop :=
  nth_error hp self = Some (Instance this).

(** The shape [__call__] gives the canvas. *)
Definition canvas_shape (output_shape : Z * Z) (bins : Z) : Z * Z * Z :=
  ((fst output_shape + 1) * bins + fst output_shape / 2,
   (snd output_shape + 1) * bins + snd output_shape / 2, 3).

(** What [__init__] establishes: a positive output shape, and either no
    cached image or one cached three-channel image per file. *)
Definition self_ok (hp : list pyobj) (this : ManifoldProjection2D) : Prop :=
  1 <= fst (_output_shape this) /\ 1 <= snd (_output_shape this) /\
  Forall (is_image (_output_shape this) hp) (_images this) /\
  (_images this <> [] ->
   List.length (_images this) = List.length (_image_files this)).

(** Every file of the object can be read and is resized to a three-channel
    image of the output shape. *)
Definition files_ok (imread : string -> option (ndarray R))
  (resize : ndarray R -> Z * Z -> ndarray R) (this : ManifoldProjection2D)
  : Prop :=
  forall f, In f (_image_files this) ->
    exists raw, imread f = Some raw /\
      shape (resize raw (_output_shape this))
      = (fst (_output_shape this), snd (_output_shape this), 3).

(** A computation leaves the first [n] objects of the heap as they are,
    keeps them allocated, and a result it returns satisfies [P]. *)
Definition framed {A : Type} (n : nat) (m : M A) (P : A -> Prop) : Prop :=
  forall st r st',
    (n <= List.length (heap st))%nat -> m st = (r, st') ->
    (n <= List.length (heap st'))%nat /\
    (forall l, (l < n)%nat -> nth_error (heap st') l = nth_error (heap st) l) /\
    (forall a, r = Ok a -> P a).

(** The cached images are the normalised images of the object's files, row
    by row: what the list comprehension of [__init__] stores. *)
Definition images_loaded (imread : string -> option (ndarray R))
  (resize : ndarray R -> Z * Z -> ndarray R) (hp : list pyobj)
  (this : ManifoldProjection2D) : Prop :=
  forall idx l, nth_error (_images this) idx = Some l ->
    exists a, nth_error hp l = Some (F64 a) /\
              load imread resize this (file_at this idx) = Ok a.

(** A valid call: [self] is an instance as [__init__] leaves it, its files
    are readable when the images were not preloaded, the manifold has one row
    per file and at least one row, and [bins] is positive. *)
Definition valid_call (imread : string -> option (ndarray R))
  (resize : ndarray R -> Z * Z -> ndarray R) (self : loc)
  (this : ManifoldProjection2D) (manifold : list (Q * Q)) (bins : Z)
  (st : state) : Prop :=
  self_at (heap st) self this /\
  self_ok (heap st) this /\
  (_images this = [] -> files_ok imread resize this) /\
  List.length manifold = List.length (_image_files this) /\
  manifold <> [] /\
  1 <= bins.

(** ** Concrete inputs

    A file system in which every file holds the same one-pixel RGB image, a
    resampling that repeats the first pixel, and three small scenes: an
    object without preloaded images, an object with two cached images, and
    an object of the default output shape with a single file. *)

Definition demo_raw : ndarray R := mk_ndarray (1, 1, 3) (fun _ _ c => IZR c).

Definition demo_imread (filename : string) : option (ndarray R) :=
  Some demo_raw.

Definition demo_resize (image : ndarray R) (output_shape : Z * Z)
  : ndarray R :=
  mk_ndarray (fst output_shape, snd output_shape, snd (shape image))
    (fun _ _ c => data image 0 0 c).

Definition demo_files : list string := ["a.png"%string; "b.png"%string].

Definition demo_manifold : list (Q * Q) := [(0, 0)%Q; (1, 1)%Q].

Definition demo_lazy : ManifoldProjection2D := mk_self (2, 2) demo_files [].

Definition demo_lazy_state : state := mk_state [Instance demo_lazy] [].

Definition demo_image (v : R) : ndarray R :=
  mk_ndarray (2, 2, 3) (fun _ _ _ => v).

Definition demo_preloaded : ManifoldProjection2D :=
  mk_self (2, 2) demo_files [1%nat; 2%nat].

Definition demo_preloaded_state : state :=
  mk_state [Instance demo_preloaded; F64 (demo_image 51); F64 (demo_image 52)]
    [].

Definition demo_single : ManifoldProjection2D :=
  mk_self (64, 64) ["a.png"%string] [].

Definition demo_single_state : state := mk_state [Instance demo_single] [].

(** The range the binning gives an axis whose first sample is [x0] and whose
    other samples are [r]: from the smallest to the largest sample, widened by
    one half on both sides when they coincide. *)
Definition sample_range (x0 : Q) (r : list Q) : Q * Q :=
  let smin := fold_left Qmin r x0 in
  let smax := fold_left Qmax r x0 in
  if Qeq_bool smin smax
  then ((smin - (1 # 2))%Q, (smax + (1 # 2))%Q)
  else (smin, smax).

(** A file system in which ["b.png"] cannot be read. *)
Definition demo_imread_broken (filename : string) : option (ndarray R) :=
  if String.eqb filename "b.png" then None else Some demo_raw.

(** An object as [__init__] with [preload_images] leaves it: both cached
    images are the normalised image of the files. *)
Definition demo_loaded_image : ndarray R :=
  rescale (normalize_channels (np_prod (2, 2)) (demo_resize demo_raw (2, 2))).

Definition demo_cached : ManifoldProjection2D :=
  mk_self (2, 2) demo_files [1%nat; 2%nat].

Definition demo_cached_state : state :=
  mk_state [Instance demo_cached; F64 demo_loaded_image; F64 demo_loaded_image]
    [].

(** Two cached images of different brightness, for a bin that holds both
    rows of a manifold. *)
Definition demo_pair_state : state :=
  mk_state [Instance demo_preloaded; F64 (demo_image 51); F64 (demo_image 53)]
    [].

(** An object with a single file whose normalised image is cached. *)
Definition demo_single_cached : ManifoldProjection2D :=
  mk_self (2, 2) ["a.png"%string] [1%nat].

Definition demo_single_cached_state : state :=
  mk_state [Instance demo_single_cached; F64 demo_loaded_image] [].

(** A file system in which every file holds a 2 x 2 image that gets brighter
    towards the lower right corner, and a resampling that keeps an image as
    it is. *)
Definition demo_gradient : ndarray R :=
  mk_ndarray (2, 2, 3) (fun i j _ => IZR (i + j)).

Definition demo_imread_gradient (filename : string) : option (ndarray R) :=
  Some demo_gradient.

Definition demo_resize_keep (image : ndarray R) (output_shape : Z * Z)
  : ndarray R :=
  image.

(** * Properties *)

(** ** The model on small inputs *)

(** Four points on a line, four bins: the largest sample belongs to the last
    bin, a sample on an inner edge to the bin on its right. *)
Example binning_four_points :
  match binned_statistic_2d [0; 1; 1 # 2; 3 # 10]%Q [5; 5; 5; 5]%Q 4 with
  | Ok (_, _, bn0, bn1) => bn0 = [1; 4; 3; 2] /\ bn1 = [3; 3; 3; 3]
  | Raise _ => False
  end.
Proof. vm_compute. split; reflexivity. Qed.

Example binning_needs_points : binned_statistic_2d [] [] 4 = Raise ValueError.
Proof. reflexivity. Qed.

Example binning_needs_bins :
  binned_statistic_2d [0%Q] [0%Q] 0 = Raise ValueError.
Proof. reflexivity. Qed.

(** A bin number 0 would give a slice that starts at a negative index, which
    Python counts from the end of the axis: the slice would be empty. *)
Example slice_of_bin_zero_wraps :
  slice_indices (0 * 64 - 64 / 2) ((0 + 1) * 64 - 64 / 2) 2112 = (2080, 32) /\
  slice_length (slice_indices (0 * 64 - 64 / 2) ((0 + 1) * 64 - 64 / 2) 2112)
  = 0.
Proof. split; reflexivity. Qed.

Example slice_of_bin_one :
  slice_indices (1 * 64 - 64 / 2) ((1 + 1) * 64 - 64 / 2) 2112 = (32, 96).
Proof. reflexivity. Qed.

(** The members of a bin and the rows at which a bin occurs first. *)
Example members_and_first_rows :
  bin_members [(1, 1); (2, 2); (1, 1); (2, 1)] (1, 1) = [0; 2]%nat /\
  first_indices 0 [(1, 1); (2, 2); (1, 1); (2, 1)] [] = [0; 1; 3]%nat.
Proof. split; reflexivity. Qed.

(** ** Ranges and the per-channel normalisation loop *)

Lemma zrange_In (n c : Z) : In c (zrange n) <-> 0 <= c < n.
Proof.
  unfold zrange. rewrite in_map_iff. split.
  - intros [k [<- Hk]]. apply in_seq in Hk. lia.
  - intros Hc. exists (Z.to_nat c). split; [lia|]. apply in_seq. lia.
Qed.

Lemma zrange_NoDup (n : Z) : NoDup (zrange n).
Proof.
  unfold zrange. apply Injective_map_NoDup.
  - intros a b Hab. lia.
  - apply seq_NoDup.
Qed.

Lemma np_clip_bounds (x lo hi : R) : (lo <= hi)%R -> (lo <= np_clip x lo hi <= hi)%R.
Proof.
  intros Hle. unfold np_clip. split.
  - apply Rmin_glb; [apply Rmax_r | exact Hle].
  - apply Rmin_r.
Qed.

Lemma shape_normalize_channel n img d : shape (normalize_channel n img d) = shape img.
Proof. reflexivity. Qed.

Lemma channel_normalize_channel_other n img d c :
  c <> d -> channel (normalize_channel n img d) c = channel img c.
Proof.
  intros Hcd. unfold channel. rewrite shape_normalize_channel.
  apply flat_map_ext. intros i. apply map_ext. intros j.
  simpl. destruct (Z.eqb_spec c d); [contradiction | reflexivity].
Qed.

Lemma normalize_loop_shape n dims : forall img,
  shape (fold_left (normalize_channel n) dims img) = shape img.
Proof.
  induction dims as [|d r IH]; intros img; simpl; [reflexivity|].
  rewrite IH. reflexivity.
Qed.

Lemma normalize_loop_data n dims : NoDup dims -> forall img i j c,
  data (fold_left (normalize_channel n) dims img) i j c =
  if existsb (Z.eqb c) dims
  then nrm n (channel img c) (data img i j c)
  else data img i j c.
Proof.
  induction dims as [|d r IH]; intros Hnd img i j c; simpl; [reflexivity|].
  inversion Hnd as [|? ? Hnotin Hnd']; subst.
  rewrite (IH Hnd').
  destruct (Z.eqb_spec c d) as [->|Hne]; simpl.
  - assert (Hex : existsb (Z.eqb d) r = false).
    { apply not_true_is_false. intros Hex. apply existsb_exists in Hex.
      destruct Hex as [x [Hx Heq]]. apply Z.eqb_eq in Heq. subst. contradiction. }
    rewrite Hex. rewrite Z.eqb_refl. reflexivity.
  - rewrite (channel_normalize_channel_other _ _ _ _ Hne).
    destruct (Z.eqb_spec c d); [contradiction|]. reflexivity.
Qed.

Lemma normalize_channels_data n img i j c :
  0 <= c < snd (shape img) ->
  data (normalize_channels n img) i j c = nrm n (channel img c) (data img i j c).
Proof.
  intros Hc. unfold normalize_channels.
  rewrite (normalize_loop_data n _ (zrange_NoDup _)).
  assert (Hex : existsb (Z.eqb c) (zrange (snd (shape img))) = true).
  { apply existsb_exists. exists c. split; [apply zrange_In; exact Hc | apply Z.eqb_refl]. }
  rewrite Hex. reflexivity.
Qed.

Lemma normalize_channels_shape n img : shape (normalize_channels n img) = shape img.
Proof. apply normalize_loop_shape. Qed.

Lemma a_std_pos n d : 1 <= n -> (0 < 1 / sqrt (IZR n) <= a_std n d)%R.
Proof.
  intros Hn. assert (Hs : (0 < sqrt (IZR n))%R).
  { apply sqrt_lt_R0. apply IZR_lt. lia. }
  split.
  - apply Rdiv_lt_0_compat; [lra | exact Hs].
  - unfold a_std. apply Rmax_r.
Qed.


Section LoaderProperties.

Variable imread : string -> option (ndarray R).
Variable resize : ndarray R -> Z * Z -> ndarray R.

(** C5. A readable file is always turned into an image; every value of the
    image after the per-channel normalisation loop lies in [-4, 4], and every
    value of the returned image lies in [0, 255]. *)
Theorem load_and_normalize_value_ranges
  (filename : string) (output_shape : Z * Z) (raw : ndarray R) :
  imread filename = Some raw ->
  let normalized :=
    normalize_channels (np_prod output_shape) (resize raw output_shape) in
  _load_and_normalize imread resize filename output_shape
    = Ok (rescale normalized) /\
  forall i j c, in_bounds (rescale normalized) i j c ->
    (-4 <= data normalized i j c <= 4)%R /\
    (0 <= data (rescale normalized) i j c <= 255)%R.
Proof.
  intros Hread normalized. split.
  - unfold _load_and_normalize. rewrite Hread. reflexivity.
  - intros i j c [_ [_ Hc]]. split.
    + subst normalized. simpl in Hc. rewrite normalize_channels_shape in Hc.
      rewrite normalize_channels_data by exact Hc.
      unfold nrm. apply np_clip_bounds. lra.
    + simpl. apply np_clip_bounds. lra.
Qed.

(** C7. In the normalisation of every channel the divisor is the larger of the
    channel's standard deviation and [1 / sqrt(n_pixels)]; it is at least
    [1 / sqrt(n_pixels)], hence strictly positive. *)
Theorem normalization_divisor_positive
  (filename : string) (output_shape : Z * Z) (raw : ndarray R) :
  imread filename = Some raw ->
  1 <= fst output_shape -> 1 <= snd output_shape ->
  let n_pixels := np_prod output_shape in
  let image := resize raw output_shape in
  _load_and_normalize imread resize filename output_shape
    = Ok (rescale (normalize_channels n_pixels image)) /\
  forall c, 0 <= c < snd (shape image) ->
    let d := channel image c in
    let divisor := Rmax (np_std d) (1 / sqrt (IZR n_pixels))%R in
    (0 < 1 / sqrt (IZR n_pixels) <= divisor)%R /\
    forall i j,
      data (normalize_channels n_pixels image) i j c =
      np_clip ((data image i j c - np_mean d) / divisor)%R (-4)%R 4%R.
Proof.
  intros Hread H0 H1 n_pixels image. split.
  - unfold _load_and_normalize. rewrite Hread. reflexivity.
  - intros c Hc d divisor. split.
    + apply (a_std_pos n_pixels d). unfold n_pixels, np_prod. nia.
    + intros i j. rewrite normalize_channels_data by exact Hc. reflexivity.
Qed.

End LoaderProperties.

(** ** Binning *)

Lemma fold_Qmin_le_init (r : list Q) : forall x, (fold_left Qmin r x <= x)%Q.
Proof.
  induction r as [|y r IH]; intros x; simpl; [apply Qle_refl|].
  eapply Qle_trans; [apply IH | apply Q.le_min_l].
Qed.

Lemma fold_Qmin_le_In (r : list Q) : forall x y,
  In y r -> (fold_left Qmin r x <= y)%Q.
Proof.
  induction r as [|z r IH]; intros x y Hin; simpl; [destruct Hin|].
  destruct Hin as [->|Hin].
  - eapply Qle_trans; [apply fold_Qmin_le_init | apply Q.le_min_r].
  - apply IH. exact Hin.
Qed.

Lemma fold_Qmax_ge_init (r : list Q) : forall x, (x <= fold_left Qmax r x)%Q.
Proof.
  induction r as [|y r IH]; intros x; simpl; [apply Qle_refl|].
  eapply Qle_trans; [apply Q.le_max_l | apply IH].
Qed.

Lemma fold_Qmax_ge_In (r : list Q) : forall x y,
  In y r -> (y <= fold_left Qmax r x)%Q.
Proof.
  induction r as [|z r IH]; intros x y Hin; simpl; [destruct Hin|].
  destruct Hin as [->|Hin].
  - eapply Qle_trans; [apply Q.le_max_r | apply fold_Qmax_ge_init].
  - apply IH. exact Hin.
Qed.

(** The smallest element of a non-empty sequence is at most its largest. *)
Lemma py_min_le_py_max (l : list Q) : l <> [] ->
  exists lo hi, py_min l = Ok lo /\ py_max l = Ok hi /\ (lo <= hi)%Q.
Proof.
  destruct l as [|x r]; [congruence|]. intros _.
  exists (fold_left Qmin r x), (fold_left Qmax r x). repeat split.
  eapply Qle_trans; [apply fold_Qmin_le_init | apply fold_Qmax_ge_init].
Qed.

Lemma zrange_length (n : Z) : 0 <= n -> Z.of_nat (List.length (zrange n)) = n.
Proof. intros Hn. unfold zrange. rewrite length_map, length_seq. lia. Qed.

Lemma zrange_head (n : Z) : 1 <= n -> exists r, zrange n = 0 :: r.
Proof.
  intros Hn. unfold zrange. destruct (Z.to_nat n) as [|k] eqn:Hk; [lia|].
  simpl. eexists. reflexivity.
Qed.

Lemma filter_length_le {A} (f : A -> bool) (l : list A) :
  (List.length (filter f l) <= List.length l)%nat.
Proof. induction l as [|x l IH]; simpl; [lia|]. destruct (f x); simpl; lia. Qed.

Lemma np_linspace_nonempty a b bins : np_linspace a b bins <> [].
Proof. unfold np_linspace. intros H. apply app_eq_nil in H. destruct H; discriminate. Qed.

(** A sample between the end points gets a bin number from 1 to [bins]. *)
Lemma bin_number_range (lo hi x : Q) (bins : Z) :
  1 <= bins -> (lo <= x)%Q -> (x <= hi)%Q ->
  let edges := np_linspace lo hi bins in
  let last_edge := last edges hi in
  let b := np_digitize x edges in
  1 <= (if Qle_bool last_edge x && Qeq_bool x last_edge then b - 1 else b)
    <= bins.
Proof.
  intros Hbins Hlo Hhi edges last_edge b.
  assert (Hlast : last_edge = hi).
  { unfold last_edge, edges, np_linspace. apply last_last. }
  set (inner := map (fun k => lo + inject_Z k * ((hi - lo) / inject_Z bins))%Q
                    (zrange bins)) in *.
  set (cnt := Z.of_nat (List.length (filter (fun e => Qle_bool e x) inner))).
  assert (Hb : b = cnt + (if Qle_bool hi x then 1 else 0)).
  { unfold b, np_digitize, edges, np_linspace. fold inner.
    rewrite filter_app, length_app. simpl. unfold cnt.
    destruct (Qle_bool hi x); simpl; lia. }
  assert (Hcnt : 1 <= cnt <= bins).
  { unfold cnt. split.
    - unfold inner. destruct (zrange_head bins Hbins) as [r ->]. simpl.
      assert (Hq : Qle_bool (lo + inject_Z 0 * ((hi - lo) / inject_Z bins)) x = true).
      { apply Qle_bool_iff. eapply Qle_trans; [|exact Hlo].
        apply Qle_lteq. right. unfold inject_Z. ring. }
      rewrite Hq. simpl. lia.
    - pose proof (filter_length_le (fun e => Qle_bool e x) inner) as Hle.
      assert (Z.of_nat (List.length inner) = bins).
      { unfold inner. rewrite length_map. apply zrange_length. lia. }
      lia. }
  rewrite Hlast, Hb.
  destruct (Qle_bool hi x) eqn:Hle; simpl.
  - assert (Heq : Qeq_bool x hi = true).
    { apply Qeq_bool_iff. apply Qle_antisym; [exact Hhi|].
      apply Qle_bool_iff. exact Hle. }
    rewrite Heq. lia.
  - lia.
Qed.

Lemma bin_axis_spec (sample : list Q) (bins : Z) :
  sample <> [] -> 1 <= bins ->
  exists edges bn,
    bin_axis sample bins = Ok (edges, bn) /\
    edges <> [] /\
    List.length bn = List.length sample /\
    Forall (fun b => 1 <= b <= bins) bn.
Proof.
  intros Hne Hbins. destruct sample as [|x0 r]; [congruence|].
  unfold bin_axis. destruct (Z.leb_spec bins 0) as [|_]; [lia|].
  set (smin := fold_left Qmin r x0). set (smax := fold_left Qmax r x0).
  assert (Hrange : forall x, In x (x0 :: r) -> (smin <= x)%Q /\ (x <= smax)%Q).
  { intros x [<-|Hin]; split.
    - apply fold_Qmin_le_init.
    - apply fold_Qmax_ge_init.
    - apply fold_Qmin_le_In, Hin.
    - apply fold_Qmax_ge_In, Hin. }
  destruct (Qeq_bool smin smax) eqn:Heq.
  - eexists. eexists. split; [reflexivity|]. split; [apply np_linspace_nonempty|].
    split; [apply length_map|].
    apply Forall_forall. intros b Hb. apply in_map_iff in Hb.
    destruct Hb as [x [<- Hx]]. destruct (Hrange x Hx) as [H1 H2].
    apply bin_number_range; [exact Hbins | |].
    + eapply Qle_trans; [|exact H1]. unfold Qminus. rewrite <- (Qplus_0_r smin) at 2.
      apply Qplus_le_r. discriminate.
    + eapply Qle_trans; [exact H2|]. rewrite <- (Qplus_0_r smax) at 1.
      apply Qplus_le_r. discriminate.
  - eexists. eexists. split; [reflexivity|]. split; [apply np_linspace_nonempty|].
    split; [apply length_map|].
    apply Forall_forall. intros b Hb. apply in_map_iff in Hb.
    destruct Hb as [x [<- Hx]]. destruct (Hrange x Hx) as [H1 H2].
    apply bin_number_range; assumption.
Qed.

Lemma binned_statistic_2d_spec (x y : list Q) (bins : Z) :
  x <> [] -> List.length y = List.length x -> 1 <= bins ->
  exists xe ye bn0 bn1,
    binned_statistic_2d x y bins = Ok (xe, ye, bn0, bn1) /\
    xe <> [] /\ ye <> [] /\
    List.length bn0 = List.length x /\ List.length bn1 = List.length x /\
    Forall (fun b => 1 <= b <= bins) bn0 /\
    Forall (fun b => 1 <= b <= bins) bn1.
Proof.
  intros Hx Hlen Hbins.
  assert (Hy : y <> []). { destruct y; [destruct x; [congruence|discriminate]|discriminate]. }
  destruct (bin_axis_spec x bins Hx Hbins) as [xe [bn0 [E0 [Hxe [L0 F0]]]]].
  destruct (bin_axis_spec y bins Hy Hbins) as [ye [bn1 [E1 [Hye [L1 F1]]]]].
  exists xe, ye, bn0, bn1. unfold binned_statistic_2d. rewrite E0, E1.
  repeat split; try assumption. congruence.
Qed.

(** ** Slices of the canvas *)

Lemma half_bounds (f : Z) : 2 * (f / 2) <= f <= 2 * (f / 2) + 1.
Proof. pose proof (Z.div_mod f 2 ltac:(lia)). pose proof (Z.mod_pos_bound f 2 ltac:(lia)). lia. Qed.

(** The slice of a tile with a bin number from 1 to [bins] is taken as it is
    written: it starts at a non-negative index, ends inside the axis and has
    the length of a tile. *)
Lemma tile_slice_inside (f bins xx : Z) :
  0 <= f -> 1 <= bins -> 1 <= xx <= bins ->
  let len := (f + 1) * bins + f / 2 in
  let start := xx * f - f / 2 in
  let stop := (xx + 1) * f - f / 2 in
  0 <= start /\ stop <= len /\
  slice_indices start stop len = (start, stop) /\
  slice_length (start, stop) = f.
Proof.
  intros Hf Hbins Hxx len start stop.
  pose proof (half_bounds f) as Hh.
  assert (H0 : 0 <= start) by (unfold start; nia).
  assert (H1 : stop <= len) by (unfold stop, len; nia).
  assert (H2 : start <= stop) by (unfold start, stop; nia).
  repeat split; try assumption.
  - unfold slice_indices, slice_bound.
    destruct (Z.ltb_spec start 0); [lia|].
    destruct (Z.ltb_spec stop 0); [lia|].
    f_equal; lia.
  - unfold slice_length. simpl. unfold start, stop. lia.
Qed.

Lemma slice_bound_id (v len : Z) : 0 <= v <= len -> slice_bound v len = v.
Proof. intros Hv. unfold slice_bound. destruct (Z.ltb_spec v 0); lia. Qed.

Lemma bcast_index_id (s i : Z) : 0 <= i < s -> bcast_index s i = i.
Proof. intros Hi. unfold bcast_index. destruct (Z.eqb_spec s 1); lia. Qed.

Lemma broadcastable_refl (s : Z) : broadcastable s s = true.
Proof. unfold broadcastable. rewrite Z.eqb_refl. reflexivity. Qed.

(** Writing an image of the output shape at the tile of an in-range key. *)
Lemma setitem_tile (output_shape : Z * Z) (bins : Z) (canvas : ndarray Z)
  (xy : key) (im : ndarray R) :
  1 <= fst output_shape -> 1 <= snd output_shape -> 1 <= bins ->
  1 <= fst xy <= bins -> 1 <= snd xy <= bins ->
  shape canvas = ((fst output_shape + 1) * bins + fst output_shape / 2,
                  (snd output_shape + 1) * bins + snd output_shape / 2, 3) ->
  shape im = (fst output_shape, snd output_shape, 3) ->
  exists canvas',
    setitem_block canvas
      (fst xy * fst output_shape - fst output_shape / 2,
       (fst xy + 1) * fst output_shape - fst output_shape / 2)
      (snd xy * snd output_shape - snd output_shape / 2,
       (snd xy + 1) * snd output_shape - snd output_shape / 2) im
    = Ok canvas' /\
    shape canvas' = shape canvas /\
    (forall i j c, in_tile output_shape xy i j -> 0 <= c < 3 ->
       data canvas' i j c =
       astype_uint8 (data im (i - tile_start (fst output_shape) (fst xy))
                             (j - tile_start (snd output_shape) (snd xy)) c)) /\
    (forall i j c, ~ in_tile output_shape xy i j ->
       data canvas' i j c = data canvas i j c).
Proof.
  destruct output_shape as [f0 f1]. destruct xy as [xx yy]. simpl.
  intros Hf0 Hf1 Hbins Hxx Hyy Hc Him.
  destruct (tile_slice_inside f0 bins xx ltac:(lia) Hbins Hxx) as [Ax [Bx _]].
  destruct (tile_slice_inside f1 bins yy ltac:(lia) Hbins Hyy) as [Ay [By _]].
  pose proof (half_bounds f0) as Hh0. pose proof (half_bounds f1) as Hh1.
  unfold setitem_block. rewrite Hc, Him.
  unfold slice_indices, slice_length. cbn [fst snd].
  rewrite !slice_bound_id by nia.
  replace (Z.max 0 ((xx + 1) * f0 - f0 / 2 - (xx * f0 - f0 / 2))) with f0 by lia.
  replace (Z.max 0 ((yy + 1) * f1 - f1 / 2 - (yy * f1 - f1 / 2))) with f1 by lia.
  rewrite !broadcastable_refl. cbn [andb].
  eexists. split; [reflexivity|]. split; [reflexivity|]. split.
  - intros i j c [Hi Hj] Hk. unfold tile_start in *. simpl in Hi, Hj. simpl.
    destruct (Z.leb_spec (xx * f0 - f0 / 2) i); [|lia].
    destruct (Z.ltb_spec i (xx * f0 - f0 / 2 + f0)); [|lia].
    destruct (Z.leb_spec (yy * f1 - f1 / 2) j); [|lia].
    destruct (Z.ltb_spec j (yy * f1 - f1 / 2 + f1)); [|lia].
    destruct (Z.leb_spec 0 c); [|lia].
    destruct (Z.ltb_spec c 3); [|lia]. simpl.
    rewrite !bcast_index_id by lia. reflexivity.
  - intros i j c Hout. unfold in_tile, tile_start in Hout. simpl in Hout. simpl.
    destruct (Z.leb_spec (xx * f0 - f0 / 2) i); simpl; [|reflexivity].
    destruct (Z.ltb_spec i (xx * f0 - f0 / 2 + f0)); simpl; [|reflexivity].
    destruct (Z.leb_spec (yy * f1 - f1 / 2) j); simpl; [|reflexivity].
    destruct (Z.ltb_spec j (yy * f1 - f1 / 2 + f1)); simpl; [|reflexivity].
    exfalso. apply Hout. lia.
Qed.

(** Tiles of different in-range keys do not meet. *)
Lemma tiles_disjoint (output_shape : Z * Z) (xy xy' : key) (i j : Z) :
  0 <= fst output_shape -> 0 <= snd output_shape ->
  in_tile output_shape xy i j -> in_tile output_shape xy' i j -> xy = xy'.
Proof.
  destruct output_shape as [f0 f1], xy as [xx yy], xy' as [xx' yy'].
  unfold in_tile, tile_start. simpl. intros Hf0 Hf1 [Hi Hj] [Hi' Hj'].
  f_equal; nia.
Qed.

(** ** Running the monad *)

Lemma bind_ok {A B : Type} (m : M A) (k : A -> M B) (st st' : state) (a : A) :
  m st = (Ok a, st') -> bind m k st = k a st'.
Proof. intros H. unfold bind. rewrite H. reflexivity. Qed.

Lemma bind_raise {A B : Type} (m : M A) (k : A -> M B) (st st' : state)
  (e : exn) :
  m st = (Raise e, st') -> bind m k st = (Raise e, st').
Proof. intros H. unfold bind. rewrite H. reflexivity. Qed.

(** ** Reading buckets from the heap *)

Lemma is_image_app (shp : Z * Z) (hp more : list pyobj) (l : loc) :
  is_image shp hp l -> is_image shp (hp ++ more) l.
Proof.
  intros [a [Ha Hs]]. exists a. split; [|exact Hs].
  rewrite nth_error_app1; [exact Ha|]. apply nth_error_Some. congruence.
Qed.

Lemma is_image_lt (shp : Z * Z) (hp : list pyobj) (l : loc) :
  is_image shp hp l -> (l < List.length hp)%nat.
Proof. intros [a [Ha _]]. apply nth_error_Some. congruence. Qed.

Lemma arrays_at_app (shp : Z * Z) (hp more : list pyobj) (locs : list loc) :
  Forall (is_image shp hp) locs ->
  arrays_at (hp ++ more) locs = arrays_at hp locs.
Proof.
  intros Hall. unfold arrays_at. induction Hall as [|l locs Hl _ IH]; simpl; [reflexivity|].
  rewrite IH. rewrite nth_error_app1 by (eapply is_image_lt; exact Hl). reflexivity.
Qed.

Lemma arrays_at_shape (shp : Z * Z) (hp : list pyobj) (locs : list loc) :
  Forall (is_image shp hp) locs ->
  Forall (fun a => shape a = (fst shp, snd shp, 3)) (arrays_at hp locs).
Proof.
  intros Hall. unfold arrays_at. induction Hall as [|l locs [a [Ha Hs]] _ IH]; simpl.
  - constructor.
  - rewrite Ha. simpl. constructor; assumption.
Qed.

Lemma arrays_at_length (shp : Z * Z) (hp : list pyobj) (locs : list loc) :
  Forall (is_image shp hp) locs ->
  List.length (arrays_at hp locs) = List.length locs.
Proof.
  intros Hall. unfold arrays_at. induction Hall as [|l locs [a [Ha Hs]] _ IH]; simpl.
  - reflexivity.
  - rewrite Ha. simpl. f_equal. exact IH.
Qed.

Lemma read_bucket (shp : Z * Z) (locs : list loc) (st : state) :
  Forall (is_image shp (heap st)) locs ->
  mapM read_f64 locs st = (Ok (arrays_at (heap st) locs), st).
Proof.
  intros Hall. unfold arrays_at.
  induction Hall as [|l locs [a [Ha Hs]] _ IH]; simpl; [reflexivity|].
  erewrite bind_ok; [|unfold read_f64; rewrite Ha; reflexivity].
  erewrite bind_ok; [|exact IH]. rewrite Ha. reflexivity.
Qed.

Lemma shape_eqb_refl (s : Z * Z * Z) : shape_eqb s s = true.
Proof. unfold shape_eqb. rewrite !Z.eqb_refl. reflexivity. Qed.

Lemma stack_mean_ok (s : Z * Z * Z) (images : list (ndarray R)) :
  images <> [] -> Forall (fun a => shape a = s) images ->
  stack_mean images =
  Ok (mk_ndarray s
        (fun i j c => np_mean (map (fun im => data im i j c) images))).
Proof.
  intros Hne Hall. destruct images as [|a rest]; [congruence|].
  inversion Hall as [|? ? Ha Hrest]; subst. unfold stack_mean.
  assert (Hfb : forallb (fun b => shape_eqb (shape b) (shape a)) rest = true).
  { apply forallb_forall. intros b Hb. rewrite Forall_forall in Hrest.
    rewrite (Hrest b Hb). apply shape_eqb_refl. }
  rewrite Hfb. reflexivity.
Qed.

Lemma list_set_last {A : Type} (l : list A) (x y : A) :
  list_set (l ++ [x]) (List.length l) y = l ++ [y].
Proof. induction l as [|z l IH]; simpl; [reflexivity|]. rewrite IH. reflexivity. Qed.

(** ** Writing the tiles *)

Section Tiles.

Variable output_shape : Z * Z.
Variable bins : Z.
Hypothesis Hf0 : 1 <= fst output_shape.
Hypothesis Hf1 : 1 <= snd output_shape.
Hypothesis Hbins : 1 <= bins.


Lemma place_tile_spec (hp : list pyobj) (tr : list event)
  (canvas : ndarray Z) (xy : key) (locs : list loc) :
  shape canvas = canvas_shape output_shape bins ->
  key_in_range bins xy -> locs <> [] -> Forall (is_image output_shape hp) locs ->
  exists canvas',
    place_tile output_shape
      (fst output_shape / 2, snd output_shape / 2) (List.length hp) xy locs
      (mk_state (hp ++ [U8 canvas]) tr)
    = (Ok tt, mk_state (hp ++ [U8 canvas']) tr) /\
    shape canvas' = canvas_shape output_shape bins /\
    (forall i j c, in_tile output_shape xy i j -> 0 <= c < 3 ->
       data canvas' i j c = tile_value output_shape hp xy locs i j c) /\
    (forall i j c, ~ in_tile output_shape xy i j ->
       data canvas' i j c = data canvas i j c).
Proof.
  intros Hshape [Hxx Hyy] Hne Hall.
  set (st := mk_state (hp ++ [U8 canvas]) tr).
  assert (Hall' : Forall (is_image output_shape (heap st)) locs).
  { eapply Forall_impl; [|exact Hall]. intros l Hl. apply is_image_app. exact Hl. }
  set (im := mk_ndarray (fst output_shape, snd output_shape, 3)
               (fun i j c => np_mean (map (fun a => data a i j c) (arrays_at hp locs)))).
  assert (Hnonempty : arrays_at hp locs <> []).
  { intros E. pose proof (arrays_at_length _ _ _ Hall) as Hl. rewrite E in Hl.
    destruct locs; [congruence|discriminate]. }
  destruct (setitem_tile output_shape bins canvas xy im Hf0 Hf1 Hbins Hxx Hyy
              Hshape eq_refl) as [canvas' [Hset [Hsh [Hin Hout]]]].
  exists canvas'. split; [|split; [congruence|split]].
  - unfold place_tile.
    erewrite bind_ok; [|apply (read_bucket output_shape); exact Hall'].
    simpl heap. rewrite (arrays_at_app output_shape) by exact Hall.
    erewrite bind_ok;
      [|unfold lift; rewrite (stack_mean_ok _ _ Hnonempty (arrays_at_shape _ _ _ Hall));
        reflexivity].
    fold im. destruct xy as [xx yy]. cbn [fst snd] in *.
    erewrite bind_ok;
      [|unfold read_u8; simpl; rewrite nth_error_app2 by lia;
        rewrite Nat.sub_diag; reflexivity].
    erewrite bind_ok; [|unfold lift; cbn [fst snd]; rewrite Hset; reflexivity].
    unfold write. simpl. rewrite list_set_last. reflexivity.
  - intros i j c Ht Hc. rewrite (Hin i j c Ht Hc). reflexivity.
  - exact Hout.
Qed.

Lemma fill_grid_spec (hp : list pyobj) (tr : list event) (items : dict) :
  forall canvas : ndarray Z,
  shape canvas = canvas_shape output_shape bins ->
  NoDup (map fst items) ->
  (forall xy locs, In (xy, locs) items ->
     key_in_range bins xy /\ locs <> [] /\ Forall (is_image output_shape hp) locs) ->
  exists canvas',
    fill_grid output_shape
      (fst output_shape / 2, snd output_shape / 2) (List.length hp) items
      (mk_state (hp ++ [U8 canvas]) tr)
    = (Ok tt, mk_state (hp ++ [U8 canvas']) tr) /\
    shape canvas' = canvas_shape output_shape bins /\
    (forall xy locs i j c, In (xy, locs) items ->
       in_tile output_shape xy i j -> 0 <= c < 3 ->
       data canvas' i j c = tile_value output_shape hp xy locs i j c) /\
    (forall i j c,
       (forall xy, In xy (map fst items) -> ~ in_tile output_shape xy i j) ->
       data canvas' i j c = data canvas i j c).
Proof.
  induction items as [|[xy locs] rest IH]; intros canvas Hshape Hnd Hok.
  - exists canvas. split; [reflexivity|]. split; [exact Hshape|]. split.
    + intros ? ? ? ? ? [].
    + reflexivity.
  - simpl in Hnd. inversion Hnd as [|? ? Hnotin Hnd']; subst.
    destruct (Hok xy locs (or_introl eq_refl)) as [Hkey [Hne Hall]].
    destruct (place_tile_spec hp tr canvas xy locs Hshape Hkey Hne Hall)
      as [canvas1 [Hrun1 [Hsh1 [Hin1 Hout1]]]].
    destruct (IH canvas1 Hsh1 Hnd' (fun xy' locs' H => Hok xy' locs' (or_intror H)))
      as [canvas2 [Hrun2 [Hsh2 [Hin2 Hout2]]]].
    exists canvas2. split; [|split; [exact Hsh2|split]].
    + simpl. erewrite bind_ok; [|exact Hrun1]. exact Hrun2.
    + intros xy' locs' i j c [Heq|Hin] Ht Hc.
      * inversion Heq; subst xy' locs'.
        rewrite Hout2; [apply Hin1; assumption|].
        intros xy2 Hxy2 Ht2.
        assert (xy2 = xy).
        { apply (tiles_disjoint output_shape xy2 xy i j); try lia; assumption. }
        subst. contradiction.
      * apply (Hin2 xy' locs' i j c Hin Ht Hc).
    + intros i j c Hnone. rewrite Hout2.
      * apply Hout1. apply Hnone. left. reflexivity.
      * intros xy' Hxy'. apply Hnone. right. exact Hxy'.
Qed.

End Tiles.

(** ** The grid as a dict *)

Lemma key_eqb_eq (a b : key) : key_eqb a b = true <-> a = b.
Proof.
  destruct a as [a0 a1], b as [b0 b1]. unfold key_eqb. simpl.
  rewrite andb_true_iff, !Z.eqb_eq. split.
  - intros [-> ->]. reflexivity.
  - intros H. inversion H. split; reflexivity.
Qed.

Lemma key_eqb_refl (a : key) : key_eqb a a = true.
Proof. apply key_eqb_eq. reflexivity. Qed.

Lemma key_eqb_neq (a b : key) : a <> b -> key_eqb a b = false.
Proof.
  intros Hne. destruct (key_eqb a b) eqn:E; [|reflexivity].
  apply key_eqb_eq in E. contradiction.
Qed.

Lemma dict_get_In (g : dict) (b : key) (v : list loc) :
  dict_get g b = Some v -> In (b, v) g.
Proof.
  induction g as [|[k w] r IH]; simpl; [discriminate|].
  destruct (key_eqb k b) eqn:E.
  - intros H. inversion H; subst. apply key_eqb_eq in E. subst. left. reflexivity.
  - intros H. right. apply IH. exact H.
Qed.

Lemma dict_In_get (g : dict) (b : key) (v : list loc) :
  NoDup (map fst g) -> In (b, v) g -> dict_get g b = Some v.
Proof.
  induction g as [|[k w] r IH]; simpl; intros Hnd Hin; [destruct Hin|].
  inversion Hnd as [|? ? Hnotin Hnd']; subst.
  destruct Hin as [Heq|Hin].
  - inversion Heq; subst. rewrite key_eqb_refl. reflexivity.
  - destruct (key_eqb k b) eqn:E.
    + apply key_eqb_eq in E. subst. exfalso. apply Hnotin.
      apply (in_map fst) in Hin. exact Hin.
    + apply IH; assumption.
Qed.

Lemma dict_get_None_keys (g : dict) (b : key) :
  dict_get g b = None <-> ~ In b (map fst g).
Proof.
  induction g as [|[k w] r IH]; simpl.
  - split; [intros _ []|reflexivity].
  - destruct (key_eqb k b) eqn:E.
    + apply key_eqb_eq in E. subst. split; [discriminate|].
      intros H. exfalso. apply H. left. reflexivity.
    + rewrite IH. split.
      * intros H [Hk|Hin]; [subst; rewrite key_eqb_refl in E; discriminate|].
        contradiction.
      * intros H Hin. apply H. right. exact Hin.
Qed.

Lemma dict_get_set_same (g : dict) (b : key) (v : list loc) :
  dict_get (dict_set g b v) b = Some v.
Proof.
  induction g as [|[k w] r IH]; simpl.
  - rewrite key_eqb_refl. reflexivity.
  - destruct (key_eqb k b) eqn:E; simpl; rewrite E; [reflexivity|exact IH].
Qed.

Lemma dict_get_set_other (g : dict) (b b' : key) (v : list loc) :
  b <> b' -> dict_get (dict_set g b v) b' = dict_get g b'.
Proof.
  intros Hne. induction g as [|[k w] r IH]; simpl.
  - rewrite (key_eqb_neq _ _ Hne). reflexivity.
  - destruct (key_eqb k b) eqn:E; simpl.
    + apply key_eqb_eq in E. subst. rewrite (key_eqb_neq _ _ Hne). reflexivity.
    + destruct (key_eqb k b'); [reflexivity|exact IH].
Qed.

Lemma dict_set_keys_old (g : dict) (b : key) (v w : list loc) :
  dict_get g b = Some w -> map fst (dict_set g b v) = map fst g.
Proof.
  induction g as [|[k u] r IH]; simpl; [discriminate|].
  destruct (key_eqb k b) eqn:E; simpl; [reflexivity|].
  intros H. rewrite (IH H). reflexivity.
Qed.

Lemma dict_set_keys_new (g : dict) (b : key) (v : list loc) :
  dict_get g b = None -> map fst (dict_set g b v) = map fst g ++ [b].
Proof.
  induction g as [|[k u] r IH]; simpl; [reflexivity|].
  destruct (key_eqb k b) eqn:E; simpl; [discriminate|].
  intros H. rewrite (IH H). reflexivity.
Qed.

Lemma bucket_set_same (g : dict) (b : key) (v : list loc) :
  bucket (dict_set g b v) b = v.
Proof. unfold bucket. rewrite dict_get_set_same. reflexivity. Qed.

Lemma bucket_set_other (g : dict) (b b' : key) (v : list loc) :
  b <> b' -> bucket (dict_set g b v) b' = bucket g b'.
Proof. intros H. unfold bucket. rewrite dict_get_set_other by exact H. reflexivity. Qed.

Lemma NoDup_snoc {A : Type} (l : list A) (x : A) :
  NoDup l -> ~ In x l -> NoDup (l ++ [x]).
Proof.
  intros Hnd Hx. apply NoDup_app; [exact Hnd | constructor; [intros []|constructor] |].
  intros y Hy [<-|[]]. contradiction.
Qed.

(** The effect of [if b not in grid: grid[b] = []] followed by
    [grid[b].append(l)]. *)
Lemma ensure_append (g : dict) (b : key) (l : loc) :
  let g' := dict_append (ensure g b) b l in
  (NoDup (map fst g) -> NoDup (map fst g')) /\
  (forall b', In b' (map fst g') <-> In b' (map fst g) \/ b' = b) /\
  bucket g' b = bucket g b ++ [l] /\
  (forall b', b' <> b -> dict_get g' b' = dict_get g b').
Proof.
  unfold ensure, dict_append. destruct (dict_get g b) as [v|] eqn:E.
  - rewrite E. cbn zeta. repeat split.
    + rewrite (dict_set_keys_old _ _ _ _ E). tauto.
    + rewrite (dict_set_keys_old _ _ _ _ E). intros H. left. exact H.
    + rewrite (dict_set_keys_old _ _ _ _ E). intros [H| ->]; [exact H|].
      apply dict_get_In in E. apply (in_map fst) in E. exact E.
    + rewrite bucket_set_same. unfold bucket. rewrite E. reflexivity.
    + intros b' Hne. apply dict_get_set_other. congruence.
  - rewrite dict_get_set_same. cbn zeta.
    assert (Hk : map fst (dict_set (dict_set g b []) b ([] ++ [l])) = map fst g ++ [b]).
    { rewrite (dict_set_keys_old _ _ _ [] (dict_get_set_same _ _ _)).
      apply dict_set_keys_new. exact E. }
    repeat split.
    + rewrite Hk. intros Hnd. apply NoDup_snoc; [exact Hnd|].
      apply dict_get_None_keys. exact E.
    + rewrite Hk. rewrite in_app_iff. simpl. intros [H|[H|[]]]; [left; exact H|right; auto].
    + rewrite Hk. rewrite in_app_iff. simpl. intros [H|H]; [left; exact H|right; left; auto].
    + rewrite bucket_set_same. unfold bucket. rewrite E. reflexivity.
    + intros b' Hne. rewrite !dict_get_set_other by congruence. reflexivity.
Qed.

Lemma ensure_append_keys_new (g : dict) (b : key) (l : loc) :
  dict_get g b = None ->
  map fst (dict_append (ensure g b) b l) = map fst g ++ [b].
Proof.
  intros E. unfold ensure, dict_append. rewrite E, dict_get_set_same.
  rewrite (dict_set_keys_old _ _ _ [] (dict_get_set_same _ _ _)).
  apply dict_set_keys_new. exact E.
Qed.

Lemma existsb_key_In (b : key) (seen : list key) :
  existsb (key_eqb b) seen = true <-> In b seen.
Proof.
  rewrite existsb_exists. split.
  - intros [x [Hx E]]. apply key_eqb_eq in E. subst. exact Hx.
  - intros H. exists b. split; [exact H|apply key_eqb_refl].
Qed.

Lemma members_from_other (k : nat) (rest : list key) (b b' : key) :
  b <> b' -> members_from k (b :: rest) b' = members_from (S k) rest b'.
Proof. intros H. simpl. rewrite (key_eqb_neq _ _ H). reflexivity. Qed.

Lemma members_from_same (k : nat) (rest : list key) (b : key) :
  members_from k (b :: rest) b = k :: members_from (S k) rest b.
Proof. simpl. rewrite key_eqb_refl. reflexivity. Qed.

Lemma members_from_range (rest : list key) (b : key) : forall k idx,
  In idx (members_from k rest b) ->
  (k <= idx < k + List.length rest)%nat /\ nth_error rest (idx - k) = Some b.
Proof.
  induction rest as [|b' rest IH]; intros k idx; simpl; [intros []|].
  destruct (key_eqb b' b) eqn:E.
  - intros [<-|Hin].
    + split; [lia|]. rewrite Nat.sub_diag. simpl. apply key_eqb_eq in E. congruence.
    + destruct (IH _ _ Hin) as [Hr Hn]. split; [lia|].
      replace (idx - k)%nat with (S (idx - S k)) by lia. exact Hn.
  - intros Hin. destruct (IH _ _ Hin) as [Hr Hn]. split; [lia|].
    replace (idx - k)%nat with (S (idx - S k)) by lia. exact Hn.
Qed.

Lemma members_from_complete (rest : list key) (b : key) : forall k idx,
  nth_error rest idx = Some b -> In (k + idx)%nat (members_from k rest b).
Proof.
  induction rest as [|b' rest IH]; intros k idx Hn; [destruct idx; discriminate|].
  destruct idx as [|idx]; simpl in Hn.
  - inversion Hn; subst. rewrite members_from_same, Nat.add_0_r. left. reflexivity.
  - simpl. replace (k + S idx)%nat with (S k + idx)%nat by lia.
    destruct (key_eqb b' b); [right|]; apply IH; exact Hn.
Qed.

Lemma members_from_nonempty (rest : list key) (b : key) (k : nat) :
  In b rest -> members_from k rest b <> [].
Proof.
  intros Hin. apply In_nth_error in Hin. destruct Hin as [idx Hn].
  intros E. pose proof (members_from_complete rest b k idx Hn) as H.
  rewrite E in H. destruct H.
Qed.

(** ** Building the grid *)

Lemma self_at_app (hp more : list pyobj) (self : loc)
  (this : ManifoldProjection2D) :
  self_at hp self this -> self_at (hp ++ more) self this.
Proof.
  unfold self_at. intros H. rewrite nth_error_app1; [exact H|].
  apply nth_error_Some. congruence.
Qed.

Lemma read_self_ok (self : loc) (this : ManifoldProjection2D) (st : state) :
  self_at (heap st) self this -> read_self self st = (Ok this, st).
Proof. unfold self_at, read_self. intros ->. reflexivity. Qed.

Section GridBuilding.

Variable imread : string -> option (ndarray R).
Variable resize : ndarray R -> Z * Z -> ndarray R.
Variable self : loc.
Variable this : ManifoldProjection2D.

(** *** With preloaded images *)

Lemma grid_step_preload (g : dict) (idx : nat) (b : key) (l : loc)
  (st : state) :
  self_at (heap st) self this ->
  _images this <> [] -> nth_error (_images this) idx = Some l ->
  grid_step imread resize self g idx b st
  = (Ok (dict_append (ensure g b) b l), st).
Proof.
  intros Hself Hne Hl. unfold grid_step. fold (ensure g b).
  erewrite bind_ok; [|apply read_self_ok; exact Hself].
  destruct (_images this) as [|x r] eqn:E; [congruence|].
  rewrite Hl. reflexivity.
Qed.

Lemma build_grid_preload (rest : list key) : forall (k : nat) (g : dict)
  (st : state),
  self_at (heap st) self this ->
  _images this <> [] ->
  (k + List.length rest <= List.length (_images this))%nat ->
  exists g',
    build_grid imread resize self rest k g st = (Ok g', st) /\
    (NoDup (map fst g) -> NoDup (map fst g')) /\
    (forall b, In b (map fst g') <-> In b (map fst g) \/ In b rest) /\
    (forall b, bucket g' b =
               bucket g b ++ map (fun idx => nth idx (_images this) 0%nat)
                                 (members_from k rest b)).
Proof.
  induction rest as [|b rest IH]; intros k g st Hself Hne Hlen.
  - exists g. simpl. split; [reflexivity|]. split; [tauto|]. split.
    + intros b. tauto.
    + intros b. rewrite app_nil_r. reflexivity.
  - simpl in Hlen.
    assert (Hk : (k < List.length (_images this))%nat) by lia.
    pose proof (nth_error_nth' (_images this) 0%nat Hk) as Hl.
    set (l := nth k (_images this) 0%nat) in *.
    pose proof (ensure_append g b l) as Hea. cbv zeta in Hea.
    destruct Hea as [Hnd1 [Hkeys1 [Hb1 Hother1]]].
    set (g1 := dict_append (ensure g b) b l) in *.
    destruct (IH (S k) g1 st Hself Hne ltac:(lia))
      as [g' [Hrun [Hnd [Hkeys Hbucket]]]].
    exists g'. split; [|split; [|split]].
    + cbn [build_grid]. erewrite bind_ok; [|apply grid_step_preload; eassumption].
      exact Hrun.
    + intros H. apply Hnd, Hnd1, H.
    + intros b'. rewrite Hkeys, Hkeys1. simpl. intuition congruence.
    + intros b'. rewrite Hbucket.
      destruct (key_eqb b b') eqn:E.
      * apply key_eqb_eq in E. subst b'. rewrite Hb1, members_from_same.
        rewrite <- app_assoc. reflexivity.
      * assert (Hneq : b <> b').
        { intros ->. rewrite key_eqb_refl in E. discriminate. }
        rewrite (members_from_other _ _ _ _ Hneq).
        unfold bucket. rewrite Hother1 by congruence. reflexivity.
Qed.

(** *** Without preloaded images *)

Lemma get_image_ok (filename : string) (a : ndarray R) (st : state) :
  self_at (heap st) self this ->
  load imread resize this filename = Ok a ->
  _get_image imread resize self filename st
  = (Ok (List.length (heap st)),
     mk_state (heap st ++ [F64 a]) (trace st ++ [EvImread filename])).
Proof.
  intros Hself Hl. unfold _get_image.
  erewrite bind_ok; [|apply read_self_ok; exact Hself].
  erewrite bind_ok; [|reflexivity].
  erewrite bind_ok; [|unfold lift; unfold load in Hl; rewrite Hl; reflexivity].
  reflexivity.
Qed.

Lemma grid_step_lazy_old (g : dict) (idx : nat) (b : key) (st : state) :
  self_at (heap st) self this ->
  _images this = [] ->
  (forall b' v, dict_get g b' = Some v -> v <> []) ->
  In b (map fst g) ->
  grid_step imread resize self g idx b st = (Ok g, st).
Proof.
  intros Hself Hlazy Hinv Hin. unfold grid_step.
  erewrite bind_ok; [|apply read_self_ok; exact Hself]. rewrite Hlazy.
  destruct (dict_get g b) as [v|] eqn:E.
  - destruct v as [|x v]; [exfalso; apply (Hinv b [] E); reflexivity|].
    rewrite E. reflexivity.
  - apply dict_get_None_keys in E. contradiction.
Qed.

Lemma grid_step_lazy_new (g : dict) (idx : nat) (b : key) (a : ndarray R)
  (st : state) :
  self_at (heap st) self this ->
  _images this = [] ->
  ~ In b (map fst g) ->
  (idx < List.length (_image_files this))%nat ->
  load imread resize this (file_at this idx) = Ok a ->
  grid_step imread resize self g idx b st
  = (Ok (dict_append (ensure g b) b (List.length (heap st))),
     mk_state (heap st ++ [F64 a]) (trace st ++ [EvImread (file_at this idx)])).
Proof.
  intros Hself Hlazy Hnew Hidx Hload. unfold grid_step. fold (ensure g b).
  erewrite bind_ok; [|apply read_self_ok; exact Hself].
  rewrite Hlazy. apply dict_get_None_keys in Hnew.
  unfold ensure at 1. rewrite Hnew, dict_get_set_same.
  rewrite (nth_error_nth' (_image_files this) EmptyString Hidx). fold (file_at this idx).
  erewrite bind_ok; [|apply get_image_ok; [exact Hself|exact Hload]]. reflexivity.
Qed.

Hypothesis Hlazy : _images this = [].
Hypothesis Hfiles : forall idx, (idx < List.length (_image_files this))%nat ->
  exists a, load imread resize this (file_at this idx) = Ok a.

Lemma build_grid_lazy (rest : list key) : forall (k : nat) (g : dict)
  (st : state),
  self_at (heap st) self this ->
  (forall b v, dict_get g b = Some v -> v <> []) ->
  (k + List.length rest <= List.length (_image_files this))%nat ->
  exists g' new,
    build_grid imread resize self rest k g st
    = (Ok g',
       mk_state (heap st ++ map F64 new)
         (trace st ++ map (fun idx => EvImread (file_at this idx))
                          (first_indices k rest (map fst g)))) /\
    Forall2 (fun idx a => load imread resize this (file_at this idx) = Ok a)
            (first_indices k rest (map fst g)) new /\
    (NoDup (map fst g) -> NoDup (map fst g')) /\
    (forall b, In b (map fst g') <-> In b (map fst g) \/ In b rest) /\
    (forall b, In b (map fst g) -> dict_get g' b = dict_get g b) /\
    (forall b, ~ In b (map fst g) -> In b rest ->
       exists l a,
         dict_get g' b = Some [l] /\
         nth_error (heap st ++ map F64 new) l = Some (F64 a) /\
         load imread resize this
           (file_at this (hd 0%nat (members_from k rest b))) = Ok a).
Proof.
  induction rest as [|b rest IH]; intros k g st Hself Hinv Hlen.
  - exists g, []. simpl. rewrite !app_nil_r. destruct st as [hp tr]. simpl.
    split; [reflexivity|]. split; [constructor|]. split; [tauto|].
    split; [intros b; tauto|]. split; [reflexivity|]. intros b _ [].
  - simpl in Hlen. cbn [first_indices].
    destruct (existsb (key_eqb b) (map fst g)) eqn:Hseen.
    + apply existsb_key_In in Hseen.
      destruct (IH (S k) g st Hself Hinv ltac:(lia))
        as [g' [new [Hrun [Hnew [Hnd [Hkeys [Hold Hfresh]]]]]]].
      exists g', new. split; [|split; [exact Hnew|split; [exact Hnd|split; [|split; [exact Hold|]]]]].
      * cbn [build_grid].
        erewrite bind_ok; [|apply grid_step_lazy_old; assumption]. exact Hrun.
      * intros b'. rewrite Hkeys. simpl. intuition (subst; auto).
      * intros b' Hnot Hin.
        assert (Hneq : b <> b') by (intros ->; contradiction).
        destruct Hin as [Heq|Hin]; [contradiction|].
        rewrite (members_from_other _ _ _ _ Hneq). apply Hfresh; assumption.
    + assert (Hnotin : ~ In b (map fst g)).
      { intros H. apply existsb_key_In in H. congruence. }
      destruct (Hfiles k ltac:(lia)) as [a Ha].
      pose proof (ensure_append g b (List.length (heap st))) as Hea. cbv zeta in Hea.
      destruct Hea as [Hnd1 [Hkeys1 [Hb1 Hother1]]].
      pose proof (ensure_append_keys_new g b (List.length (heap st))
                    (proj2 (dict_get_None_keys g b) Hnotin)) as Hk1.
      set (g1 := dict_append (ensure g b) b (List.length (heap st))) in *.
      set (st1 := mk_state (heap st ++ [F64 a])
                    (trace st ++ [EvImread (file_at this k)])).
      assert (Hg1b : dict_get g1 b = Some [List.length (heap st)]).
      { destruct (dict_get g1 b) as [v|] eqn:E.
        - unfold bucket in Hb1. rewrite E in Hb1.
          rewrite (proj2 (dict_get_None_keys g b) Hnotin) in Hb1. subst v. reflexivity.
        - apply dict_get_None_keys in E. exfalso. apply E. apply Hkeys1. right. reflexivity. }
      assert (Hinv1 : forall b' v, dict_get g1 b' = Some v -> v <> []).
      { intros b' v Hv. destruct (key_eqb b' b) eqn:E.
        - apply key_eqb_eq in E. subst b'. rewrite Hg1b in Hv. inversion Hv. discriminate.
        - assert (b' <> b) by (intros ->; rewrite key_eqb_refl in E; discriminate).
          rewrite Hother1 in Hv by assumption. eapply Hinv. exact Hv. }
      destruct (IH (S k) g1 st1 (self_at_app _ _ _ _ Hself) Hinv1 ltac:(lia))
        as [g' [new [Hrun [Hnew [Hnd [Hkeys [Hold Hfresh]]]]]]].
      rewrite Hk1 in Hrun, Hnew.
      assert (Hheap : heap st1 ++ map F64 new = heap st ++ map F64 (a :: new)).
      { unfold st1. simpl. rewrite <- app_assoc. reflexivity. }
      exists g', (a :: new). split; [|split; [|split; [|split; [|split]]]].
      * cbn [build_grid].
        erewrite bind_ok; [|apply (grid_step_lazy_new g k b a st Hself Hlazy Hnotin ltac:(lia) Ha)].
        fold g1. fold st1. rewrite Hrun. rewrite Hheap. unfold st1. simpl.
        rewrite <- app_assoc. reflexivity.
      * constructor; assumption.
      * intros H. apply Hnd, Hnd1, H.
      * intros b'. rewrite Hkeys, Hkeys1. simpl. intuition congruence.
      * intros b' Hin.
        assert (b' <> b) by (intros ->; contradiction).
        rewrite Hold by (apply Hkeys1; left; exact Hin).
        apply Hother1. assumption.
      * intros b' Hnot Hin. rewrite <- Hheap.
        destruct (key_eqb b b') eqn:E.
        -- apply key_eqb_eq in E. subst b'.
           exists (List.length (heap st)), a. split; [|split].
           ++ rewrite Hold by (apply Hkeys1; right; reflexivity). exact Hg1b.
           ++ rewrite Hheap. rewrite nth_error_app2 by lia.
              rewrite Nat.sub_diag. reflexivity.
           ++ rewrite members_from_same. exact Ha.
        -- assert (Hneq : b <> b') by (intros ->; rewrite key_eqb_refl in E; discriminate).
           destruct Hin as [Heq|Hin]; [contradiction|].
           rewrite (members_from_other _ _ _ _ Hneq).
           apply Hfresh; [|exact Hin].
           intros Hin1. apply Hkeys1 in Hin1. destruct Hin1; [contradiction|congruence].
Qed.

End GridBuilding.

(** ** The whole call *)

Lemma combine_keys_in_range (bins : Z) (bn0 bn1 : list Z) (xy : key) :
  Forall (fun b => 1 <= b <= bins) bn0 ->
  Forall (fun b => 1 <= b <= bins) bn1 ->
  In xy (combine bn0 bn1) -> key_in_range bins xy.
Proof.
  intros F0 F1 Hin. destruct xy as [xx yy]. rewrite Forall_forall in F0, F1.
  split; simpl.
  - apply F0. eapply in_combine_l. exact Hin.
  - apply F1. eapply in_combine_r. exact Hin.
Qed.

Lemma new_zeros_ok (shp : Z * Z * Z) (st : state) :
  0 <= fst (fst shp) -> 0 <= snd (fst shp) -> 0 <= snd shp ->
  new_zeros shp st
  = (Ok (List.length (heap st)),
     mk_state (heap st ++ [U8 (np_zeros shp)]) (trace st)).
Proof.
  intros H0 H1 H2. unfold new_zeros.
  destruct (Z.ltb_spec (fst (fst shp)) 0); [lia|].
  destruct (Z.ltb_spec (snd (fst shp)) 0); [lia|].
  destruct (Z.ltb_spec (snd shp) 0); [lia|]. reflexivity.
Qed.

Lemma canvas_shape_nonneg (output_shape : Z * Z) (bins : Z) :
  1 <= fst output_shape -> 1 <= snd output_shape -> 1 <= bins ->
  0 <= fst (fst (canvas_shape output_shape bins)) /\
  0 <= snd (fst (canvas_shape output_shape bins)) /\
  0 <= snd (canvas_shape output_shape bins).
Proof.
  intros H0 H1 Hb. unfold canvas_shape. simpl.
  pose proof (half_bounds (fst output_shape)).
  pose proof (half_bounds (snd output_shape)). repeat split; nia.
Qed.

(** The part of [__call__] after the grid is built. *)
Lemma call_tail (output_shape : Z * Z) (bins : Z) (xe ye : list Q)
  (hp : list pyobj) (tr : list event) (g : dict) :
  1 <= fst output_shape -> 1 <= snd output_shape -> 1 <= bins ->
  xe <> [] -> ye <> [] ->
  NoDup (map fst g) ->
  (forall xy locs, In (xy, locs) g ->
     key_in_range bins xy /\ locs <> [] /\ Forall (is_image output_shape hp) locs) ->
  exists canvas x_lo x_hi y_lo y_hi,
    (imgrid <- new_zeros (canvas_shape output_shape bins) ;;
     fill_grid output_shape (fst output_shape / 2, snd output_shape / 2)
       imgrid g ;;;
     x_lo <- lift (py_min xe) ;;
     x_hi <- lift (py_max xe) ;;
     y_lo <- lift (py_min ye) ;;
     y_hi <- lift (py_max ye) ;;
     ret (imgrid, [x_lo; x_hi; y_lo; y_hi])) (mk_state hp tr)
    = (Ok (List.length hp, [x_lo; x_hi; y_lo; y_hi]),
       mk_state (hp ++ [U8 canvas]) tr) /\
    shape canvas = canvas_shape output_shape bins /\
    py_min xe = Ok x_lo /\ py_max xe = Ok x_hi /\ (x_lo <= x_hi)%Q /\
    py_min ye = Ok y_lo /\ py_max ye = Ok y_hi /\ (y_lo <= y_hi)%Q /\
    (forall xy locs i j c, In (xy, locs) g ->
       in_tile output_shape xy i j -> 0 <= c < 3 ->
       data canvas i j c = tile_value output_shape hp xy locs i j c) /\
    (forall i j c,
       (forall xy, In xy (map fst g) -> ~ in_tile output_shape xy i j) ->
       data canvas i j c = 0).
Proof.
  intros H0 H1 Hb Hxe Hye Hnd Hok.
  destruct (canvas_shape_nonneg output_shape bins H0 H1 Hb) as [N0 [N1 N2]].
  destruct (fill_grid_spec output_shape bins H0 H1 Hb hp tr g
              (np_zeros (canvas_shape output_shape bins)) eq_refl Hnd Hok)
    as [canvas [Hfill [Hshape [Hin Hout]]]].
  destruct (py_min_le_py_max xe Hxe) as [x_lo [x_hi [Ex0 [Ex1 Hx]]]].
  destruct (py_min_le_py_max ye Hye) as [y_lo [y_hi [Ey0 [Ey1 Hy]]]].
  exists canvas, x_lo, x_hi, y_lo, y_hi.
  split; [|repeat split; try assumption].
  - erewrite bind_ok; [|apply new_zeros_ok; assumption]. cbn [heap trace].
    erewrite bind_ok; [|exact Hfill].
    unfold lift. unfold bind. rewrite Ex0, Ex1, Ey0, Ey1. reflexivity.
Qed.

Lemma combine_length_same {A B : Type} (l1 : list A) (l2 : list B) (n : nat) :
  List.length l1 = n -> List.length l2 = n -> List.length (combine l1 l2) = n.
Proof. intros H1 H2. rewrite length_combine. lia. Qed.

Section Call.

Variable imread : string -> option (ndarray R).
Variable resize : ndarray R -> Z * Z -> ndarray R.
Variable self : loc.
Variable this : ManifoldProjection2D.
Variable manifold : list (Q * Q).
Variable bins : Z.
Variable st : state.

Hypothesis Hself : self_at (heap st) self this.
Hypothesis Hok : self_ok (heap st) this.
Hypothesis Hrows : List.length manifold = List.length (_image_files this).
Hypothesis Hpoints : manifold <> [].
Hypothesis Hbins : 1 <= bins.

(** With preloaded images the call succeeds, allocates the canvas only, and
    every bin that has points holds the converted mean of its images. *)
Lemma call_preload :
  _images this <> [] ->
  exists xe ye bn0 bn1 canvas x_lo x_hi y_lo y_hi,
    binned_statistic_2d (map fst manifold) (map snd manifold) bins
    = Ok (xe, ye, bn0, bn1) /\
    __call__ imread resize self manifold bins st
    = (Ok (List.length (heap st), [x_lo; x_hi; y_lo; y_hi]),
       mk_state (heap st ++ [U8 canvas]) (trace st ++ [EvBinning])) /\
    shape canvas = canvas_shape (_output_shape this) bins /\
    py_min xe = Ok x_lo /\ py_max xe = Ok x_hi /\ (x_lo <= x_hi)%Q /\
    py_min ye = Ok y_lo /\ py_max ye = Ok y_hi /\ (y_lo <= y_hi)%Q /\
    (forall xy i j c, In xy (combine bn0 bn1) ->
       in_tile (_output_shape this) xy i j -> 0 <= c < 3 ->
       data canvas i j c =
       tile_value (_output_shape this) (heap st) xy
         (map (fun idx => nth idx (_images this) 0%nat)
              (bin_members (combine bn0 bn1) xy)) i j c) /\
    (forall i j c,
       (forall xy, In xy (combine bn0 bn1) ->
                   ~ in_tile (_output_shape this) xy i j) ->
       data canvas i j c = 0).
Proof.
  intros Hpre. destruct Hok as [Hf0 [Hf1 [Himgs Hcount]]].
  specialize (Hcount Hpre).
  assert (Hx : map fst manifold <> []).
  { destruct manifold; [congruence|discriminate]. }
  destruct (binned_statistic_2d_spec (map fst manifold) (map snd manifold) bins
              Hx ltac:(rewrite !length_map; reflexivity) Hbins)
    as [xe [ye [bn0 [bn1 [Ebin [Hxe [Hye [L0 [L1 [F0 F1]]]]]]]]]].
  rewrite length_map in L0, L1.
  remember (combine bn0 bn1) as bxy eqn:Hbxy.
  assert (Lbxy : List.length bxy = List.length manifold).
  { subst bxy. apply combine_length_same; assumption. }
  set (st1 := mk_state (heap st) (trace st ++ [EvBinning])).
  assert (Hfit : (0 + List.length bxy <= List.length (_images this))%nat) by lia.
  destruct (build_grid_preload imread resize self this bxy 0%nat [] st1 Hself Hpre
              Hfit)
    as [g [Hgrid [Hnd [Hkeys Hbucket]]]].
  specialize (Hnd (NoDup_nil _)).
  assert (Hitems : forall xy locs, In (xy, locs) g ->
            locs = map (fun idx => nth idx (_images this) 0%nat) (bin_members bxy xy)).
  { intros xy locs Hin. apply (dict_In_get g xy locs Hnd) in Hin.
    specialize (Hbucket xy). unfold bucket in Hbucket. rewrite Hin in Hbucket.
    simpl in Hbucket. exact Hbucket. }
  assert (Hvalid : forall xy locs, In (xy, locs) g ->
            key_in_range bins xy /\ locs <> [] /\
            Forall (is_image (_output_shape this) (heap st)) locs).
  { intros xy locs Hin. rewrite (Hitems xy locs Hin).
    assert (Hxy : In xy bxy).
    { apply (in_map fst) in Hin. apply Hkeys in Hin. destruct Hin as [[]|H]. exact H. }
    split; [apply (combine_keys_in_range bins bn0 bn1); subst bxy; assumption|]. split.
    - intros E. apply map_eq_nil in E.
      apply (members_from_nonempty bxy xy 0%nat Hxy). exact E.
    - apply Forall_forall. intros l Hl. apply in_map_iff in Hl.
      destruct Hl as [idx [<- Hidx]].
      apply members_from_range in Hidx. destruct Hidx as [Hr _].
      rewrite Forall_forall in Himgs. apply Himgs. apply nth_In.
      unfold key in *. lia. }
  destruct (call_tail (_output_shape this) bins xe ye (heap st)
              (trace st ++ [EvBinning]) g Hf0 Hf1 Hbins Hxe Hye Hnd Hvalid)
    as [canvas [x_lo [x_hi [y_lo [y_hi [Htail [Hshape [Ex0 [Ex1 [Hxle [Ey0 [Ey1 [Hyle
        [Hin Hout]]]]]]]]]]]]]].
  subst bxy. exists xe, ye, bn0, bn1, canvas, x_lo, x_hi, y_lo, y_hi.
  split; [exact Ebin|]. split; [|repeat split; try assumption].
  - unfold __call__.
    erewrite bind_ok; [|apply read_self_ok; exact Hself].
    rewrite Hrows, Nat.eqb_refl. cbn [negb].
    erewrite bind_ok; [|reflexivity].
    erewrite bind_ok; [|unfold lift; rewrite Ebin; reflexivity].
    cbv beta iota zeta.
    erewrite bind_ok; [|exact Hgrid].
    erewrite bind_ok; [|apply read_self_ok; exact Hself].
    exact Htail.
  - intros xy i j c Hxy Ht Hc.
    assert (Hk : In xy (map fst g)) by (apply Hkeys; right; exact Hxy).
    apply in_map_iff in Hk. destruct Hk as [[xy' locs] [Heq Hk]]. simpl in Heq. subst xy'.
    rewrite (Hin xy locs i j c Hk Ht Hc). rewrite (Hitems xy locs Hk). reflexivity.
  - intros i j c Hnone. apply Hout. intros xy Hk. apply Hnone.
    apply Hkeys in Hk. destruct Hk as [[]|H]. exact H.
Qed.

End Call.

Lemma np_mean_single (x : R) : np_mean [x] = x.
Proof. unfold np_mean, np_sum. simpl. field. Qed.

Lemma load_ok (imread : string -> option (ndarray R))
  (resize : ndarray R -> Z * Z -> ndarray R) (this : ManifoldProjection2D)
  (f : string) :
  files_ok imread resize this -> In f (_image_files this) ->
  exists a, load imread resize this f = Ok a /\
            shape a = (fst (_output_shape this), snd (_output_shape this), 3).
Proof.
  intros Hfiles Hin. destruct (Hfiles f Hin) as [raw [Hraw Hshape]].
  unfold load, _load_and_normalize. rewrite Hraw. eexists. split; [reflexivity|].
  simpl. rewrite normalize_channels_shape. exact Hshape.
Qed.

Lemma file_at_In (this : ManifoldProjection2D) (idx : nat) :
  (idx < List.length (_image_files this))%nat ->
  In (file_at this idx) (_image_files this).
Proof. intros H. unfold file_at. apply nth_In. exact H. Qed.

Lemma members_from_hd (rest : list key) (b : key) (k : nat) :
  In b rest ->
  (k <= hd 0%nat (members_from k rest b) < k + List.length rest)%nat.
Proof.
  intros Hin. pose proof (members_from_nonempty rest b k Hin) as Hne.
  destruct (members_from k rest b) as [|idx r] eqn:E; [congruence|].
  simpl. apply (members_from_range rest b k idx). rewrite E. left. reflexivity.
Qed.

Section CallLazy.

Variable imread : string -> option (ndarray R).
Variable resize : ndarray R -> Z * Z -> ndarray R.
Variable self : loc.
Variable this : ManifoldProjection2D.
Variable manifold : list (Q * Q).
Variable bins : Z.
Variable st : state.

Hypothesis Hself : self_at (heap st) self this.
Hypothesis Hok : self_ok (heap st) this.
Hypothesis Hrows : List.length manifold = List.length (_image_files this).
Hypothesis Hpoints : manifold <> [].
Hypothesis Hbins : 1 <= bins.

(** Without preloaded images the call succeeds, reads one file for every bin
    that has points, the file of the bin's first point, and the bin's tile
    holds the conversion of that image alone. *)
Lemma call_lazy :
  _images this = [] -> files_ok imread resize this ->
  exists xe ye bn0 bn1 new canvas x_lo x_hi y_lo y_hi,
    binned_statistic_2d (map fst manifold) (map snd manifold) bins
    = Ok (xe, ye, bn0, bn1) /\
    Forall2 (fun idx a => load imread resize this (file_at this idx) = Ok a)
            (first_indices 0 (combine bn0 bn1) []) new /\
    __call__ imread resize self manifold bins st
    = (Ok (List.length (heap st ++ map F64 new), [x_lo; x_hi; y_lo; y_hi]),
       mk_state ((heap st ++ map F64 new) ++ [U8 canvas])
         ((trace st ++ [EvBinning])
          ++ map (fun idx => EvImread (file_at this idx))
                 (first_indices 0 (combine bn0 bn1) []))) /\
    shape canvas = canvas_shape (_output_shape this) bins /\
    py_min xe = Ok x_lo /\ py_max xe = Ok x_hi /\ (x_lo <= x_hi)%Q /\
    py_min ye = Ok y_lo /\ py_max ye = Ok y_hi /\ (y_lo <= y_hi)%Q /\
    (forall xy i j c, In xy (combine bn0 bn1) ->
       in_tile (_output_shape this) xy i j -> 0 <= c < 3 ->
       exists a,
         load imread resize this
           (file_at this (hd 0%nat (bin_members (combine bn0 bn1) xy))) = Ok a /\
         data canvas i j c =
         astype_uint8
           (data a (i - tile_start (fst (_output_shape this)) (fst xy))
                   (j - tile_start (snd (_output_shape this)) (snd xy)) c)) /\
    (forall i j c,
       (forall xy, In xy (combine bn0 bn1) ->
                   ~ in_tile (_output_shape this) xy i j) ->
       data canvas i j c = 0).
Proof.
  intros Hlazy Hfiles. destruct Hok as [Hf0 [Hf1 _]].
  assert (Hx : map fst manifold <> []).
  { destruct manifold; [congruence|discriminate]. }
  destruct (binned_statistic_2d_spec (map fst manifold) (map snd manifold) bins
              Hx ltac:(rewrite !length_map; reflexivity) Hbins)
    as [xe [ye [bn0 [bn1 [Ebin [Hxe [Hye [L0 [L1 [F0 F1]]]]]]]]]].
  rewrite length_map in L0, L1.
  pose proof (combine_length_same bn0 bn1 _ L0 L1) as Lbxy.
  set (st1 := mk_state (heap st) (trace st ++ [EvBinning])).
  assert (Hloads : forall idx, (idx < List.length (_image_files this))%nat ->
            exists a, load imread resize this (file_at this idx) = Ok a).
  { intros idx Hidx.
    destruct (load_ok imread resize this _ Hfiles (file_at_In this idx Hidx))
      as [a [Ha _]]. exists a. exact Ha. }
  assert (Hfit : (0 + List.length (combine bn0 bn1)
                  <= List.length (_image_files this))%nat) by lia.
  destruct (build_grid_lazy imread resize self this Hlazy Hloads
              (combine bn0 bn1) 0%nat [] st1 Hself ltac:(intros b v; discriminate) Hfit)
    as [g [new [Hgrid [Hnew [Hnd [Hkeys [_ Hfresh]]]]]]].
  specialize (Hnd (NoDup_nil _)). cbn [heap trace st1 map] in Hgrid, Hnew, Hfresh.
  set (hp := heap st ++ map F64 new) in *.
  assert (Hitems : forall xy locs, In (xy, locs) g ->
            In xy (combine bn0 bn1) /\
            exists l a, locs = [l] /\ nth_error hp l = Some (F64 a) /\
              load imread resize this
                (file_at this (hd 0%nat (bin_members (combine bn0 bn1) xy))) = Ok a).
  { intros xy locs Hin.
    assert (Hxy : In xy (combine bn0 bn1)).
    { apply (in_map fst) in Hin. apply Hkeys in Hin. destruct Hin as [[]|H]. exact H. }
    split; [exact Hxy|].
    destruct (Hfresh xy (fun H => H) Hxy) as [l [a [Hget [Hl Ha]]]].
    apply (dict_In_get g xy locs Hnd) in Hin. rewrite Hget in Hin.
    inversion Hin; subst locs. exists l, a. repeat split; assumption. }
  assert (Hvalid : forall xy locs, In (xy, locs) g ->
            key_in_range bins xy /\ locs <> [] /\
            Forall (is_image (_output_shape this) hp) locs).
  { intros xy locs Hin. destruct (Hitems xy locs Hin) as [Hxy [l [a [-> [Hl Ha]]]]].
    split; [apply (combine_keys_in_range bins bn0 bn1); assumption|].
    split; [discriminate|]. constructor; [|constructor].
    exists a. split; [exact Hl|].
    pose proof (members_from_hd (combine bn0 bn1) xy 0%nat Hxy) as Hhd.
    fold (bin_members (combine bn0 bn1) xy) in Hhd.
    assert (Hidx : (hd 0%nat (bin_members (combine bn0 bn1) xy)
                    < List.length (_image_files this))%nat).
    { unfold key in *. lia. }
    destruct (load_ok imread resize this _ Hfiles (file_at_In this _ Hidx))
      as [a' [Ha' Hshape]].
    rewrite Ha in Ha'. inversion Ha'; subst a'. exact Hshape. }
  destruct (call_tail (_output_shape this) bins xe ye hp
              (trace st1 ++ map (fun idx => EvImread (file_at this idx))
                                (first_indices 0 (combine bn0 bn1) []))
              g Hf0 Hf1 Hbins Hxe Hye Hnd Hvalid)
    as [canvas [x_lo [x_hi [y_lo [y_hi [Htail [Hshape [Ex0 [Ex1 [Hxle [Ey0 [Ey1 [Hyle
        [Hin Hout]]]]]]]]]]]]]].
  exists xe, ye, bn0, bn1, new, canvas, x_lo, x_hi, y_lo, y_hi.
  split; [exact Ebin|]. split; [exact Hnew|].
  split; [|repeat split; try assumption].
  - unfold __call__.
    erewrite bind_ok; [|apply read_self_ok; exact Hself].
    rewrite Hrows, Nat.eqb_refl. cbn [negb].
    erewrite bind_ok; [|reflexivity].
    erewrite bind_ok; [|unfold lift; rewrite Ebin; reflexivity].
    cbv beta iota zeta.
    erewrite bind_ok; [|exact Hgrid].
    erewrite bind_ok;
      [|apply read_self_ok; cbn [heap]; apply self_at_app; exact Hself].
    exact Htail.
  - intros xy i j c Hxy Ht Hc.
    assert (Hk : In xy (map fst g)) by (apply Hkeys; right; exact Hxy).
    apply in_map_iff in Hk. destruct Hk as [[xy' locs] [Heq Hk]]. simpl in Heq. subst xy'.
    destruct (Hitems xy locs Hk) as [_ [l [a [-> [Hl Ha]]]]].
    exists a. split; [exact Ha|].
    rewrite (Hin xy [l] i j c Hk Ht Hc). unfold tile_value, arrays_at. simpl.
    rewrite Hl. simpl. rewrite np_mean_single. reflexivity.
  - intros i j c Hnone. apply Hout. intros xy Hk. apply Hnone.
    apply Hkeys in Hk. destruct Hk as [[]|H]. exact H.
Qed.

End CallLazy.

(** ** The frame of the methods: which heap objects they can change *)

Lemma framed_ret {A : Type} (n : nat) (a : A) (P : A -> Prop) :
  P a -> framed n (ret a) P.
Proof.
  intros HP st r st' Hn Hrun. inversion Hrun; subst.
  split; [exact Hn|]. split; [reflexivity|]. intros a' E. inversion E; subst. exact HP.
Qed.

Lemma framed_raise {A : Type} (n : nat) (e : exn) (P : A -> Prop) :
  framed n (raise e) P.
Proof.
  intros st r st' Hn Hrun. inversion Hrun; subst.
  split; [exact Hn|]. split; [reflexivity|]. intros a' E. discriminate.
Qed.

Lemma framed_lift {A : Type} (n : nat) (r : result A) (P : A -> Prop) :
  (forall a, r = Ok a -> P a) -> framed n (lift r) P.
Proof.
  intros HP st r' st' Hn Hrun. inversion Hrun; subst.
  split; [exact Hn|]. split; [reflexivity|]. exact HP.
Qed.

Lemma framed_log (n : nat) (e : event) : framed n (log e) (fun _ => True).
Proof.
  intros st r st' Hn Hrun. inversion Hrun; subst. simpl.
  split; [exact Hn|]. split; [reflexivity|]. intros; exact I.
Qed.

Lemma framed_alloc (n : nat) (o : pyobj) :
  framed n (alloc o) (fun l => (n <= l)%nat).
Proof.
  intros st r st' Hn Hrun. inversion Hrun; subst. simpl.
  split; [rewrite length_app; lia|]. split.
  - intros l Hl. apply nth_error_app1. lia.
  - intros a E. inversion E; subst. exact Hn.
Qed.

Lemma framed_read_self (n : nat) (self : loc) :
  framed n (read_self self) (fun _ => True).
Proof.
  intros st r st' Hn Hrun. unfold read_self in Hrun.
  destruct (nth_error (heap st) self) as [[a|a|o]|]; inversion Hrun; subst;
    (split; [exact Hn|]; split; [reflexivity|]; intros; exact I).
Qed.

Lemma framed_read_f64 (n : nat) (l : loc) :
  framed n (read_f64 l) (fun _ => True).
Proof.
  intros st r st' Hn Hrun. unfold read_f64 in Hrun.
  destruct (nth_error (heap st) l) as [[a|a|o]|]; inversion Hrun; subst;
    (split; [exact Hn|]; split; [reflexivity|]; intros; exact I).
Qed.

Lemma framed_read_u8 (n : nat) (l : loc) :
  framed n (read_u8 l) (fun _ => True).
Proof.
  intros st r st' Hn Hrun. unfold read_u8 in Hrun.
  destruct (nth_error (heap st) l) as [[a|a|o]|]; inversion Hrun; subst;
    (split; [exact Hn|]; split; [reflexivity|]; intros; exact I).
Qed.

Lemma list_set_length {A : Type} (l : list A) : forall (k : nat) (x : A),
  List.length (list_set l k x) = List.length l.
Proof.
  induction l as [|y l IH]; intros k x; simpl; [reflexivity|].
  destruct k; simpl; [reflexivity|]. rewrite IH. reflexivity.
Qed.

Lemma list_set_other {A : Type} (l : list A) : forall (k i : nat) (x : A),
  i <> k -> nth_error (list_set l k x) i = nth_error l i.
Proof.
  induction l as [|y l IH]; intros k i x Hne; simpl; [reflexivity|].
  destruct k, i; simpl; try reflexivity; try congruence.
  apply IH. congruence.
Qed.

(** An in-place update at or above [n] is allowed. *)
Lemma framed_write (n : nat) (l : loc) (o : pyobj) :
  (n <= l)%nat -> framed n (write l o) (fun _ => True).
Proof.
  intros Hl st r st' Hn Hrun. inversion Hrun; subst. simpl.
  split; [rewrite list_set_length; exact Hn|]. split.
  - intros i Hi. apply list_set_other. lia.
  - intros; exact I.
Qed.

Lemma framed_bind {A B : Type} (n : nat) (m : M A) (k : A -> M B)
  (P : A -> Prop) (Q : B -> Prop) :
  framed n m P -> (forall a, P a -> framed n (k a) Q) ->
  framed n (bind m k) Q.
Proof.
  intros Hm Hk st r st' Hn Hrun. unfold bind in Hrun.
  destruct (m st) as [[a|e] st1] eqn:E.
  - destruct (Hm st (Ok a) st1 Hn E) as [Hn1 [Hsame1 HP]].
    destruct (Hk a (HP a eq_refl) st1 r st' Hn1 Hrun) as [Hn2 [Hsame2 HQ]].
    split; [exact Hn2|]. split; [|exact HQ].
    intros l Hl. rewrite (Hsame2 l Hl). apply Hsame1. exact Hl.
  - inversion Hrun; subst. destruct (Hm st (Raise e) st' Hn E) as [Hn1 [Hsame1 _]].
    split; [exact Hn1|]. split; [exact Hsame1|]. intros a Ha. discriminate.
Qed.

Lemma framed_weaken {A : Type} (n : nat) (m : M A) (P Q : A -> Prop) :
  framed n m P -> (forall a, P a -> Q a) -> framed n m Q.
Proof.
  intros Hm HPQ st r st' Hn Hrun. destruct (Hm st r st' Hn Hrun) as [H1 [H2 H3]].
  split; [exact H1|]. split; [exact H2|]. intros a E. apply HPQ, H3, E.
Qed.

Lemma framed_mapM {A B : Type} (n : nat) (f : A -> M B) (l : list A) :
  (forall x, framed n (f x) (fun _ => True)) ->
  framed n (mapM f l) (fun _ => True).
Proof.
  intros Hf. induction l as [|x l IH]; simpl.
  - apply framed_ret. exact I.
  - eapply framed_bind; [apply Hf|]. intros y _.
    eapply framed_bind; [exact IH|]. intros ys _. apply framed_ret. exact I.
Qed.

Section Frame.

Variable imread : string -> option (ndarray R).
Variable resize : ndarray R -> Z * Z -> ndarray R.
Variable n : nat.

Lemma framed_get_image (self : loc) (filename : string) :
  framed n (_get_image imread resize self filename) (fun l => (n <= l)%nat).
Proof.
  unfold _get_image.
  eapply framed_bind; [apply framed_read_self|]. intros this _.
  eapply framed_bind; [apply framed_log|]. intros _ _.
  eapply framed_bind; [apply framed_lift; intros; exact I|]. intros image _.
  apply framed_alloc.
Qed.

Lemma framed_grid_step (self : loc) (g : dict) (idx : nat) (b : key) :
  framed n (grid_step imread resize self g idx b) (fun _ => True).
Proof.
  unfold grid_step.
  eapply framed_bind; [apply framed_read_self|]. intros this _.
  destruct (_images this) as [|x r].
  - destruct (dict_get _ b) as [[|y v]|]; try (apply framed_ret; exact I).
    destruct (nth_error (_image_files this) idx) as [f|]; [|apply framed_raise].
    eapply framed_bind; [apply framed_get_image|]. intros l _.
    apply framed_ret. exact I.
  - destruct (nth_error (x :: r) idx); [apply framed_ret; exact I|apply framed_raise].
Qed.

Lemma framed_build_grid (self : loc) (bxy : list key) :
  forall (idx : nat) (g : dict),
  framed n (build_grid imread resize self bxy idx g) (fun _ => True).
Proof.
  induction bxy as [|b rest IH]; intros idx g; simpl.
  - apply framed_ret. exact I.
  - eapply framed_bind; [apply framed_grid_step|]. intros g' _. apply IH.
Qed.

Lemma framed_place_tile (full_bins half_bins : Z * Z) (imgrid : loc)
  (xy : key) (images : list loc) :
  (n <= imgrid)%nat ->
  framed n (place_tile full_bins half_bins imgrid xy images) (fun _ => True).
Proof.
  intros Hloc. unfold place_tile.
  eapply framed_bind; [apply framed_mapM; intros; apply framed_read_f64|].
  intros stack _.
  eapply framed_bind; [apply framed_lift; intros; exact I|]. intros im _.
  destruct xy as [xx yy].
  eapply framed_bind; [apply framed_read_u8|]. intros canvas _.
  eapply framed_bind; [apply framed_lift; intros; exact I|]. intros canvas' _.
  apply framed_write. exact Hloc.
Qed.

Lemma framed_fill_grid (full_bins half_bins : Z * Z) (imgrid : loc)
  (items : dict) :
  (n <= imgrid)%nat ->
  framed n (fill_grid full_bins half_bins imgrid items) (fun _ => True).
Proof.
  intros Hloc. induction items as [|[xy images] rest IH]; simpl.
  - apply framed_ret. exact I.
  - eapply framed_bind; [apply framed_place_tile; exact Hloc|]. intros _ _. exact IH.
Qed.

Lemma framed_new_zeros (shp : Z * Z * Z) :
  framed n (new_zeros shp) (fun l => (n <= l)%nat).
Proof.
  unfold new_zeros. destruct (_ || _); [apply framed_raise|apply framed_alloc].
Qed.

(** [__call__] changes no object that exists when it is called, and the
    canvas it returns is a new object. *)
Lemma framed_call (self : loc) (manifold : list (Q * Q)) (bins : Z) :
  framed n (__call__ imread resize self manifold bins)
    (fun r => (n <= fst r)%nat /\ List.length (snd r) = 4%nat).
Proof.
  unfold __call__.
  eapply framed_bind; [apply framed_read_self|]. intros this _.
  destruct (negb _); [apply framed_raise|].
  eapply framed_bind; [apply framed_log|]. intros _ _.
  eapply framed_bind; [apply framed_lift; intros; exact I|].
  intros [[[xe ye] bn0] bn1] _.
  eapply framed_bind; [apply framed_build_grid|]. intros g _.
  eapply framed_bind; [apply framed_read_self|]. intros this' _.
  eapply framed_bind; [apply framed_new_zeros|]. intros imgrid Himgrid.
  eapply framed_bind; [apply framed_fill_grid; exact Himgrid|]. intros _ _.
  eapply framed_bind; [apply framed_lift; intros; exact I|]. intros x_lo _.
  eapply framed_bind; [apply framed_lift; intros; exact I|]. intros x_hi _.
  eapply framed_bind; [apply framed_lift; intros; exact I|]. intros y_lo _.
  eapply framed_bind; [apply framed_lift; intros; exact I|]. intros y_hi _.
  apply framed_ret. split; [exact Himgrid|reflexivity].
Qed.

End Frame.

Lemma nth_error_last {A : Type} (l : list A) (x : A) :
  nth_error (l ++ [x]) (List.length l) = Some x.
Proof. rewrite nth_error_app2 by lia. rewrite Nat.sub_diag. reflexivity. Qed.

(** In both modes a valid call returns a new canvas of the canvas shape that
    is zero outside the tiles of the bins that have points, and the extent
    of the bin edges. *)
Lemma call_succeeds (imread : string -> option (ndarray R))
  (resize : ndarray R -> Z * Z -> ndarray R) (self : loc)
  (this : ManifoldProjection2D) (manifold : list (Q * Q)) (bins : Z)
  (st : state) :
  valid_call imread resize self this manifold bins st ->
  exists xe ye bn0 bn1 imgrid canvas x_lo x_hi y_lo y_hi st',
    binned_statistic_2d (map fst manifold) (map snd manifold) bins
    = Ok (xe, ye, bn0, bn1) /\
    __call__ imread resize self manifold bins st
    = (Ok (imgrid, [x_lo; x_hi; y_lo; y_hi]), st') /\
    nth_error (heap st') imgrid = Some (U8 canvas) /\
    shape canvas = canvas_shape (_output_shape this) bins /\
    py_min xe = Ok x_lo /\ py_max xe = Ok x_hi /\ (x_lo <= x_hi)%Q /\
    py_min ye = Ok y_lo /\ py_max ye = Ok y_hi /\ (y_lo <= y_hi)%Q /\
    (forall i j c,
       (forall xy, In xy (combine bn0 bn1) ->
                   ~ in_tile (_output_shape this) xy i j) ->
       data canvas i j c = 0).
Proof.
  intros [Hself [Hok [Hfiles [Hrows [Hpoints Hbins]]]]].
  destruct (_images this) as [|l0 ls] eqn:Himgs.
  - destruct (call_lazy imread resize self this manifold bins st Hself Hok Hrows
                Hpoints Hbins Himgs (Hfiles eq_refl))
      as [xe [ye [bn0 [bn1 [new [canvas [x_lo [x_hi [y_lo [y_hi
          [Ebin [_ [Hrun [Hshape [E1 [E2 [E3 [E4 [E5 [E6 [_ Hout]]]]]]]]]]]]]]]]]]]]].
    exists xe, ye, bn0, bn1, (List.length (heap st ++ map F64 new)), canvas,
      x_lo, x_hi, y_lo, y_hi. eexists.
    split; [exact Ebin|]. split; [exact Hrun|]. split; [apply nth_error_last|].
    repeat split; assumption.
  - assert (Hpre : _images this <> []) by (rewrite Himgs; discriminate).
    destruct (call_preload imread resize self this manifold bins st Hself Hok Hrows
                Hpoints Hbins Hpre)
      as [xe [ye [bn0 [bn1 [canvas [x_lo [x_hi [y_lo [y_hi
          [Ebin [Hrun [Hshape [E1 [E2 [E3 [E4 [E5 [E6 [_ Hout]]]]]]]]]]]]]]]]]]].
    exists xe, ye, bn0, bn1, (List.length (heap st)), canvas,
      x_lo, x_hi, y_lo, y_hi. eexists.
    split; [exact Ebin|]. split; [exact Hrun|]. split; [apply nth_error_last|].
    repeat split; assumption.
Qed.

(** ** The constructor *)

Lemma list_set_middle {A : Type} (l r : list A) (x y : A) :
  list_set (l ++ x :: r) (List.length l) y = l ++ y :: r.
Proof. induction l as [|z l IH]; simpl; [reflexivity|]. rewrite IH. reflexivity. Qed.

Lemma Forall2_In_right {A B : Type} (P : A -> B -> Prop) (l1 : list A)
  (l2 : list B) (y : B) :
  Forall2 P l1 l2 -> In y l2 -> exists x, In x l1 /\ P x y.
Proof.
  intros Hall. induction Hall as [|x y' l1 l2 Hxy _ IH]; intros Hin; [destruct Hin|].
  destruct Hin as [->|Hin].
  - exists x. split; [left; reflexivity|exact Hxy].
  - destruct (IH Hin) as [x' [Hx' HP]]. exists x'. split; [right; exact Hx'|exact HP].
Qed.

Section Constructor.

Variable imread : string -> option (ndarray R).
Variable resize : ndarray R -> Z * Z -> ndarray R.

(** The list comprehension of [__init__]: one new image per file, in order. *)
Lemma preload_spec (self : loc) (this : ManifoldProjection2D)
  (files : list string) : forall st : state,
  self_at (heap st) self this ->
  (forall f, In f files -> exists a, load imread resize this f = Ok a) ->
  exists imgs,
    Forall2 (fun f a => load imread resize this f = Ok a) files imgs /\
    mapM (_get_image imread resize self) files st
    = (Ok (seq (List.length (heap st)) (List.length files)),
       mk_state (heap st ++ map F64 imgs) (trace st ++ map EvImread files)).
Proof.
  induction files as [|f files IH]; intros st Hself Hload.
  - exists []. split; [constructor|]. simpl. rewrite !app_nil_r.
    destruct st; reflexivity.
  - destruct (Hload f (or_introl eq_refl)) as [a Ha].
    set (st1 := mk_state (heap st ++ [F64 a]) (trace st ++ [EvImread f])).
    destruct (IH st1 (self_at_app _ _ _ _ Hself)
                (fun f' H => Hload f' (or_intror H))) as [imgs [Hall Hrun]].
    exists (a :: imgs). split; [constructor; assumption|].
    cbn [mapM]. erewrite bind_ok; [|apply (get_image_ok imread resize self this); eassumption].
    fold st1. erewrite bind_ok; [|exact Hrun].
    unfold ret, st1. cbn [heap trace List.length map seq].
    rewrite length_app, <- !app_assoc. cbn [List.length app].
    replace (List.length (heap st) + 1)%nat with (S (List.length (heap st))) by lia.
    reflexivity.
Qed.

(** [__init__] on readable three-channel files returns an instance that
    satisfies the invariant of valid calls. *)
Lemma init_spec (image_files : list string) (output_shape : Z * Z)
  (preload_images : bool) (st : state) :
  1 <= fst output_shape -> 1 <= snd output_shape ->
  files_ok imread resize (mk_self output_shape image_files []) ->
  exists this imgs,
    __init__ imread resize image_files output_shape preload_images st
    = (Ok (List.length (heap st)),
       mk_state (heap st ++ Instance this :: map F64 imgs)
         (trace st ++ if preload_images then map EvImread image_files else [])) /\
    _output_shape this = output_shape /\
    _image_files this = image_files /\
    _images this
    = (if preload_images
       then seq (S (List.length (heap st))) (List.length image_files)
       else []) /\
    (if preload_images
     then Forall2 (fun f a => load imread resize this f = Ok a) image_files imgs
     else imgs = []) /\
    self_ok (heap st ++ Instance this :: map F64 imgs) this.
Proof.
  intros H0 H1 Hfiles. set (this0 := mk_self output_shape image_files []) in *.
  destruct preload_images.
  - set (st1 := mk_state (heap st ++ [Instance this0]) (trace st)).
    assert (Hself1 : self_at (heap st1) (List.length (heap st)) this0).
    { unfold self_at, st1. simpl. apply nth_error_last. }
    destruct (preload_spec (List.length (heap st)) this0 image_files st1 Hself1)
      as [imgs [Hall Hrun]].
    { intros f Hf. destruct (load_ok imread resize this0 f Hfiles Hf) as [a [Ha _]].
      exists a. exact Ha. }
    set (this := mk_self output_shape image_files
                   (seq (S (List.length (heap st))) (List.length image_files))).
    exists this, imgs. split; [|repeat split; try assumption].
    + unfold __init__. erewrite bind_ok; [|reflexivity]. fold this0. fold st1.
      erewrite bind_ok; [|exact Hrun].
      unfold st1. cbn [heap trace]. rewrite length_app. cbn [List.length].
      replace (List.length (heap st) + 1)%nat with (S (List.length (heap st))) by lia.
      fold this. unfold bind, write, ret. cbn [heap trace].
      rewrite <- app_assoc. cbn [app]. rewrite list_set_middle. reflexivity.
    + apply Forall_forall. intros l Hl. apply in_seq in Hl.
      assert (Hlen : List.length imgs = List.length image_files).
      { symmetry. eapply Forall2_length. exact Hall. }
      destruct (nth_error imgs (l - S (List.length (heap st)))) as [a|] eqn:Ea.
      * exists a. split.
        -- rewrite nth_error_app2 by lia.
           replace (l - List.length (heap st))%nat
             with (S (l - S (List.length (heap st)))) by lia.
           simpl. rewrite nth_error_map, Ea. reflexivity.
        -- apply nth_error_In in Ea.
           destruct (Forall2_In_right _ _ _ _ Hall Ea) as [f [Hf Hload]].
           destruct (load_ok imread resize this0 f Hfiles Hf) as [a' [Ha' Hshape]].
           unfold load in *. simpl in *. rewrite Hload in Ha'. inversion Ha'. subst.
           exact Hshape.
      * apply nth_error_None in Ea. lia.
    + intros _. simpl. apply length_seq.
  - exists this0, []. split; [|repeat split; try assumption].
    + unfold __init__. erewrite bind_ok; [|reflexivity]. unfold ret. simpl.
      rewrite app_nil_r. reflexivity.
    + constructor.
    + intros H. exfalso. apply H. reflexivity.
Qed.

End Constructor.

Lemma Forall2_nth_error {A B : Type} (P : A -> B -> Prop) (l1 : list A)
  (l2 : list B) :
  Forall2 P l1 l2 -> forall i x, nth_error l1 i = Some x ->
  exists y, nth_error l2 i = Some y /\ P x y.
Proof.
  intros Hall. induction Hall as [|x y l1 l2 Hxy _ IH]; intros i x' Hi.
  - destruct i; discriminate.
  - destruct i as [|i]; simpl in Hi.
    + inversion Hi; subst. exists y. split; [reflexivity|exact Hxy].
    + apply IH. exact Hi.
Qed.

Lemma nth_error_seq (a n i l : nat) :
  nth_error (seq a n) i = Some l -> l = (a + i)%nat /\ (i < n)%nat.
Proof.
  revert a i. induction n as [|n IH]; intros a i H; [destruct i; discriminate|].
  destruct i as [|i]; simpl in H.
  - inversion H. lia.
  - apply IH in H. lia.
Qed.

Section ConstructorThenCall.

Variable imread : string -> option (ndarray R).
Variable resize : ndarray R -> Z * Z -> ndarray R.

(** An instance made by [__init__] from readable three-channel files can be
    called with every manifold that has one row per file: the hypotheses of
    the claims about [__call__] are those the constructor establishes. *)
Lemma init_establishes_valid_call (image_files : list string)
  (output_shape : Z * Z) (preload_images : bool) (st : state) :
  1 <= fst output_shape -> 1 <= snd output_shape ->
  files_ok imread resize (mk_self output_shape image_files []) ->
  exists self this st',
    __init__ imread resize image_files output_shape preload_images st
    = (Ok self, st') /\
    _output_shape this = output_shape /\
    _image_files this = image_files /\
    (preload_images = false -> _images this = []) /\
    images_loaded imread resize (heap st') this /\
    forall manifold bins,
      List.length manifold = List.length image_files ->
      manifold <> [] -> 1 <= bins ->
      valid_call imread resize self this manifold bins st'.
Proof.
  intros H0 H1 Hfiles.
  destruct (init_spec imread resize image_files output_shape preload_images st
              H0 H1 Hfiles)
    as [this [imgs [Hrun [Hshape [Hnames [Himages [Hloads Hok]]]]]]].
  exists (List.length (heap st)), this. eexists.
  split; [exact Hrun|]. split; [exact Hshape|]. split; [exact Hnames|].
  cbn [heap].
  assert (Hfiles' : files_ok imread resize this).
  { intros f Hf. rewrite Hnames in Hf. rewrite Hshape. apply (Hfiles f Hf). }
  split; [|split].
  - intros ->. exact Himages.
  - intros idx l Hl. rewrite Himages in Hl. destruct preload_images.
    + apply nth_error_seq in Hl. destruct Hl as [-> Hidx].
      assert (Hf : nth_error image_files idx = Some (file_at this idx)).
      { unfold file_at. rewrite Hnames. apply nth_error_nth'. exact Hidx. }
      destruct (Forall2_nth_error _ _ _ Hloads idx _ Hf) as [a [Ha Hload]].
      exists a. split; [|exact Hload].
      rewrite nth_error_app2 by lia.
      replace (S (List.length (heap st)) + idx - List.length (heap st))%nat
        with (S idx) by lia.
      simpl. rewrite nth_error_map, Ha. reflexivity.
    + destruct idx; discriminate Hl.
  - intros manifold bins Hrows Hpoints Hbins.
    split; [unfold self_at; cbn [heap]; rewrite nth_error_app2 by lia;
            rewrite Nat.sub_diag; reflexivity|].
    split; [exact Hok|]. split; [intros _; exact Hfiles'|].
    split; [rewrite Hnames; exact Hrows|]. split; assumption.
Qed.

End ConstructorThenCall.

(** ** Members of a bin and first occurrences *)

Lemma bin_members_iff (bxy : list key) (b : key) (idx : nat) :
  In idx (bin_members bxy b) <-> nth_error bxy idx = Some b.
Proof.
  unfold bin_members. split.
  - intros H. apply members_from_range in H. destruct H as [_ H].
    rewrite Nat.sub_0_r in H. exact H.
  - intros H. apply (members_from_complete bxy b 0%nat idx) in H. exact H.
Qed.

Lemma members_from_hd_le (rest : list key) (b : key) : forall k idx,
  In idx (members_from k rest b) ->
  (hd 0%nat (members_from k rest b) <= idx)%nat.
Proof.
  induction rest as [|b' rest IH]; intros k idx; simpl; [intros []|].
  destruct (key_eqb b' b).
  - simpl. intros [<-|Hin]; [lia|].
    apply members_from_range in Hin. lia.
  - apply IH.
Qed.

Lemma first_indices_iff (rest : list key) : forall (k : nat) (seen : list key)
  (idx : nat),
  In idx (first_indices k rest seen) <->
  exists b, In b rest /\ ~ In b seen /\ idx = hd 0%nat (members_from k rest b).
Proof.
  induction rest as [|b rest IH]; intros k seen idx; cbn [first_indices].
  - split; [intros []|intros [b [[] _]]].
  - destruct (existsb (key_eqb b) seen) eqn:Hseen.
    + apply existsb_key_In in Hseen. rewrite IH. split.
      * intros [b' [Hin [Hnot Hidx]]]. exists b'. split; [right; exact Hin|].
        split; [exact Hnot|].
        rewrite members_from_other; [exact Hidx|]. intros ->. contradiction.
      * intros [b' [Hin [Hnot Hidx]]].
        assert (Hneq : b <> b') by (intros ->; contradiction).
        destruct Hin as [Heq|Hin]; [contradiction|].
        exists b'. split; [exact Hin|]. split; [exact Hnot|].
        rewrite members_from_other in Hidx by exact Hneq. exact Hidx.
    + assert (Hnotin : ~ In b seen).
      { intros H. apply existsb_key_In in H. congruence. }
      cbn [In]. rewrite IH. split.
      * intros [<-|[b' [Hin [Hnot Hidx]]]].
        -- exists b. split; [left; reflexivity|]. split; [exact Hnotin|].
           rewrite members_from_same. reflexivity.
        -- exists b'. split; [right; exact Hin|].
           rewrite in_app_iff in Hnot. simpl in Hnot.
           split; [tauto|].
           rewrite members_from_other; [exact Hidx|]. intros ->. tauto.
      * intros [b' [Hin [Hnot Hidx]]].
        destruct (key_eqb b b') eqn:E.
        -- apply key_eqb_eq in E. subst b'. left.
           rewrite members_from_same in Hidx. simpl in Hidx. congruence.
        -- assert (Hneq : b <> b') by (intros ->; rewrite key_eqb_refl in E; discriminate).
           destruct Hin as [Heq|Hin]; [contradiction|].
           right. exists b'. split; [exact Hin|]. split.
           ++ rewrite in_app_iff. simpl. intros [H|[H|[]]]; [contradiction|congruence].
           ++ rewrite members_from_other in Hidx by exact Hneq. exact Hidx.
Qed.

(** ** Concrete calls *)

Lemma demo_files_ok (this : ManifoldProjection2D) :
  files_ok demo_imread demo_resize this.
Proof.
  intros f _. exists demo_raw. split; reflexivity.
Qed.

Lemma demo_lazy_valid :
  valid_call demo_imread demo_resize 0%nat demo_lazy demo_manifold 2
    demo_lazy_state.
Proof.
  split; [reflexivity|]. split.
  - split; [simpl; lia|]. split; [simpl; lia|]. split; [constructor|].
    intros H. exfalso. apply H. reflexivity.
  - split; [intros _; apply demo_files_ok|]. split; [reflexivity|].
    split; [discriminate|lia].
Qed.

Lemma demo_preloaded_valid :
  valid_call demo_imread demo_resize 0%nat demo_preloaded demo_manifold 2
    demo_preloaded_state.
Proof.
  split; [reflexivity|]. split.
  - split; [simpl; lia|]. split; [simpl; lia|]. split.
    + constructor; [|constructor; [|constructor]]; eexists; split; reflexivity.
    + intros _. reflexivity.
  - split; [intros H; discriminate H|]. split; [reflexivity|].
    split; [discriminate|lia].
Qed.

Lemma demo_single_valid :
  valid_call demo_imread demo_resize 0%nat demo_single [(0, 0)%Q] 32
    demo_single_state.
Proof.
  split; [reflexivity|]. split.
  - split; [simpl; lia|]. split; [simpl; lia|]. split; [constructor|].
    intros H. exfalso. apply H. reflexivity.
  - split; [intros _; apply demo_files_ok|]. split; [reflexivity|].
    split; [discriminate|lia].
Qed.

(** ** A normalised image is never dark *)

Lemma list_max_exists (d : list R) :
  d <> [] -> exists x, In x d /\ forall y, In y d -> (y <= x)%R.
Proof.
  induction d as [|a d IH]; [congruence|]. intros _.
  destruct d as [|b d].
  - exists a. split; [left; reflexivity|]. intros y [<-|[]]. lra.
  - destruct (IH ltac:(discriminate)) as [x [Hx Hmax]].
    destruct (Rle_dec a x) as [Hle|Hgt].
    + exists x. split; [right; exact Hx|]. intros y [<-|Hy]; [exact Hle|apply Hmax, Hy].
    + exists a. split; [left; reflexivity|]. intros y [<-|Hy]; [lra|].
      specialize (Hmax y Hy). lra.
Qed.

Lemma np_sum_le (d : list R) (x : R) :
  (forall y, In y d -> (y <= x)%R) -> (np_sum d <= INR (List.length d) * x)%R.
Proof.
  induction d as [|a d IH]; intros Hall.
  - simpl. lra.
  - change (np_sum (a :: d)) with (a + np_sum d)%R.
    change (List.length (a :: d)) with (S (List.length d)). rewrite S_INR.
    specialize (IH (fun y Hy => Hall y (or_intror Hy))).
    specialize (Hall a (or_introl eq_refl)). lra.
Qed.

(** Some element of a non-empty sample is at least the mean. *)
Lemma np_mean_le_some (d : list R) :
  d <> [] -> exists x, In x d /\ (np_mean d <= x)%R.
Proof.
  intros Hne. destruct (list_max_exists d Hne) as [x [Hx Hmax]].
  exists x. split; [exact Hx|]. unfold np_mean.
  assert (Hn : (0 < INR (List.length d))%R).
  { apply lt_0_INR. destruct d; [congruence|simpl; lia]. }
  pose proof (np_sum_le d x Hmax) as Hsum.
  apply (Rmult_le_reg_r (INR (List.length d))); [exact Hn|].
  unfold Rdiv. rewrite Rmult_assoc, Rinv_l by lra. lra.
Qed.

Lemma channel_In (image : ndarray R) (c : Z) (x : R) :
  In x (channel image c) <->
  exists i j, 0 <= i < fst (fst (shape image)) /\
              0 <= j < snd (fst (shape image)) /\ x = data image i j c.
Proof.
  unfold channel. rewrite in_flat_map. split.
  - intros [i [Hi Hx]]. apply in_map_iff in Hx. destruct Hx as [j [<- Hj]].
    apply zrange_In in Hi. apply zrange_In in Hj. exists i, j. tauto.
  - intros [i [j [Hi [Hj ->]]]]. exists i. split; [apply zrange_In; exact Hi|].
    apply in_map_iff. exists j. split; [reflexivity|apply zrange_In; exact Hj].
Qed.

(** In every channel of a normalised image some pixel is at least 51: the
    pixel that is largest before the normalisation is not below the mean. *)
Lemma normalized_channel_has_bright_pixel (image : ndarray R) (n_pixels c : Z) :
  1 <= n_pixels ->
  1 <= fst (fst (shape image)) -> 1 <= snd (fst (shape image)) ->
  0 <= c < snd (shape image) ->
  exists i j,
    0 <= i < fst (fst (shape image)) /\ 0 <= j < snd (fst (shape image)) /\
    (51 <= data (rescale (normalize_channels n_pixels image)) i j c <= 255)%R.
Proof.
  intros Hn Hh Hw Hc.
  assert (Hne : channel image c <> []).
  { intros E. assert (Hin : In (data image 0 0 c) (channel image c)).
    { apply channel_In. exists 0, 0. repeat split; lia. }
    rewrite E in Hin. destruct Hin. }
  destruct (np_mean_le_some _ Hne) as [x [Hx Hmean]].
  apply channel_In in Hx. destruct Hx as [i [j [Hi [Hj ->]]]].
  exists i, j. split; [exact Hi|]. split; [exact Hj|].
  simpl. rewrite normalize_channels_data by exact Hc.
  destruct (a_std_pos n_pixels (channel image c) Hn) as [Hpos Hle].
  set (s := a_std n_pixels (channel image c)) in *.
  set (m := np_mean (channel image c)) in *.
  assert (Hq : (0 <= (data image i j c - m) / s)%R).
  { apply Rmult_le_pos; [lra|]. apply Rlt_le, Rinv_0_lt_compat. lra. }
  assert (Hv : (0 <= nrm n_pixels (channel image c) (data image i j c))%R).
  { unfold nrm, np_clip. fold m. fold s.
    apply Rmin_glb; [|lra]. eapply Rle_trans; [exact Hq|apply Rmax_l]. }
  split.
  - unfold np_clip. apply Rmin_glb; [|lra].
    eapply Rle_trans; [|apply Rmax_l]. lra.
  - unfold np_clip. apply Rmin_r.
Qed.

(** The conversion to uint8 keeps a value between 51 and 255 at least 51. *)
Lemma astype_uint8_bright (x : R) :
  (51 <= x <= 255)%R -> 51 <= astype_uint8 x <= 255.
Proof.
  intros [Hlo Hhi]. unfold astype_uint8, trunc.
  destruct (Rle_dec 0 x) as [_|Hneg]; [|lra].
  destruct (base_Int_part x) as [H1 H2].
  assert (Hge : 50 < Int_part x).
  { apply lt_IZR. lra. }
  assert (Hle : Int_part x <= 255).
  { apply le_IZR. lra. }
  rewrite Z.mod_small by lia. lia.
Qed.

Lemma astype_uint8_byte (k : Z) :
  0 <= k <= 255 -> astype_uint8 (IZR k) = k.
Proof.
  intros Hk. unfold astype_uint8, trunc.
  destruct (Rle_dec 0 (IZR k)) as [_|Hneg].
  - destruct (base_Int_part (IZR k)) as [H1 H2].
    assert (Hle : Int_part (IZR k) <= k) by (apply le_IZR; exact H1).
    assert (Hgt : k - 1 < Int_part (IZR k)).
    { apply lt_IZR. rewrite minus_IZR. lra. }
    rewrite Z.mod_small by lia. lia.
  - exfalso. apply Hneg. apply IZR_le. lia.
Qed.

(** * The claims about [__call__] *)

Section CallClaims.

Variable imread : string -> option (ndarray R).
Variable resize : ndarray R -> Z * Z -> ndarray R.

(** C4. When the number of manifold rows differs from the number of image
    files, [__call__] raises [AssertionError] and leaves the state as it
    found it: no binning event and no image read is recorded, and the heap
    is untouched. *)
Theorem call_rejects_mismatched_lengths (self : loc)
  (this : ManifoldProjection2D) (manifold : list (Q * Q)) (bins : Z)
  (st : state) :
  self_at (heap st) self this ->
  List.length manifold <> List.length (_image_files this) ->
  __call__ imread resize self manifold bins st = (Raise AssertionError, st).
Proof.
  intros Hself Hne. unfold __call__.
  erewrite bind_ok; [|apply read_self_ok; exact Hself].
  destruct (Nat.eqb_spec (List.length manifold) (List.length (_image_files this)));
    [contradiction|].
  reflexivity.
Qed.

(** C2 (amended). For every valid call the canvas has three channels and each
    spatial dimension [d] is [(output_shape[d] + 1) * bins +
    output_shape[d] // 2]. *)
Theorem call_canvas_shape (self : loc) (this : ManifoldProjection2D)
  (manifold : list (Q * Q)) (bins : Z) (st : state) :
  valid_call imread resize self this manifold bins st ->
  exists imgrid extent st' canvas,
    __call__ imread resize self manifold bins st = (Ok (imgrid, extent), st') /\
    nth_error (heap st') imgrid = Some (U8 canvas) /\
    shape canvas =
    ((fst (_output_shape this) + 1) * bins + fst (_output_shape this) / 2,
     (snd (_output_shape this) + 1) * bins + snd (_output_shape this) / 2,
     3).
Proof.
  intros Hvalid.
  destruct (call_succeeds imread resize self this manifold bins st Hvalid)
    as [xe [ye [bn0 [bn1 [imgrid [canvas [x_lo [x_hi [y_lo [y_hi [st'
        [_ [Hrun [Hcanvas [Hshape _]]]]]]]]]]]]]]].
  exists imgrid, [x_lo; x_hi; y_lo; y_hi], st', canvas.
  split; [exact Hrun|]. split; [exact Hcanvas|exact Hshape].
Qed.


(** C9. Whatever its outcome, [__call__] changes no object that exists when
    it is called: the instance keeps its attributes, the arrays its
    [_images] refer to are the same, and a canvas it returns is a new
    object. *)
Theorem call_leaves_object_unchanged (self : loc) (manifold : list (Q * Q))
  (bins : Z) (st st' : state) (r : result (loc * list Q)) :
  __call__ imread resize self manifold bins st = (r, st') ->
  (forall l, (l < List.length (heap st))%nat ->
     nth_error (heap st') l = nth_error (heap st) l) /\
  (forall this, self_at (heap st) self this ->
     self_at (heap st') self this /\
     forall l a, In l (_images this) ->
       nth_error (heap st) l = Some (F64 a) ->
       nth_error (heap st') l = Some (F64 a)) /\
  (forall imgrid extent, r = Ok (imgrid, extent) ->
     (List.length (heap st) <= imgrid)%nat).
Proof.
  intros Hrun.
  destruct (framed_call imread resize (List.length (heap st)) self manifold
              bins st r st' (Nat.le_refl _) Hrun) as [_ [Hsame Hnew]].
  split; [exact Hsame|]. split.
  - intros this Hself. split.
    + unfold self_at in *. rewrite Hsame; [exact Hself|].
      apply nth_error_Some. congruence.
    + intros l a _ Hl. rewrite Hsame; [exact Hl|].
      apply nth_error_Some. congruence.
  - intros imgrid extent ->. apply (Hnew (imgrid, extent) eq_refl).
Qed.

End CallClaims.

(** C8. The bin numbers of every point lie between 1 and [bins], and then
    (for [bins >= 1] and [half_bins = output_shape // 2]) both slices of the
    point's tile start at a non-negative index, end inside the canvas, are
    taken as written and have the full tile length. *)
Theorem bin_numbers_and_tile_slices_inside (manifold : list (Q * Q))
  (bins : Z) (output_shape : Z * Z) :
  manifold <> [] -> 1 <= bins ->
  0 <= fst output_shape -> 0 <= snd output_shape ->
  exists xe ye bn0 bn1,
    binned_statistic_2d (map fst manifold) (map snd manifold) bins
    = Ok (xe, ye, bn0, bn1) /\
    List.length bn0 = List.length manifold /\
    List.length bn1 = List.length manifold /\
    Forall (fun b => 1 <= b <= bins) bn0 /\
    Forall (fun b => 1 <= b <= bins) bn1 /\
    forall xx yy, In (xx, yy) (combine bn0 bn1) ->
      let full_bins := output_shape in
      let half_bins := (fst output_shape / 2, snd output_shape / 2) in
      let rows := fst (fst (canvas_shape output_shape bins)) in
      let cols := snd (fst (canvas_shape output_shape bins)) in
      let blockx := (xx * fst full_bins - fst half_bins,
                     (xx + 1) * fst full_bins - fst half_bins) in
      let blocky := (yy * snd full_bins - snd half_bins,
                     (yy + 1) * snd full_bins - snd half_bins) in
      (0 <= fst blockx /\ snd blockx <= rows /\
       slice_indices (fst blockx) (snd blockx) rows = blockx /\
       slice_length blockx = fst full_bins) /\
      (0 <= fst blocky /\ snd blocky <= cols /\
       slice_indices (fst blocky) (snd blocky) cols = blocky /\
       slice_length blocky = snd full_bins).
Proof.
  intros Hne Hbins Hf0 Hf1.
  assert (Hx : map fst manifold <> []).
  { destruct manifold; [congruence|discriminate]. }
  destruct (binned_statistic_2d_spec (map fst manifold) (map snd manifold) bins
              Hx ltac:(rewrite !length_map; reflexivity) Hbins)
    as [xe [ye [bn0 [bn1 [Ebin [Hxe [Hye [L0 [L1 [F0 F1]]]]]]]]]].
  rewrite length_map in L0, L1.
  exists xe, ye, bn0, bn1.
  split; [exact Ebin|]. split; [exact L0|]. split; [exact L1|].
  split; [exact F0|]. split; [exact F1|].
  intros xx yy Hin.
  destruct (combine_keys_in_range bins bn0 bn1 (xx, yy) F0 F1 Hin) as [Hxx Hyy].
  simpl in Hxx, Hyy. cbv zeta. unfold canvas_shape. cbn [fst snd].
  split.
  - apply (tile_slice_inside (fst output_shape) bins xx Hf0 Hbins Hxx).
  - apply (tile_slice_inside (snd output_shape) bins yy Hf1 Hbins Hyy).
Qed.

Lemma in_tile_offset (output_shape : Z * Z) (xy : key) (i j : Z) :
  0 <= i < fst output_shape -> 0 <= j < snd output_shape ->
  in_tile output_shape xy (tile_start (fst output_shape) (fst xy) + i)
                          (tile_start (snd output_shape) (snd xy) + j).
Proof. intros Hi Hj. unfold in_tile. lia. Qed.

Lemma tile_value_offset (output_shape : Z * Z) (hp : list pyobj) (xy : key)
  (locs : list loc) (i j c : Z) :
  tile_value output_shape hp xy locs
    (tile_start (fst output_shape) (fst xy) + i)
    (tile_start (snd output_shape) (snd xy) + j) c
  = astype_uint8 (np_mean (map (fun im => data im i j c) (arrays_at hp locs))).
Proof.
  unfold tile_value. f_equal. f_equal. apply map_ext. intros im.
  f_equal; lia.
Qed.

Section TileClaims.

Variable imread : string -> option (ndarray R).
Variable resize : ndarray R -> Z * Z -> ndarray R.

(** C3. With preloaded images, a valid call writes into the tile of every bin
    that has points the element-wise mean of the cached images of exactly
    the rows that fall into the bin, converted to the canvas's dtype. *)
Theorem preloaded_tile_is_mean_of_bin_images (self : loc)
  (this : ManifoldProjection2D) (manifold : list (Q * Q)) (bins : Z)
  (st : state) :
  valid_call imread resize self this manifold bins st ->
  _images this <> [] ->
  exists xe ye bn0 bn1 imgrid extent st' canvas,
    binned_statistic_2d (map fst manifold) (map snd manifold) bins
    = Ok (xe, ye, bn0, bn1) /\
    __call__ imread resize self manifold bins st = (Ok (imgrid, extent), st') /\
    nth_error (heap st') imgrid = Some (U8 canvas) /\
    forall xy, In xy (combine bn0 bn1) ->
      let members := bin_members (combine bn0 bn1) xy in
      let images :=
        arrays_at (heap st)
          (map (fun idx => nth idx (_images this) 0%nat) members) in
      (forall idx, In idx members <-> nth_error (combine bn0 bn1) idx = Some xy) /\
      List.length images = List.length members /\
      forall i j c,
        0 <= i < fst (_output_shape this) ->
        0 <= j < snd (_output_shape this) -> 0 <= c < 3 ->
        data canvas (tile_start (fst (_output_shape this)) (fst xy) + i)
                    (tile_start (snd (_output_shape this)) (snd xy) + j) c
        = astype_uint8 (np_mean (map (fun im => data im i j c) images)).
Proof.
  intros Hvalid Hpre.
  destruct Hvalid as [Hself [Hok [_ [Hrows [Hpoints Hbins]]]]].
  destruct (call_preload imread resize self this manifold bins st Hself Hok Hrows
              Hpoints Hbins Hpre)
    as [xe [ye [bn0 [bn1 [canvas [x_lo [x_hi [y_lo [y_hi
        [Ebin [Hrun [_ [_ [_ [_ [_ [_ [_ [Hin _]]]]]]]]]]]]]]]]]]].
  assert (Hx : map fst manifold <> []).
  { destruct manifold; [congruence|discriminate]. }
  destruct (binned_statistic_2d_spec (map fst manifold) (map snd manifold) bins
              Hx ltac:(rewrite !length_map; reflexivity) Hbins)
    as [xe' [ye' [bn0' [bn1' [Ebin' [_ [_ [L0 [L1 _]]]]]]]]].
  rewrite Ebin in Ebin'. inversion Ebin'; subst xe' ye' bn0' bn1'.
  rewrite length_map in L0, L1.
  pose proof (combine_length_same bn0 bn1 _ L0 L1) as Lbxy.
  destruct Hok as [_ [_ [Himgs Hcount]]]. specialize (Hcount Hpre).
  exists xe, ye, bn0, bn1, (List.length (heap st)), [x_lo; x_hi; y_lo; y_hi].
  eexists. exists canvas.
  split; [exact Ebin|]. split; [exact Hrun|]. split; [apply nth_error_last|].
  intros xy Hxy members images. split; [|split].
  - intros idx. apply bin_members_iff.
  - unfold images. rewrite (arrays_at_length (_output_shape this));
      [apply length_map|].
    apply Forall_forall. intros l Hl. apply in_map_iff in Hl.
    destruct Hl as [idx [<- Hidx]]. apply bin_members_iff in Hidx.
    assert (Hlt : (idx < List.length (combine bn0 bn1))%nat).
    { apply nth_error_Some. unfold key in *. rewrite Hidx. discriminate. }
    rewrite Forall_forall in Himgs. apply Himgs. apply nth_In.
    unfold key in *. lia.
  - intros i j c Hi Hj Hc.
    rewrite (Hin xy _ _ c Hxy (in_tile_offset _ xy i j Hi Hj) Hc).
    apply tile_value_offset.
Qed.

(** C1. Without preloaded images, a valid call reads exactly one file for
    every bin that has points, the file of the first row that falls into the
    bin, and the tile of the bin holds that single normalised image,
    converted to the canvas's dtype, however many rows the bin has. *)
Theorem lazy_tile_is_first_image_of_bin (self : loc)
  (this : ManifoldProjection2D) (manifold : list (Q * Q)) (bins : Z)
  (st : state) :
  valid_call imread resize self this manifold bins st ->
  _images this = [] ->
  exists xe ye bn0 bn1 imgrid extent st' canvas,
    binned_statistic_2d (map fst manifold) (map snd manifold) bins
    = Ok (xe, ye, bn0, bn1) /\
    __call__ imread resize self manifold bins st = (Ok (imgrid, extent), st') /\
    nth_error (heap st') imgrid = Some (U8 canvas) /\
    trace st'
    = (trace st ++ [EvBinning])
      ++ map (fun idx => EvImread (file_at this idx))
             (first_indices 0 (combine bn0 bn1) []) /\
    (forall idx, In idx (first_indices 0 (combine bn0 bn1) []) <->
       exists xy, In xy (combine bn0 bn1) /\
                  idx = hd 0%nat (bin_members (combine bn0 bn1) xy)) /\
    forall xy, In xy (combine bn0 bn1) ->
      let first := hd 0%nat (bin_members (combine bn0 bn1) xy) in
      nth_error (combine bn0 bn1) first = Some xy /\
      (forall idx, nth_error (combine bn0 bn1) idx = Some xy ->
                   (first <= idx)%nat) /\
      exists image,
        load imread resize this (file_at this first) = Ok image /\
        forall i j c,
          0 <= i < fst (_output_shape this) ->
          0 <= j < snd (_output_shape this) -> 0 <= c < 3 ->
          data canvas (tile_start (fst (_output_shape this)) (fst xy) + i)
                      (tile_start (snd (_output_shape this)) (snd xy) + j) c
          = astype_uint8 (data image i j c).
Proof.
  intros Hvalid Hlazy.
  destruct Hvalid as [Hself [Hok [Hfiles [Hrows [Hpoints Hbins]]]]].
  specialize (Hfiles Hlazy).
  destruct (call_lazy imread resize self this manifold bins st Hself Hok Hrows
              Hpoints Hbins Hlazy Hfiles)
    as [xe [ye [bn0 [bn1 [new [canvas [x_lo [x_hi [y_lo [y_hi
        [Ebin [_ [Hrun [_ [_ [_ [_ [_ [_ [_ [Hin _]]]]]]]]]]]]]]]]]]]]].
  exists xe, ye, bn0, bn1, (List.length (heap st ++ map F64 new)),
    [x_lo; x_hi; y_lo; y_hi].
  eexists. exists canvas.
  split; [exact Ebin|]. split; [exact Hrun|]. split; [apply nth_error_last|].
  split; [reflexivity|]. split.
  - intros idx. rewrite first_indices_iff. unfold bin_members. split.
    + intros [b [Hb [_ Hidx]]]. exists b. split; assumption.
    + intros [b [Hb Hidx]]. exists b. split; [exact Hb|].
      split; [intros []|exact Hidx].
  - intros xy Hxy first.
    assert (Hfirst : In first (bin_members (combine bn0 bn1) xy)).
    { unfold first, bin_members.
      pose proof (members_from_nonempty (combine bn0 bn1) xy 0%nat Hxy) as Hne.
      destruct (members_from 0 (combine bn0 bn1) xy); [congruence|].
      left. reflexivity. }
    split; [apply bin_members_iff; exact Hfirst|]. split.
    + intros idx Hidx. apply bin_members_iff in Hidx.
      apply (members_from_hd_le _ _ _ _ Hidx).
    + destruct (Hin xy _ _ 0 Hxy
                  (in_tile_offset (_output_shape this) xy 0 0
                     ltac:(destruct Hok; lia) ltac:(destruct Hok as [_ [? _]]; lia))
                  ltac:(lia)) as [image [Hload _]].
      exists image. split; [exact Hload|].
      intros i j c Hi Hj Hc.
      destruct (Hin xy _ _ c Hxy (in_tile_offset _ xy i j Hi Hj) Hc)
        as [image' [Hload' Hdata]].
      rewrite Hload in Hload'. inversion Hload'; subst image'.
      rewrite Hdata. f_equal. f_equal; lia.
Qed.

End TileClaims.

Lemma loaded_image_has_bright_pixel
  (imread : string -> option (ndarray R))
  (resize : ndarray R -> Z * Z -> ndarray R) (this : ManifoldProjection2D)
  (filename : string) (image : ndarray R) (c : Z) :
  load imread resize this filename = Ok image ->
  shape image = (fst (_output_shape this), snd (_output_shape this), 3) ->
  1 <= fst (_output_shape this) -> 1 <= snd (_output_shape this) ->
  0 <= c < 3 ->
  exists i j,
    0 <= i < fst (_output_shape this) /\ 0 <= j < snd (_output_shape this) /\
    51 <= astype_uint8 (data image i j c) <= 255.
Proof.
  intros Hload Hshape Hf0 Hf1 Hc. unfold load, _load_and_normalize in Hload.
  destruct (imread filename) as [raw|]; [|discriminate].
  inversion Hload as [Himage]. rewrite <- Himage in Hshape. simpl in Hshape.
  rewrite normalize_channels_shape in Hshape.
  destruct (normalized_channel_has_bright_pixel
              (resize raw (_output_shape this)) (np_prod (_output_shape this)) c)
    as [i [j [Hi [Hj Hv]]]].
  - unfold np_prod. nia.
  - rewrite Hshape. simpl. exact Hf0.
  - rewrite Hshape. simpl. exact Hf1.
  - rewrite Hshape. simpl. exact Hc.
  - rewrite Hshape in Hi, Hj. simpl in Hi, Hj.
    exists i, j. split; [exact Hi|]. split; [exact Hj|].
    apply astype_uint8_bright. exact Hv.
Qed.

Section SinglePoint.

Variable imread : string -> option (ndarray R).
Variable resize : ndarray R -> Z * Z -> ndarray R.

(** C6. A valid call with a single row populates exactly one tile. The tile
    of the row's bin lies inside the canvas and holds the normalised image of
    the row's file (the cached one when images are preloaded), converted to
    the canvas's dtype; the tile is not empty, each of its channels has a
    pixel that is not zero; and every pixel outside this tile is zero. *)
Theorem single_point_canvas_has_one_tile (self : loc)
  (this : ManifoldProjection2D) (point : Q * Q) (bins : Z) (st : state) :
  valid_call imread resize self this [point] bins st ->
  images_loaded imread resize (heap st) this ->
  exists imgrid extent st' canvas xy image,
    __call__ imread resize self [point] bins st = (Ok (imgrid, extent), st') /\
    nth_error (heap st') imgrid = Some (U8 canvas) /\
    key_in_range bins xy /\
    (0 <= tile_start (fst (_output_shape this)) (fst xy) /\
     tile_start (fst (_output_shape this)) (fst xy) + fst (_output_shape this)
     <= fst (fst (shape canvas))) /\
    (0 <= tile_start (snd (_output_shape this)) (snd xy) /\
     tile_start (snd (_output_shape this)) (snd xy) + snd (_output_shape this)
     <= snd (fst (shape canvas))) /\
    load imread resize this (file_at this 0) = Ok image /\
    (forall i j c,
       0 <= i < fst (_output_shape this) ->
       0 <= j < snd (_output_shape this) -> 0 <= c < 3 ->
       data canvas (tile_start (fst (_output_shape this)) (fst xy) + i)
                   (tile_start (snd (_output_shape this)) (snd xy) + j) c
       = astype_uint8 (data image i j c)) /\
    (forall c, 0 <= c < 3 ->
       exists i j,
         0 <= i < fst (_output_shape this) /\
         0 <= j < snd (_output_shape this) /\
         0 < data canvas (tile_start (fst (_output_shape this)) (fst xy) + i)
                         (tile_start (snd (_output_shape this)) (snd xy) + j) c) /\
    (forall i j c, ~ in_tile (_output_shape this) xy i j ->
       data canvas i j c = 0).
Proof.
  intros Hvalid Hloaded.
  destruct Hvalid as [Hself [Hok [Hfiles [Hrows [Hpoints Hbins]]]]].
  assert (Hx : map fst [point] <> []) by discriminate.
  destruct (binned_statistic_2d_spec (map fst [point]) (map snd [point]) bins
              Hx eq_refl Hbins)
    as [xe [ye [bn0 [bn1 [Ebin [_ [_ [L0 [L1 [F0 F1]]]]]]]]]].
  destruct bn0 as [|xx [|? ?]]; try discriminate L0.
  destruct bn1 as [|yy [|? ?]]; try discriminate L1.
  assert (Hkey : key_in_range bins (xx, yy)).
  { apply (combine_keys_in_range bins [xx] [yy]); try assumption. left. reflexivity. }
  pose proof Hok as [Hf0 [Hf1 [Himgs Hcount]]].
  destruct Hkey as [Hxx Hyy]. cbn [fst snd] in Hxx, Hyy.
  destruct (tile_slice_inside (fst (_output_shape this)) bins xx ltac:(lia) Hbins Hxx)
    as [Ax [Bx _]].
  destruct (tile_slice_inside (snd (_output_shape this)) bins yy ltac:(lia) Hbins Hyy)
    as [Ay [By _]].
  pose proof (half_bounds (fst (_output_shape this))) as Hh0.
  pose proof (half_bounds (snd (_output_shape this))) as Hh1.
  (* the image of the row and what the call leaves in its tile *)
  assert (Hmain : exists imgrid extent st' canvas image,
    __call__ imread resize self [point] bins st = (Ok (imgrid, extent), st') /\
    nth_error (heap st') imgrid = Some (U8 canvas) /\
    shape canvas = canvas_shape (_output_shape this) bins /\
    load imread resize this (file_at this 0) = Ok image /\
    shape image = (fst (_output_shape this), snd (_output_shape this), 3) /\
    (forall i j c,
       0 <= i < fst (_output_shape this) ->
       0 <= j < snd (_output_shape this) -> 0 <= c < 3 ->
       data canvas (tile_start (fst (_output_shape this)) xx + i)
                   (tile_start (snd (_output_shape this)) yy + j) c
       = astype_uint8 (data image i j c)) /\
    (forall i j c, ~ in_tile (_output_shape this) (xx, yy) i j ->
       data canvas i j c = 0)).
  { destruct (_images this) as [|l0 ls] eqn:Eimgs.
    - destruct (call_lazy imread resize self this [point] bins st Hself Hok Hrows
                  Hpoints Hbins Eimgs (Hfiles eq_refl))
        as [xe' [ye' [bn0' [bn1' [new [canvas [x_lo [x_hi [y_lo [y_hi
            [Ebin' [_ [Hrun [Hshape [_ [_ [_ [_ [_ [_ [Hin Hout]]]]]]]]]]]]]]]]]]]]].
      rewrite Ebin in Ebin'. inversion Ebin'; subst xe' ye' bn0' bn1'.
      cbn [combine] in Hin, Hout.
      assert (Hmem : hd 0%nat (bin_members [(xx, yy)] (xx, yy)) = 0%nat).
      { unfold bin_members. rewrite members_from_same. reflexivity. }
      destruct (Hin (xx, yy) _ _ 0 (or_introl eq_refl)
                  (in_tile_offset (_output_shape this) (xx, yy) 0 0
                     ltac:(lia) ltac:(lia)) ltac:(lia)) as [image [Hload _]].
      rewrite Hmem in Hload.
      assert (Hfile : In (file_at this 0) (_image_files this)).
      { apply file_at_In. simpl in Hrows. lia. }
      destruct (load_ok imread resize this _ (Hfiles eq_refl) Hfile)
        as [image' [Hload' Hshape']].
      rewrite Hload in Hload'. inversion Hload'; subst image'.
      exists (List.length (heap st ++ map F64 new)), [x_lo; x_hi; y_lo; y_hi].
      eexists. exists canvas, image.
      split; [exact Hrun|]. split; [apply nth_error_last|].
      split; [exact Hshape|]. split; [exact Hload|]. split; [exact Hshape'|]. split.
      + intros i j c Hi Hj Hc.
        destruct (Hin (xx, yy) _ _ c (or_introl eq_refl)
                    (in_tile_offset (_output_shape this) (xx, yy) i j Hi Hj) Hc)
          as [image2 [Hload2 Hdata]].
        rewrite Hmem, Hload in Hload2. inversion Hload2; subst image2.
        cbn [fst snd] in Hdata. rewrite Hdata. f_equal. f_equal; lia.
      + intros i j c Hnot. apply Hout. intros xy [<-|[]]. exact Hnot.
    - assert (Hpre : _images this <> []) by (rewrite Eimgs; discriminate).
      destruct (call_preload imread resize self this [point] bins st Hself Hok Hrows
                  Hpoints Hbins Hpre)
        as [xe' [ye' [bn0' [bn1' [canvas [x_lo [x_hi [y_lo [y_hi
            [Ebin' [Hrun [Hshape [_ [_ [_ [_ [_ [_ [Hin Hout]]]]]]]]]]]]]]]]]]].
      rewrite Ebin in Ebin'. inversion Ebin'; subst xe' ye' bn0' bn1'.
      cbn [combine] in Hin, Hout.
      destruct (Hloaded 0%nat l0 ltac:(rewrite Eimgs; reflexivity))
        as [image [Himage Hload]].
      inversion Himgs as [|? ? [image' [Himage' Hshape']] _]; subst.
      rewrite Himage in Himage'. inversion Himage'; subst image'.
      exists (List.length (heap st)), [x_lo; x_hi; y_lo; y_hi].
      eexists. exists canvas, image.
      split; [exact Hrun|]. split; [apply nth_error_last|].
      split; [exact Hshape|]. split; [exact Hload|]. split; [exact Hshape'|]. split.
      + intros i j c Hi Hj Hc.
        pose proof (Hin (xx, yy) _ _ c (or_introl eq_refl)
                      (in_tile_offset (_output_shape this) (xx, yy) i j Hi Hj) Hc)
          as Hdata.
        rewrite tile_value_offset in Hdata.
        unfold bin_members in Hdata. rewrite members_from_same in Hdata.
        rewrite Eimgs in Hdata. cbn [members_from map nth arrays_at flat_map] in Hdata.
        rewrite Himage in Hdata. cbn [app map] in Hdata.
        rewrite np_mean_single in Hdata. exact Hdata.
      + intros i j c Hnot. apply Hout. intros xy [<-|[]]. exact Hnot. }
  destruct Hmain as [imgrid [extent [st' [canvas [image
    [Hrun [Hcanvas [Hshape [Hload [Hishape [Htile Hout]]]]]]]]]]].
  exists imgrid, extent, st', canvas, (xx, yy), image.
  split; [exact Hrun|]. split; [exact Hcanvas|].
  split; [split; assumption|]. rewrite Hshape. unfold canvas_shape.
  cbn [fst snd]. split; [unfold tile_start; nia|]. split; [unfold tile_start; nia|].
  split; [exact Hload|]. split; [exact Htile|]. split; [|exact Hout].
  intros c Hc.
  destruct (loaded_image_has_bright_pixel imread resize this _ image c Hload
              Hishape Hf0 Hf1 Hc) as [i [j [Hi [Hj [Hv _]]]]].
  exists i, j. split; [exact Hi|]. split; [exact Hj|].
  rewrite (Htile i j c Hi Hj Hc). lia.
Qed.

End SinglePoint.

(** * The claims at concrete inputs *)

Lemma call_rejects_mismatched_lengths_witness :
  __call__ demo_imread demo_resize 0%nat [(0, 0)%Q] 2 demo_lazy_state
  = (Raise AssertionError, demo_lazy_state).
Proof.
  apply (call_rejects_mismatched_lengths demo_imread demo_resize 0%nat
           demo_lazy [(0, 0)%Q] 2 demo_lazy_state).
  - reflexivity.
  - simpl. lia.
Defined.

Lemma call_canvas_shape_witness :
  exists imgrid extent st' canvas,
    __call__ demo_imread demo_resize 0%nat [(0, 0)%Q] 32 demo_single_state
    = (Ok (imgrid, extent), st') /\
    nth_error (heap st') imgrid = Some (U8 canvas) /\
    shape canvas = (2112, 2112, 3).
Proof.
  apply (call_canvas_shape demo_imread demo_resize 0%nat demo_single
           [(0, 0)%Q] 32 demo_single_state demo_single_valid).
Defined.

(** The canvas of the default output shape (64, 64) with the default 32 bins
    has 2112 rows and columns, not the [64 * (32 + 1) + 64 // 2 = 2144] of
    the claim. *)
Lemma canvas_shape_claim_counterexample :
  exists imgrid extent st' canvas,
    __call__ demo_imread demo_resize 0%nat [(0, 0)%Q] 32 demo_single_state
    = (Ok (imgrid, extent), st') /\
    nth_error (heap st') imgrid = Some (U8 canvas) /\
    shape canvas = (2112, 2112, 3) /\
    shape canvas <> (64 * (32 + 1) + 64 / 2, 64 * (32 + 1) + 64 / 2, 3).
Proof.
  destruct (call_succeeds demo_imread demo_resize 0%nat demo_single
              [(0, 0)%Q] 32 demo_single_state demo_single_valid)
    as [xe [ye [bn0 [bn1 [imgrid [canvas [x_lo [x_hi [y_lo [y_hi [st'
        [_ [Hrun [Hcanvas [Hshape _]]]]]]]]]]]]]]].
  exists imgrid, [x_lo; x_hi; y_lo; y_hi], st', canvas.
  split; [exact Hrun|]. split; [exact Hcanvas|]. split; [exact Hshape|].
  rewrite Hshape. vm_compute. discriminate.
Qed.


Lemma call_leaves_object_unchanged_witness :
  nth_error
    (heap (snd (__call__ demo_imread demo_resize 0%nat demo_manifold 2
                  demo_preloaded_state))) 1
  = nth_error (heap demo_preloaded_state) 1.
Proof.
  destruct (call_leaves_object_unchanged demo_imread demo_resize 0%nat
              demo_manifold 2 demo_preloaded_state _ _
              (surjective_pairing _)) as [Hsame _].
  apply Hsame. simpl. lia.
Defined.

Lemma bin_numbers_and_tile_slices_inside_witness :
  exists xe ye,
    binned_statistic_2d (map fst demo_manifold) (map snd demo_manifold) 2
    = Ok (xe, ye, [1; 2], [1; 2]) /\
    slice_indices (1 * 2 - 2 / 2) ((1 + 1) * 2 - 2 / 2) (fst (fst (canvas_shape (2, 2) 2)))
    = (1, 3).
Proof.
  destruct (bin_numbers_and_tile_slices_inside demo_manifold 2 (2, 2))
    as [xe [ye [bn0 [bn1 [Ebin [_ [_ [_ [_ Hslices]]]]]]]]].
  - discriminate.
  - lia.
  - simpl. lia.
  - simpl. lia.
  - vm_compute in Ebin. inversion Ebin; subst.
    eexists. eexists. split; [reflexivity|].
    destruct (Hslices 1 1 (or_introl eq_refl)) as [[_ [_ [Hs _]]] _].
    exact Hs.
Defined.

Lemma preloaded_tile_is_mean_of_bin_images_witness :
  exists imgrid extent st' canvas,
    __call__ demo_imread demo_resize 0%nat [(0, 0)%Q; (0, 0)%Q] 2
      demo_pair_state
    = (Ok (imgrid, extent), st') /\
    nth_error (heap st') imgrid = Some (U8 canvas) /\
    data canvas 3 3 0 = astype_uint8 (np_mean [51%R; 53%R]) /\
    data canvas 3 3 0 = 52.
Proof.
  destruct (preloaded_tile_is_mean_of_bin_images demo_imread demo_resize 0%nat
              demo_preloaded [(0, 0)%Q; (0, 0)%Q] 2 demo_pair_state)
    as [xe [ye [bn0 [bn1 [imgrid [extent [st' [canvas [Ebin [Hrun [Hcanvas Htiles]]]]]]]]]]].
  - split; [reflexivity|]. split.
    + split; [simpl; lia|]. split; [simpl; lia|]. split.
      * constructor; [|constructor; [|constructor]]; eexists; split; reflexivity.
      * intros _. reflexivity.
    + split; [intros H; discriminate H|]. split; [reflexivity|].
      split; [discriminate|lia].
  - discriminate.
  - vm_compute in Ebin. inversion Ebin; subst.
    exists imgrid, extent, st', canvas.
    split; [exact Hrun|]. split; [exact Hcanvas|].
    destruct (Htiles (2, 2) (or_introl eq_refl)) as [_ [_ Hdata]].
    assert (Hpixel : data canvas 3 3 0 = astype_uint8 (np_mean [51%R; 53%R])).
    { apply (Hdata 0 0 0); simpl; lia. }
    split; [exact Hpixel|]. rewrite Hpixel.
    replace (np_mean [51%R; 53%R]) with (IZR 52)
      by (unfold np_mean, np_sum; simpl; lra).
    apply astype_uint8_byte. lia.
Defined.

Lemma lazy_tile_is_first_image_of_bin_witness :
  exists imgrid extent st' canvas,
    __call__ demo_imread demo_resize 0%nat [(0, 0)%Q; (0, 0)%Q] 2
      (mk_state [Instance demo_lazy] [])
    = (Ok (imgrid, extent), st') /\
    nth_error (heap st') imgrid = Some (U8 canvas) /\
    trace st' = [EvBinning; EvImread "a.png"%string].
Proof.
  destruct (lazy_tile_is_first_image_of_bin demo_imread demo_resize 0%nat
              demo_lazy [(0, 0)%Q; (0, 0)%Q] 2 (mk_state [Instance demo_lazy] []))
    as [xe [ye [bn0 [bn1 [imgrid [extent [st' [canvas
        [Ebin [Hrun [Hcanvas [Htrace _]]]]]]]]]]]].
  - split; [reflexivity|]. split.
    + split; [simpl; lia|]. split; [simpl; lia|]. split; [constructor|].
      intros H. exfalso. apply H. reflexivity.
    + split; [intros _; apply demo_files_ok|]. split; [reflexivity|].
      split; [discriminate|lia].
  - reflexivity.
  - vm_compute in Ebin. inversion Ebin; subst.
    exists imgrid, extent, st', canvas.
    split; [exact Hrun|]. split; [exact Hcanvas|]. exact Htrace.
Defined.

Lemma load_and_normalize_value_ranges_witness :
  (-4 <= data (normalize_channels (np_prod (2, 2)%Z)
                 (demo_resize demo_raw (2, 2)%Z)) 0%Z 0%Z 0%Z <= 4)%R.
Proof.
  destruct (load_and_normalize_value_ranges demo_imread demo_resize
              "a.png"%string (2, 2) demo_raw eq_refl) as [_ Hrange].
  apply (Hrange 0 0 0). unfold in_bounds. simpl. lia.
Defined.

Lemma normalization_divisor_positive_witness :
  (0 < 1 / sqrt (IZR (np_prod (2, 2)%Z)))%R.
Proof.
  destruct (normalization_divisor_positive demo_imread demo_resize
              "a.png"%string (2, 2) demo_raw eq_refl) as [_ Hdiv].
  - simpl. lia.
  - simpl. lia.
  - destruct (Hdiv 0) as [[Hpos _] _]; [simpl; lia|]. exact Hpos.
Defined.

Lemma single_point_canvas_has_one_tile_witness :
  (exists imgrid extent st' canvas,
     __call__ demo_imread demo_resize 0%nat [(0, 0)%Q] 32 demo_single_state
     = (Ok (imgrid, extent), st') /\
     nth_error (heap st') imgrid = Some (U8 canvas) /\
     (exists i j, 0 < data canvas i j 0) /\
     data canvas 0 0 0 = 0) /\
  (exists imgrid extent st' canvas,
     __call__ demo_imread demo_resize 0%nat [(0, 0)%Q] 2
       demo_single_cached_state
     = (Ok (imgrid, extent), st') /\
     nth_error (heap st') imgrid = Some (U8 canvas) /\
     (exists i j, 0 < data canvas i j 0) /\
     data canvas 0 0 0 = 0).
Proof.
  split.
  - destruct (single_point_canvas_has_one_tile demo_imread demo_resize 0%nat
                demo_single (0, 0)%Q 32 demo_single_state demo_single_valid)
      as [imgrid [extent [st' [canvas [xy [image
          [Hrun [Hcanvas [[Hxx Hyy] [_ [_ [_ [_ [Hbright Hout]]]]]]]]]]]]]].
    + intros idx l H. destruct idx; discriminate H.
    + exists imgrid, extent, st', canvas.
      split; [exact Hrun|]. split; [exact Hcanvas|]. split.
      * destruct (Hbright 0 ltac:(lia)) as [i [j [_ [_ Hpos]]]].
        eexists. eexists. exact Hpos.
      * apply Hout. destruct xy as [xx yy].
        unfold in_tile, tile_start, demo_single.
        cbn [fst snd _output_shape] in *. intros [H _].
        change (64 / 2) with 32 in H. lia.
  - destruct (single_point_canvas_has_one_tile demo_imread demo_resize 0%nat
                demo_single_cached (0, 0)%Q 2 demo_single_cached_state)
      as [imgrid [extent [st' [canvas [xy [image
          [Hrun [Hcanvas [[Hxx Hyy] [_ [_ [_ [_ [Hbright Hout]]]]]]]]]]]]]].
    + split; [reflexivity|]. split.
      * split; [simpl; lia|]. split; [simpl; lia|]. split.
        -- constructor; [|constructor]. eexists. split; reflexivity.
        -- intros _. reflexivity.
      * split; [intros H; discriminate H|]. split; [reflexivity|].
        split; [discriminate|lia].
    + intros idx l H. destruct idx as [|idx]; simpl in H.
      * inversion H; subst. exists demo_loaded_image. split; reflexivity.
      * destruct idx; discriminate H.
    + exists imgrid, extent, st', canvas.
      split; [exact Hrun|]. split; [exact Hcanvas|]. split.
      * destruct (Hbright 0 ltac:(lia)) as [i [j [_ [_ Hpos]]]].
        eexists. eexists. exact Hpos.
      * apply Hout. destruct xy as [xx yy].
        unfold in_tile, tile_start, demo_single_cached.
        cbn [fst snd _output_shape] in *. intros [H _].
        change (2 / 2) with 1 in H. lia.
Defined.

(** * Further properties of the normalisation *)

Lemma np_clip_mono (x y lo hi : R) :
  (x <= y)%R -> (np_clip x lo hi <= np_clip y lo hi)%R.
Proof.
  intros Hxy. unfold np_clip.
  apply Rle_min_compat_r. apply Rle_max_compat_r. exact Hxy.
Qed.

Lemma np_clip_inside (x lo hi : R) :
  (lo <= x <= hi)%R -> np_clip x lo hi = x.
Proof.
  intros [H1 H2]. unfold np_clip. rewrite Rmax_left by exact H1.
  apply Rmin_left. exact H2.
Qed.

Lemma np_sum_const (d : list R) (v : R) :
  (forall x, In x d -> x = v) -> np_sum d = (INR (List.length d) * v)%R.
Proof.
  induction d as [|a d IH]; intros Hall.
  - simpl. lra.
  - change (np_sum (a :: d)) with (a + np_sum d)%R.
    change (List.length (a :: d)) with (S (List.length d)). rewrite S_INR.
    rewrite (IH (fun x Hx => Hall x (or_intror Hx))).
    rewrite (Hall a (or_introl eq_refl)). lra.
Qed.

Lemma length_pos_INR {A : Type} (d : list A) :
  d <> [] -> (0 < INR (List.length d))%R.
Proof. intros Hne. apply lt_0_INR. destruct d; [congruence|simpl; lia]. Qed.

Lemma np_mean_const (d : list R) (v : R) :
  d <> [] -> (forall x, In x d -> x = v) -> np_mean d = v.
Proof.
  intros Hne Hall. unfold np_mean. rewrite (np_sum_const d v Hall).
  pose proof (length_pos_INR d Hne). field. lra.
Qed.

Lemma channel_nonempty (image : ndarray R) (c i j : Z) :
  0 <= i < fst (fst (shape image)) -> 0 <= j < snd (fst (shape image)) ->
  channel image c <> [].
Proof.
  intros Hi Hj E.
  assert (Hin : In (data image i j c) (channel image c)).
  { apply channel_In. exists i, j. repeat split; lia. }
  rewrite E in Hin. destruct Hin.
Qed.

(** The value of the returned image at one position, written out. *)
Lemma rescale_normalize_data (image : ndarray R) (n_pixels i j c : Z) :
  0 <= c < snd (shape image) ->
  data (rescale (normalize_channels n_pixels image)) i j c
  = np_clip (255 * ((np_clip ((data image i j c - np_mean (channel image c))
                               / a_std n_pixels (channel image c)) (-4) 4 + 1)
                    / 5)) 0 255.
Proof.
  intros Hc. cbn [rescale data]. rewrite normalize_channels_data by exact Hc.
  reflexivity.
Qed.

Section NormalizationExtras.

Variable imread : string -> option (ndarray R).
Variable resize : ndarray R -> Z * Z -> ndarray R.

(** X1. Within a channel the normalisation never inverts contrast: a pixel
    that is not brighter than another one in the resized image is not
    brighter in the returned image. *)
Theorem normalization_preserves_order (filename : string)
  (output_shape : Z * Z) (raw : ndarray R) (c i j i' j' : Z) :
  imread filename = Some raw ->
  1 <= fst output_shape -> 1 <= snd output_shape ->
  0 <= c < snd (shape (resize raw output_shape)) ->
  (data (resize raw output_shape) i j c
   <= data (resize raw output_shape) i' j' c)%R ->
  exists out,
    _load_and_normalize imread resize filename output_shape = Ok out /\
    (data out i j c <= data out i' j' c)%R.
Proof.
  intros Hread H0 H1 Hc Hle. unfold _load_and_normalize. rewrite Hread.
  eexists. split; [reflexivity|]. cbv zeta.
  rewrite !rescale_normalize_data by exact Hc.
  destruct (a_std_pos (np_prod output_shape)
              (channel (resize raw output_shape) c)) as [Hpos Hs].
  { unfold np_prod. nia. }
  set (s := a_std _ _) in *. set (m := np_mean _).
  apply np_clip_mono.
  apply Rmult_le_compat_l; [lra|].
  apply Rmult_le_compat_r; [lra|].
  apply Rplus_le_compat_r. apply np_clip_mono.
  apply Rmult_le_compat_r; [apply Rlt_le, Rinv_0_lt_compat; lra|]. lra.
Qed.

(** X3. A channel of the resized image whose pixels all hold the same byte
    value becomes 51 at every pixel, whatever the value. The channel has
    fewer than [2 ^ 45] pixels, so that double precision holds the sum of its
    values, and with it the mean, exactly. *)
Theorem normalization_of_flat_channel (filename : string)
  (output_shape : Z * Z) (raw : ndarray R) (c k : Z) :
  imread filename = Some raw ->
  0 <= c < snd (shape (resize raw output_shape)) ->
  0 <= k <= 255 ->
  fst (fst (shape (resize raw output_shape)))
  * snd (fst (shape (resize raw output_shape))) < 2 ^ 45 ->
  (forall i j, in_bounds (resize raw output_shape) i j c ->
     data (resize raw output_shape) i j c = IZR k) ->
  exists out,
    _load_and_normalize imread resize filename output_shape = Ok out /\
    forall i j, in_bounds out i j c -> data out i j c = 51%R.
Proof.
  intros Hread Hc _ _ Hflat. unfold _load_and_normalize. rewrite Hread.
  eexists. split; [reflexivity|]. cbv zeta. intros i j Hin.
  unfold in_bounds in Hin. cbn [rescale shape] in Hin.
  rewrite normalize_channels_shape in Hin. destruct Hin as [Hi [Hj _]].
  rewrite rescale_normalize_data by exact Hc.
  assert (Hmean : np_mean (channel (resize raw output_shape) c) = IZR k).
  { apply np_mean_const; [apply (channel_nonempty _ c i j Hi Hj)|].
    intros x Hx. apply channel_In in Hx. destruct Hx as [i0 [j0 [Hi0 [Hj0 ->]]]].
    apply Hflat. unfold in_bounds. tauto. }
  rewrite Hmean, (Hflat i j) by (unfold in_bounds; tauto).
  replace ((IZR k - IZR k) / a_std (np_prod output_shape)
                       (channel (resize raw output_shape) c))%R with 0%R
    by (unfold Rdiv; ring).
  rewrite (np_clip_inside 0 (-4) 4) by lra.
  rewrite np_clip_inside by lra. lra.
Qed.

End NormalizationExtras.

(** * Further properties of the constructor *)

Section ConstructorExtras.

Variable imread : string -> option (ndarray R).
Variable resize : ndarray R -> Z * Z -> ndarray R.

Lemma load_readable (this : ManifoldProjection2D) (f : string)
  (raw : ndarray R) :
  imread f = Some raw ->
  load imread resize this f
  = Ok (rescale (normalize_channels (np_prod (_output_shape this))
                   (resize raw (_output_shape this)))).
Proof. intros H. unfold load, _load_and_normalize. rewrite H. reflexivity. Qed.

Lemma get_image_unreadable (self : loc) (this : ManifoldProjection2D)
  (filename : string) (st : state) :
  self_at (heap st) self this -> imread filename = None ->
  _get_image imread resize self filename st
  = (Raise OSError, mk_state (heap st) (trace st ++ [EvImread filename])).
Proof.
  intros Hself Hnone. unfold _get_image.
  erewrite bind_ok; [|apply read_self_ok; exact Hself].
  erewrite bind_ok; [|reflexivity].
  apply bind_raise. unfold lift, _load_and_normalize. rewrite Hnone. reflexivity.
Qed.

(** The list comprehension of [__init__] stops at the first file that cannot
    be read. *)
Lemma preload_stops_at_unreadable (self : loc) (this : ManifoldProjection2D)
  (good : list string) (bad : string) (rest : list string) :
  forall st : state,
  self_at (heap st) self this ->
  (forall f, In f good -> exists raw, imread f = Some raw) ->
  imread bad = None ->
  exists imgs,
    List.length imgs = List.length good /\
    mapM (_get_image imread resize self) (good ++ bad :: rest) st
    = (Raise OSError,
       mk_state (heap st ++ map F64 imgs)
         (trace st ++ map EvImread (good ++ [bad]))).
Proof.
  induction good as [|f good IH]; intros st Hself Hgood Hbad.
  - exists []. split; [reflexivity|]. cbn [app mapM map]. rewrite app_nil_r.
    apply bind_raise. apply (get_image_unreadable self this); assumption.
  - destruct (Hgood f (or_introl eq_refl)) as [raw Hraw].
    set (a := rescale (normalize_channels (np_prod (_output_shape this))
                         (resize raw (_output_shape this)))).
    set (st1 := mk_state (heap st ++ [F64 a]) (trace st ++ [EvImread f])).
    destruct (IH st1 (self_at_app _ _ _ _ Hself)
                (fun f' H => Hgood f' (or_intror H)) Hbad) as [imgs [Hlen Hrun]].
    exists (a :: imgs). split; [simpl; congruence|].
    cbn [app mapM].
    erewrite bind_ok;
      [|apply (get_image_ok imread resize self this);
        [exact Hself|apply load_readable; exact Hraw]].
    fold a. fold st1. erewrite bind_raise; [|exact Hrun].
    unfold st1. cbn [heap trace map app]. rewrite <- !app_assoc. reflexivity.
Qed.

(** X5. With [preload_images], [__init__] reads every file once, in the order
    of [image_files], and caches the normalised image of row [idx] at
    [_images[idx]]; without it, it reads no file and caches nothing. In both
    cases the new instance holds the output shape and the file list. *)
Theorem init_reads_each_file_once (image_files : list string)
  (output_shape : Z * Z) (preload_images : bool) (st : state) :
  (preload_images = true ->
   forall f, In f image_files -> exists raw, imread f = Some raw) ->
  exists this imgs,
    __init__ imread resize image_files output_shape preload_images st
    = (Ok (List.length (heap st)),
       mk_state (heap st ++ Instance this :: map F64 imgs)
         (trace st ++ if preload_images then map EvImread image_files else [])) /\
    _output_shape this = output_shape /\
    _image_files this = image_files /\
    List.length (_images this)
    = (if preload_images then List.length image_files else 0%nat) /\
    List.length imgs = List.length (_images this) /\
    images_loaded imread resize (heap st ++ Instance this :: map F64 imgs) this.
Proof.
  intros Hreadable. set (this0 := mk_self output_shape image_files []).
  destruct preload_images.
  - set (st1 := mk_state (heap st ++ [Instance this0]) (trace st)).
    assert (Hself1 : self_at (heap st1) (List.length (heap st)) this0).
    { unfold self_at, st1. simpl. apply nth_error_last. }
    destruct (preload_spec imread resize (List.length (heap st)) this0
                image_files st1 Hself1) as [imgs [Hall Hrun]].
    { intros f Hf. destruct (Hreadable eq_refl f Hf) as [raw Hraw].
      eexists. apply load_readable. exact Hraw. }
    set (this := mk_self output_shape image_files
                   (seq (S (List.length (heap st))) (List.length image_files))).
    assert (Hlen : List.length imgs = List.length image_files).
    { symmetry. eapply Forall2_length. exact Hall. }
    exists this, imgs. split; [|split; [reflexivity|split; [reflexivity|split; [|split]]]].
    + unfold __init__. erewrite bind_ok; [|reflexivity]. fold this0. fold st1.
      erewrite bind_ok; [|exact Hrun].
      unfold st1. cbn [heap trace]. rewrite length_app. cbn [List.length].
      replace (List.length (heap st) + 1)%nat with (S (List.length (heap st))) by lia.
      fold this. unfold bind, write, ret. cbn [heap trace].
      rewrite <- app_assoc. cbn [app]. rewrite list_set_middle. reflexivity.
    + cbn [_images this]. apply length_seq.
    + cbn [_images this]. rewrite length_seq. exact Hlen.
    + intros idx l Hl. cbn [_images this] in Hl.
      apply nth_error_seq in Hl. destruct Hl as [-> Hidx].
      assert (Hf : nth_error image_files idx = Some (file_at this idx)).
      { unfold file_at. cbn [_image_files this]. apply nth_error_nth'. exact Hidx. }
      destruct (Forall2_nth_error _ _ _ Hall idx _ Hf) as [a [Ha Hload]].
      exists a. split; [|exact Hload].
      rewrite nth_error_app2 by lia.
      replace (S (List.length (heap st)) + idx - List.length (heap st))%nat
        with (S idx) by lia.
      simpl. rewrite nth_error_map, Ha. reflexivity.
  - exists this0, []. split; [|split; [reflexivity|split; [reflexivity|split; [|split]]]].
    + unfold __init__. erewrite bind_ok; [|reflexivity]. unfold ret. simpl.
      rewrite app_nil_r. reflexivity.
    + reflexivity.
    + reflexivity.
    + intros idx l Hl. destruct idx; discriminate Hl.
Qed.

(** X6. When a file cannot be read, [__init__] with [preload_images] raises
    [OSError] at the first such file: the files before it have been read and
    normalised, the files after it are never read, and no instance is
    returned. *)
Theorem init_stops_at_first_unreadable_file (good : list string)
  (bad : string) (rest : list string) (output_shape : Z * Z) (st : state) :
  (forall f, In f good -> exists raw, imread f = Some raw) ->
  imread bad = None ->
  exists imgs,
    List.length imgs = List.length good /\
    __init__ imread resize (good ++ bad :: rest) output_shape true st
    = (Raise OSError,
       mk_state
         (heap st
          ++ Instance (mk_self output_shape (good ++ bad :: rest) [])
             :: map F64 imgs)
         (trace st ++ map EvImread (good ++ [bad]))).
Proof.
  intros Hgood Hbad.
  set (this0 := mk_self output_shape (good ++ bad :: rest) []).
  set (st1 := mk_state (heap st ++ [Instance this0]) (trace st)).
  assert (Hself1 : self_at (heap st1) (List.length (heap st)) this0).
  { unfold self_at, st1. simpl. apply nth_error_last. }
  destruct (preload_stops_at_unreadable (List.length (heap st)) this0 good bad
              rest st1 Hself1 Hgood Hbad) as [imgs [Hlen Hrun]].
  exists imgs. split; [exact Hlen|].
  unfold __init__. erewrite bind_ok; [|reflexivity]. fold this0. fold st1.
  erewrite bind_raise; [|exact Hrun].
  unfold st1. cbn [heap trace]. rewrite <- app_assoc. reflexivity.
Qed.

(** X7. Whatever its outcome, [__init__] changes no object that exists when
    it is called, and the instance it returns is a new object. *)
Theorem init_changes_no_existing_object (image_files : list string)
  (output_shape : Z * Z) (preload_images : bool) (st st' : state)
  (r : result loc) :
  __init__ imread resize image_files output_shape preload_images st = (r, st') ->
  (forall l, (l < List.length (heap st))%nat ->
     nth_error (heap st') l = nth_error (heap st) l) /\
  (forall self, r = Ok self -> (List.length (heap st) <= self)%nat).
Proof.
  intros Hrun.
  assert (Hframed : framed (List.length (heap st))
            (__init__ imread resize image_files output_shape preload_images)
            (fun self => (List.length (heap st) <= self)%nat)).
  { unfold __init__. eapply framed_bind; [apply framed_alloc|].
    intros self Hself. cbv beta in Hself. destruct preload_images.
    - eapply framed_bind.
      + apply framed_mapM. intros f.
        eapply framed_weaken; [apply framed_get_image|]. intros; exact I.
      + intros images _. eapply framed_bind; [apply framed_write; exact Hself|].
        intros _ _. apply framed_ret. exact Hself.
    - apply framed_ret. exact Hself. }
  destruct (Hframed st r st' (Nat.le_refl _) Hrun) as [_ [Hsame Hnew]].
  split; [exact Hsame|]. intros self ->. apply (Hnew self eq_refl).
Qed.

End ConstructorExtras.

(** * Further properties of the call *)

Section CallExtras.

Variable imread : string -> option (ndarray R).
Variable resize : ndarray R -> Z * Z -> ndarray R.

(** X8. Construction followed by a call. For readable three-channel files, a
    manifold with one row per file and positive [bins], [__init__] and then
    [__call__] succeed in both modes and return a canvas that is not the
    instance. With [preload_images] every file is read once, before the
    binning; without it the files are read after the binning, one for every
    bin that has points. *)
Theorem init_then_call_succeeds (image_files : list string)
  (output_shape : Z * Z) (preload_images : bool) (manifold : list (Q * Q))
  (bins : Z) (st : state) :
  1 <= fst output_shape -> 1 <= snd output_shape ->
  files_ok imread resize (mk_self output_shape image_files []) ->
  List.length manifold = List.length image_files ->
  manifold <> [] -> 1 <= bins ->
  exists xe ye bn0 bn1 self imgrid extent st' canvas,
    binned_statistic_2d (map fst manifold) (map snd manifold) bins
    = Ok (xe, ye, bn0, bn1) /\
    (self <- __init__ imread resize image_files output_shape preload_images ;;
     r <- __call__ imread resize self manifold bins ;;
     ret (self, r)) st
    = (Ok (self, (imgrid, extent)), st') /\
    self <> imgrid /\
    nth_error (heap st') imgrid = Some (U8 canvas) /\
    shape canvas = canvas_shape output_shape bins /\
    trace st'
    = trace st
      ++ (if preload_images
          then map EvImread image_files ++ [EvBinning]
          else EvBinning
               :: map (fun idx => EvImread (nth idx image_files EmptyString))
                      (first_indices 0 (combine bn0 bn1) [])).
Proof.
  intros H0 H1 Hfiles Hrows Hpoints Hbins.
  destruct (init_spec imread resize image_files output_shape preload_images st
              H0 H1 Hfiles)
    as [this [imgs [Hinit [Hshape [Hnames [Himages [_ Hok]]]]]]].
  set (st1 := mk_state (heap st ++ Instance this :: map F64 imgs)
                (trace st ++ if preload_images then map EvImread image_files else []))
    in *.
  assert (Hself : self_at (heap st1) (List.length (heap st)) this).
  { unfold self_at, st1. cbn [heap]. rewrite nth_error_app2 by lia.
    rewrite Nat.sub_diag. reflexivity. }
  assert (Hrows' : List.length manifold = List.length (_image_files this)).
  { rewrite Hnames. exact Hrows. }
  assert (Hfiles' : files_ok imread resize this).
  { intros f Hf. rewrite Hnames in Hf. rewrite Hshape. apply (Hfiles f Hf). }
  assert (Hlen1 : (List.length (heap st) < List.length (heap st1))%nat).
  { unfold st1. cbn [heap]. rewrite length_app. simpl. lia. }
  destruct preload_images.
  - assert (Hpre : _images this <> []).
    { rewrite Himages. intros E. apply (f_equal (@List.length _)) in E.
      rewrite length_seq in E. simpl in E.
      destruct manifold; [congruence|simpl in Hrows; lia]. }
    destruct (call_preload imread resize (List.length (heap st)) this manifold
                bins st1 Hself Hok Hrows' Hpoints Hbins Hpre)
      as [xe [ye [bn0 [bn1 [canvas [x_lo [x_hi [y_lo [y_hi
          [Ebin [Hrun [Hcshape _]]]]]]]]]]]].
    exists xe, ye, bn0, bn1, (List.length (heap st)), (List.length (heap st1)),
      [x_lo; x_hi; y_lo; y_hi].
    eexists. exists canvas.
    split; [exact Ebin|]. split; [|split; [lia|split; [|split]]].
    + erewrite bind_ok; [|exact Hinit]. fold st1.
      erewrite bind_ok; [|exact Hrun]. reflexivity.
    + cbn [heap]. apply nth_error_last.
    + rewrite <- Hshape. exact Hcshape.
    + cbn [trace st1]. rewrite <- app_assoc. reflexivity.
  - destruct (call_lazy imread resize (List.length (heap st)) this manifold
                bins st1 Hself Hok Hrows' Hpoints Hbins Himages Hfiles')
      as [xe [ye [bn0 [bn1 [new [canvas [x_lo [x_hi [y_lo [y_hi
          [Ebin [_ [Hrun [Hcshape _]]]]]]]]]]]]]].
    exists xe, ye, bn0, bn1, (List.length (heap st)),
      (List.length (heap st1 ++ map F64 new)), [x_lo; x_hi; y_lo; y_hi].
    eexists. exists canvas.
    split; [exact Ebin|]. split; [|split; [|split; [|split]]].
    + erewrite bind_ok; [|exact Hinit]. fold st1.
      erewrite bind_ok; [|exact Hrun]. reflexivity.
    + rewrite length_app. lia.
    + cbn [heap]. apply nth_error_last.
    + rewrite <- Hshape. exact Hcshape.
    + cbn [trace st1]. rewrite app_nil_r, <- app_assoc. cbn [app].
      unfold file_at. rewrite Hnames. reflexivity.
Qed.

(** X9. With preloaded images the call does no image I/O and allocates
    nothing but the canvas; it succeeds whatever has become of the files
    since the images were loaded. *)
Theorem preloaded_call_reads_no_file (self : loc)
  (this : ManifoldProjection2D) (manifold : list (Q * Q)) (bins : Z)
  (st : state) :
  self_at (heap st) self this -> self_ok (heap st) this ->
  _images this <> [] ->
  List.length manifold = List.length (_image_files this) ->
  manifold <> [] -> 1 <= bins ->
  exists canvas extent,
    __call__ imread resize self manifold bins st
    = (Ok (List.length (heap st), extent),
       mk_state (heap st ++ [U8 canvas]) (trace st ++ [EvBinning])).
Proof.
  intros Hself Hok Hpre Hrows Hpoints Hbins.
  destruct (call_preload imread resize self this manifold bins st Hself Hok
              Hrows Hpoints Hbins Hpre)
    as [xe [ye [bn0 [bn1 [canvas [x_lo [x_hi [y_lo [y_hi [_ [Hrun _]]]]]]]]]]].
  exists canvas, [x_lo; x_hi; y_lo; y_hi]. exact Hrun.
Qed.

End CallExtras.

(** ** The background of the canvas *)

Lemma in_tile_decidable (output_shape : Z * Z) (xy : key) (i j : Z) :
  in_tile output_shape xy i j \/ ~ in_tile output_shape xy i j.
Proof. unfold in_tile. lia. Qed.

(** A position lies in the tile of one of the keys or in none. *)
Lemma tile_cover_cases (output_shape : Z * Z) (keys : list key) (i j : Z) :
  (exists xy, In xy keys /\ in_tile output_shape xy i j) \/
  (forall xy, In xy keys -> ~ in_tile output_shape xy i j).
Proof.
  induction keys as [|xy keys IH].
  - right. intros xy [].
  - destruct (in_tile_decidable output_shape xy i j) as [Hin|Hout].
    + left. exists xy. split; [left; reflexivity|exact Hin].
    + destruct IH as [[xy' [Hxy' Hin']]|Hnone].
      * left. exists xy'. split; [right; exact Hxy'|exact Hin'].
      * right. intros xy' [<-|Hxy']; [exact Hout|apply Hnone, Hxy'].
Qed.

(** The rows and columns every tile of an in-range key stays within. *)
Lemma in_tile_rows (output_shape : Z * Z) (bins : Z) (xy : key) (i j : Z) :
  0 <= fst output_shape -> 0 <= snd output_shape ->
  key_in_range bins xy -> in_tile output_shape xy i j ->
  (fst output_shape - fst output_shape / 2 <= i
   < (bins + 1) * fst output_shape - fst output_shape / 2) /\
  (snd output_shape - snd output_shape / 2 <= j
   < (bins + 1) * snd output_shape - snd output_shape / 2).
Proof.
  destruct output_shape as [f0 f1], xy as [xx yy].
  unfold key_in_range, in_tile, tile_start. cbn [fst snd].
  intros H0 H1 [Hxx Hyy] [Hi Hj]. split; nia.
Qed.

Section Background.

Variable imread : string -> option (ndarray R).
Variable resize : ndarray R -> Z * Z -> ndarray R.

(** X11. The tile of a bin without points stays black: after a valid call
    every canvas pixel in the tile of a bin key that no row falls into is
    zero. *)
Theorem unoccupied_bins_stay_black (self : loc)
  (this : ManifoldProjection2D) (manifold : list (Q * Q)) (bins : Z)
  (st : state) :
  valid_call imread resize self this manifold bins st ->
  exists xe ye bn0 bn1 imgrid extent st' canvas,
    binned_statistic_2d (map fst manifold) (map snd manifold) bins
    = Ok (xe, ye, bn0, bn1) /\
    __call__ imread resize self manifold bins st = (Ok (imgrid, extent), st') /\
    nth_error (heap st') imgrid = Some (U8 canvas) /\
    forall xy, ~ In xy (combine bn0 bn1) ->
      forall i j c, in_tile (_output_shape this) xy i j ->
        data canvas i j c = 0.
Proof.
  intros Hvalid. pose proof Hvalid as [_ [[Hf0 [Hf1 _]] _]].
  destruct (call_succeeds imread resize self this manifold bins st Hvalid)
    as [xe [ye [bn0 [bn1 [imgrid [canvas [x_lo [x_hi [y_lo [y_hi [st'
        [Ebin [Hrun [Hcanvas [_ [_ [_ [_ [_ [_ [_ Hout]]]]]]]]]]]]]]]]]]]]].
  exists xe, ye, bn0, bn1, imgrid, [x_lo; x_hi; y_lo; y_hi], st', canvas.
  split; [exact Ebin|]. split; [exact Hrun|]. split; [exact Hcanvas|].
  intros xy Hfree i j c Hin. apply Hout. intros xy' Hocc Hin'.
  apply Hfree.
  rewrite (tiles_disjoint (_output_shape this) xy xy' i j ltac:(lia) ltac:(lia)
             Hin Hin').
  exact Hocc.
Qed.

(** X12. The border of the canvas is never written: after a valid call every
    pixel in the first [output_shape[d] - output_shape[d] // 2] rows or
    columns, and every pixel at or beyond index
    [(bins + 1) * output_shape[d] - output_shape[d] // 2], is zero. *)
Theorem canvas_border_stays_black (self : loc)
  (this : ManifoldProjection2D) (manifold : list (Q * Q)) (bins : Z)
  (st : state) :
  valid_call imread resize self this manifold bins st ->
  exists imgrid extent st' canvas,
    __call__ imread resize self manifold bins st = (Ok (imgrid, extent), st') /\
    nth_error (heap st') imgrid = Some (U8 canvas) /\
    forall i j c,
      i < fst (_output_shape this) - fst (_output_shape this) / 2 \/
      (bins + 1) * fst (_output_shape this) - fst (_output_shape this) / 2 <= i \/
      j < snd (_output_shape this) - snd (_output_shape this) / 2 \/
      (bins + 1) * snd (_output_shape this) - snd (_output_shape this) / 2 <= j ->
      data canvas i j c = 0.
Proof.
  intros Hvalid. pose proof Hvalid as [_ [[Hf0 [Hf1 _]] [_ [_ [Hpoints Hbins]]]]].
  destruct (call_succeeds imread resize self this manifold bins st Hvalid)
    as [xe [ye [bn0 [bn1 [imgrid [canvas [x_lo [x_hi [y_lo [y_hi [st'
        [Ebin [Hrun [Hcanvas [_ [_ [_ [_ [_ [_ [_ Hout]]]]]]]]]]]]]]]]]]]]].
  assert (Hx : map fst manifold <> []).
  { destruct manifold; [congruence|discriminate]. }
  destruct (binned_statistic_2d_spec (map fst manifold) (map snd manifold) bins
              Hx ltac:(rewrite !length_map; reflexivity) Hbins)
    as [xe' [ye' [bn0' [bn1' [Ebin' [_ [_ [_ [_ [F0 F1]]]]]]]]]].
  rewrite Ebin in Ebin'. inversion Ebin'; subst xe' ye' bn0' bn1'.
  exists imgrid, [x_lo; x_hi; y_lo; y_hi], st', canvas.
  split; [exact Hrun|]. split; [exact Hcanvas|].
  intros i j c Hborder. apply Hout. intros xy Hocc Hin.
  pose proof (combine_keys_in_range bins bn0 bn1 xy F0 F1 Hocc) as Hkey.
  pose proof (in_tile_rows (_output_shape this) bins xy i j ltac:(lia) ltac:(lia)
                Hkey Hin) as [Hi Hj].
  lia.
Qed.

End Background.

(** ** Calling again, and the two modes side by side *)

Lemma self_ok_app (hp more : list pyobj) (this : ManifoldProjection2D) :
  self_ok hp this -> self_ok (hp ++ more) this.
Proof.
  intros [H0 [H1 [Himgs Hcount]]]. split; [exact H0|]. split; [exact H1|].
  split; [|exact Hcount].
  eapply Forall_impl; [|exact Himgs]. intros l Hl. apply is_image_app. exact Hl.
Qed.

Lemma valid_call_lengths (manifold : list (Q * Q)) (bins : Z)
  (xe ye : list Q) (bn0 bn1 : list Z) :
  manifold <> [] -> 1 <= bins ->
  binned_statistic_2d (map fst manifold) (map snd manifold) bins
  = Ok (xe, ye, bn0, bn1) ->
  List.length (combine bn0 bn1) = List.length manifold /\
  forall xy, In xy (combine bn0 bn1) -> key_in_range bins xy.
Proof.
  intros Hpoints Hbins Ebin.
  assert (Hx : map fst manifold <> []).
  { destruct manifold; [congruence|discriminate]. }
  destruct (binned_statistic_2d_spec (map fst manifold) (map snd manifold) bins
              Hx ltac:(rewrite !length_map; reflexivity) Hbins)
    as [xe' [ye' [bn0' [bn1' [Ebin' [_ [_ [L0 [L1 [F0 F1]]]]]]]]]].
  rewrite Ebin in Ebin'. inversion Ebin'; subst xe' ye' bn0' bn1'.
  rewrite length_map in L0, L1. split.
  - apply combine_length_same; assumption.
  - intros xy Hxy. apply (combine_keys_in_range bins bn0 bn1); assumption.
Qed.

(** The bucket of a bin refers to cached images only. *)
Lemma bucket_locs_are_images (hp : list pyobj) (this : ManifoldProjection2D)
  (bxy : list key) (xy : key) :
  self_ok hp this -> _images this <> [] ->
  List.length bxy = List.length (_image_files this) ->
  Forall (is_image (_output_shape this) hp)
    (map (fun idx => nth idx (_images this) 0%nat) (bin_members bxy xy)).
Proof.
  intros [_ [_ [Himgs Hcount]]] Hpre Hlen. specialize (Hcount Hpre).
  apply Forall_forall. intros l Hl. apply in_map_iff in Hl.
  destruct Hl as [idx [<- Hidx]]. apply bin_members_iff in Hidx.
  assert (Hlt : (idx < List.length bxy)%nat).
  { apply nth_error_Some. rewrite Hidx. discriminate. }
  rewrite Forall_forall in Himgs. apply Himgs. apply nth_In. lia.
Qed.

Lemma ok_injective {A : Type} (a b : A) : Ok a = Ok b -> a = b.
Proof. intros H. inversion H. reflexivity. Qed.

Section CallAgain.

Variable imread : string -> option (ndarray R).
Variable resize : ndarray R -> Z * Z -> ndarray R.

(** X13. A second call gives the same picture. After a valid call, calling
    again with the same arguments succeeds, returns the same extent and a
    second canvas, a different object with the same shape and the same
    pixels; the first canvas is still what the first call returned. *)
Theorem second_call_gives_same_picture (self : loc)
  (this : ManifoldProjection2D) (manifold : list (Q * Q)) (bins : Z)
  (st : state) :
  valid_call imread resize self this manifold bins st ->
  exists imgrid1 extent st1 canvas1 imgrid2 st2 canvas2,
    __call__ imread resize self manifold bins st = (Ok (imgrid1, extent), st1) /\
    __call__ imread resize self manifold bins st1 = (Ok (imgrid2, extent), st2) /\
    imgrid1 <> imgrid2 /\
    nth_error (heap st2) imgrid1 = Some (U8 canvas1) /\
    nth_error (heap st2) imgrid2 = Some (U8 canvas2) /\
    shape canvas2 = shape canvas1 /\
    forall i j c, 0 <= c < 3 -> data canvas2 i j c = data canvas1 i j c.
Proof.
  intros [Hself [Hok [Hfiles [Hrows [Hpoints Hbins]]]]].
  destruct (_images this) as [|l0 ls] eqn:Eimgs.
  - (* images are read by the call *)
    specialize (Hfiles eq_refl).
    destruct (call_lazy imread resize self this manifold bins st Hself Hok Hrows
                Hpoints Hbins Eimgs Hfiles)
      as [xe [ye [bn0 [bn1 [new1 [canvas1 [x_lo [x_hi [y_lo [y_hi
          [Ebin [_ [Hrun1 [Hshape1 [Ex0 [Ex1 [_ [Ey0 [Ey1 [_ [Hin1 Hout1]]]]]]]]]]]]]]]]]]]]].
    set (st1 := mk_state ((heap st ++ map F64 new1) ++ [U8 canvas1])
                  ((trace st ++ [EvBinning])
                   ++ map (fun idx => EvImread (file_at this idx))
                          (first_indices 0 (combine bn0 bn1) []))) in *.
    assert (Hself1 : self_at (heap st1) self this).
    { unfold st1. cbn [heap]. apply self_at_app, self_at_app. exact Hself. }
    assert (Hok1 : self_ok (heap st1) this).
    { unfold st1. cbn [heap]. apply self_ok_app, self_ok_app. exact Hok. }
    destruct (call_lazy imread resize self this manifold bins st1 Hself1 Hok1
                Hrows Hpoints Hbins Eimgs Hfiles)
      as [xe' [ye' [bn0' [bn1' [new2 [canvas2 [x_lo' [x_hi' [y_lo' [y_hi'
          [Ebin' [_ [Hrun2 [Hshape2 [Ex0' [Ex1' [_ [Ey0' [Ey1' [_ [Hin2 Hout2]]]]]]]]]]]]]]]]]]]]].
    rewrite Ebin in Ebin'. inversion Ebin'; subst xe' ye' bn0' bn1'.
    rewrite Ex0 in Ex0'. rewrite Ex1 in Ex1'. rewrite Ey0 in Ey0'. rewrite Ey1 in Ey1'.
    apply ok_injective in Ex0', Ex1', Ey0', Ey1'. subst x_lo' x_hi' y_lo' y_hi'.
    exists (List.length (heap st ++ map F64 new1)), [x_lo; x_hi; y_lo; y_hi], st1,
      canvas1, (List.length (heap st1 ++ map F64 new2)).
    eexists. exists canvas2.
    split; [exact Hrun1|]. split; [exact Hrun2|].
    split; [|split; [|split; [|split]]].
    + unfold st1. cbn [heap]. rewrite !length_app. simpl. lia.
    + cbn [heap]. unfold st1. cbn [heap].
      rewrite <- !app_assoc. rewrite app_assoc.
      rewrite nth_error_app2 by lia. rewrite Nat.sub_diag. reflexivity.
    + cbn [heap]. apply nth_error_last.
    + congruence.
    + intros i j c Hc.
      destruct (tile_cover_cases (_output_shape this) (combine bn0 bn1) i j)
        as [[xy [Hxy Hin]]|Hnone].
      * destruct (Hin1 xy i j c Hxy Hin Hc) as [a [Ha Hd1]].
        destruct (Hin2 xy i j c Hxy Hin Hc) as [a' [Ha' Hd2]].
        rewrite Ha in Ha'. apply ok_injective in Ha'. subst a'.
        rewrite Hd1, Hd2. reflexivity.
      * rewrite (Hout1 i j c Hnone), (Hout2 i j c Hnone). reflexivity.
  - (* images are cached *)
    assert (Hpre : _images this <> []) by (rewrite Eimgs; discriminate).
    rewrite <- Eimgs in *. clear Eimgs l0 ls.
    destruct (call_preload imread resize self this manifold bins st Hself Hok Hrows
                Hpoints Hbins Hpre)
      as [xe [ye [bn0 [bn1 [canvas1 [x_lo [x_hi [y_lo [y_hi
          [Ebin [Hrun1 [Hshape1 [Ex0 [Ex1 [_ [Ey0 [Ey1 [_ [Hin1 Hout1]]]]]]]]]]]]]]]]]]].
    set (st1 := mk_state (heap st ++ [U8 canvas1]) (trace st ++ [EvBinning])) in *.
    assert (Hself1 : self_at (heap st1) self this).
    { unfold st1. cbn [heap]. apply self_at_app. exact Hself. }
    assert (Hok1 : self_ok (heap st1) this).
    { unfold st1. cbn [heap]. apply self_ok_app. exact Hok. }
    destruct (call_preload imread resize self this manifold bins st1 Hself1 Hok1
                Hrows Hpoints Hbins Hpre)
      as [xe' [ye' [bn0' [bn1' [canvas2 [x_lo' [x_hi' [y_lo' [y_hi'
          [Ebin' [Hrun2 [Hshape2 [Ex0' [Ex1' [_ [Ey0' [Ey1' [_ [Hin2 Hout2]]]]]]]]]]]]]]]]]]].
    rewrite Ebin in Ebin'. inversion Ebin'; subst xe' ye' bn0' bn1'.
    rewrite Ex0 in Ex0'. rewrite Ex1 in Ex1'. rewrite Ey0 in Ey0'. rewrite Ey1 in Ey1'.
    apply ok_injective in Ex0', Ex1', Ey0', Ey1'. subst x_lo' x_hi' y_lo' y_hi'.
    destruct (valid_call_lengths manifold bins xe ye bn0 bn1 Hpoints Hbins Ebin)
      as [Lbxy _].
    exists (List.length (heap st)), [x_lo; x_hi; y_lo; y_hi], st1, canvas1,
      (List.length (heap st1)).
    eexists. exists canvas2.
    split; [exact Hrun1|]. split; [exact Hrun2|].
    split; [|split; [|split; [|split]]].
    + unfold st1. cbn [heap]. rewrite length_app. simpl. lia.
    + cbn [heap]. unfold st1. cbn [heap].
      rewrite nth_error_app1 by (rewrite length_app; simpl; lia).
      apply nth_error_last.
    + cbn [heap]. apply nth_error_last.
    + congruence.
    + intros i j c Hc.
      destruct (tile_cover_cases (_output_shape this) (combine bn0 bn1) i j)
        as [[xy [Hxy Hin]]|Hnone].
      * rewrite (Hin1 xy i j c Hxy Hin Hc), (Hin2 xy i j c Hxy Hin Hc).
        unfold tile_value, st1. cbn [heap].
        rewrite (arrays_at_app (_output_shape this)); [reflexivity|].
        apply bucket_locs_are_images; [exact Hok|exact Hpre|].
        exact (eq_trans Lbxy Hrows).
      * rewrite (Hout1 i j c Hnone), (Hout2 i j c Hnone). reflexivity.
Qed.

End CallAgain.

Section TwoModes.

Variable imread : string -> option (ndarray R).
Variable resize : ndarray R -> Z * Z -> ndarray R.

(** X14. The two modes agree where a bin holds one row. For an instance with
    cached images and an instance without, made for the same files and
    output shape and called with the same manifold and [bins], the extents
    are equal and the canvases have the same pixels in the tile of every bin
    that holds exactly one row, and in the background. *)
Theorem modes_agree_on_single_row_bins
  (self_p : loc) (this_p : ManifoldProjection2D) (st_p : state)
  (self_l : loc) (this_l : ManifoldProjection2D) (st_l : state)
  (manifold : list (Q * Q)) (bins : Z) :
  valid_call imread resize self_p this_p manifold bins st_p ->
  _images this_p <> [] ->
  images_loaded imread resize (heap st_p) this_p ->
  valid_call imread resize self_l this_l manifold bins st_l ->
  _images this_l = [] ->
  _image_files this_l = _image_files this_p ->
  _output_shape this_l = _output_shape this_p ->
  exists xe ye bn0 bn1 extent imgrid_p st_p' canvas_p imgrid_l st_l' canvas_l,
    binned_statistic_2d (map fst manifold) (map snd manifold) bins
    = Ok (xe, ye, bn0, bn1) /\
    __call__ imread resize self_p manifold bins st_p
    = (Ok (imgrid_p, extent), st_p') /\
    __call__ imread resize self_l manifold bins st_l
    = (Ok (imgrid_l, extent), st_l') /\
    nth_error (heap st_p') imgrid_p = Some (U8 canvas_p) /\
    nth_error (heap st_l') imgrid_l = Some (U8 canvas_l) /\
    shape canvas_l = shape canvas_p /\
    (forall xy, In xy (combine bn0 bn1) ->
       List.length (bin_members (combine bn0 bn1) xy) = 1%nat ->
       forall i j c, in_tile (_output_shape this_p) xy i j -> 0 <= c < 3 ->
         data canvas_l i j c = data canvas_p i j c) /\
    (forall i j c,
       (forall xy, In xy (combine bn0 bn1) ->
                   ~ in_tile (_output_shape this_p) xy i j) ->
       data canvas_l i j c = data canvas_p i j c).
Proof.
  intros [Hself [Hok [_ [Hrows [Hpoints Hbins]]]]] Hpre Hloaded
         [Hself' [Hok' [Hfiles' [Hrows' _]]]] Hlazy Hnames Hshape.
  destruct (call_preload imread resize self_p this_p manifold bins st_p Hself Hok
              Hrows Hpoints Hbins Hpre)
    as [xe [ye [bn0 [bn1 [canvas_p [x_lo [x_hi [y_lo [y_hi
        [Ebin [Hrun [Hcshape [Ex0 [Ex1 [_ [Ey0 [Ey1 [_ [Hin Hout]]]]]]]]]]]]]]]]]]].
  destruct (call_lazy imread resize self_l this_l manifold bins st_l Hself' Hok'
              Hrows' Hpoints Hbins Hlazy (Hfiles' Hlazy))
    as [xe' [ye' [bn0' [bn1' [new [canvas_l [x_lo' [x_hi' [y_lo' [y_hi'
        [Ebin' [_ [Hrun' [Hcshape' [Ex0' [Ex1' [_ [Ey0' [Ey1' [_ [Hin' Hout']]]]]]]]]]]]]]]]]]]]].
  rewrite Ebin in Ebin'. inversion Ebin'; subst xe' ye' bn0' bn1'.
  rewrite Ex0 in Ex0'. rewrite Ex1 in Ex1'. rewrite Ey0 in Ey0'. rewrite Ey1 in Ey1'.
  apply ok_injective in Ex0', Ex1', Ey0', Ey1'. subst x_lo' x_hi' y_lo' y_hi'.
  destruct (valid_call_lengths manifold bins xe ye bn0 bn1 Hpoints Hbins Ebin)
    as [Lbxy _].
  exists xe, ye, bn0, bn1, [x_lo; x_hi; y_lo; y_hi], (List.length (heap st_p)).
  eexists. exists canvas_p, (List.length (heap st_l ++ map F64 new)).
  eexists. exists canvas_l.
  split; [exact Ebin|]. split; [exact Hrun|]. split; [exact Hrun'|].
  split; [apply nth_error_last|]. split; [apply nth_error_last|].
  split; [rewrite Hcshape, Hcshape', Hshape; reflexivity|]. split.
  - intros xy Hxy Hone i j c Ht Hc.
    destruct (bin_members (combine bn0 bn1) xy) as [|idx [|? ?]] eqn:Emem;
      try discriminate Hone.
    assert (Hidx : (idx < List.length (_images this_p))%nat).
    { assert (Hm : In idx (bin_members (combine bn0 bn1) xy))
        by (rewrite Emem; left; reflexivity).
      apply bin_members_iff in Hm.
      assert ((idx < List.length (combine bn0 bn1))%nat).
      { apply nth_error_Some. unfold key in *. rewrite Hm. discriminate. }
      destruct Hok as [_ [_ [_ Hcount]]]. specialize (Hcount Hpre).
      unfold key in *. lia. }
    destruct (Hloaded idx _ (nth_error_nth' (_images this_p) 0%nat Hidx))
      as [a [Hheap Hload]].
    rewrite Hshape in Hin'.
    destruct (Hin' xy i j c Hxy Ht Hc) as [a' [Hload' Hdata']].
    rewrite Emem in Hload'. cbn [hd] in Hload'.
    assert (Heq : load imread resize this_l (file_at this_l idx)
                  = load imread resize this_p (file_at this_p idx)).
    { unfold load, file_at. rewrite Hnames, Hshape. reflexivity. }
    rewrite Heq, Hload in Hload'. apply ok_injective in Hload'. subst a'.
    rewrite Hdata', (Hin xy i j c Hxy Ht Hc).
    unfold tile_value. rewrite Emem. cbn [map arrays_at flat_map].
    rewrite Hheap. cbn [app map]. rewrite np_mean_single. reflexivity.
  - intros i j c Hnone. rewrite (Hout i j c Hnone). apply Hout'.
    rewrite Hshape. exact Hnone.
Qed.

End TwoModes.

(** ** The extent as a bounding box *)

Lemma fold_Qmin_ge (r : list Q) (lo : Q) : forall x,
  (lo <= x)%Q -> (forall y, In y r -> (lo <= y)%Q) ->
  (lo <= fold_left Qmin r x)%Q.
Proof.
  induction r as [|z r IH]; intros x Hx Hall; simpl; [exact Hx|].
  apply IH.
  - apply Q.min_glb; [exact Hx|apply Hall; left; reflexivity].
  - intros y Hy. apply Hall. right. exact Hy.
Qed.

Lemma fold_Qmax_le (r : list Q) (hi : Q) : forall x,
  (x <= hi)%Q -> (forall y, In y r -> (y <= hi)%Q) ->
  (fold_left Qmax r x <= hi)%Q.
Proof.
  induction r as [|z r IH]; intros x Hx Hall; simpl; [exact Hx|].
  apply IH.
  - apply Q.max_lub; [exact Hx|apply Hall; left; reflexivity].
  - intros y Hy. apply Hall. right. exact Hy.
Qed.

(** Every edge of [np.linspace] lies between the end points. *)
Lemma np_linspace_bounds (lo hi : Q) (bins : Z) (e : Q) :
  (lo <= hi)%Q -> 1 <= bins -> In e (np_linspace lo hi bins) ->
  (lo <= e <= hi)%Q.
Proof.
  intros Hle Hbins Hin. unfold np_linspace in Hin. apply in_app_iff in Hin.
  destruct Hin as [Hin|[<-|[]]]; [|split; [exact Hle|apply Qle_refl]].
  apply in_map_iff in Hin. destruct Hin as [k [<- Hk]]. apply zrange_In in Hk.
  assert (Hb : (0 < inject_Z bins)%Q).
  { change 0%Q with (inject_Z 0). rewrite <- Zlt_Qlt. lia. }
  assert (Ht : (0 <= (hi - lo) / inject_Z bins)%Q).
  { apply Qle_shift_div_l; [exact Hb|]. Lqa.lra. }
  assert (Hk0 : (0 <= inject_Z k)%Q).
  { change 0%Q with (inject_Z 0). rewrite <- Zle_Qle. lia. }
  assert (Hkb : (inject_Z k <= inject_Z bins)%Q).
  { rewrite <- Zle_Qle. lia. }
  pose proof (Qmult_le_0_compat _ _ Hk0 Ht) as Hp0.
  pose proof (Qmult_le_compat_r _ _ _ Hkb Ht) as Hp1.
  assert (Hfull : (inject_Z bins * ((hi - lo) / inject_Z bins) == hi - lo)%Q).
  { apply Qmult_div_r. intros E. rewrite E in Hb. apply (Qlt_irrefl 0). exact Hb. }
  rewrite Hfull in Hp1.
  set (p := (inject_Z k * ((hi - lo) / inject_Z bins))%Q) in *.
  split; Lqa.lra.
Qed.

Lemma np_linspace_head (lo hi : Q) (bins : Z) :
  1 <= bins ->
  exists e r, np_linspace lo hi bins = e :: r /\ (e == lo)%Q.
Proof.
  intros Hbins. unfold np_linspace.
  destruct (zrange_head bins Hbins) as [r ->]. cbn [map app].
  eexists. eexists. split; [reflexivity|]. unfold inject_Z. ring.
Qed.

(** [min] and [max] of the edges are the end points. *)
Lemma np_linspace_extent (lo hi : Q) (bins : Z) :
  (lo <= hi)%Q -> 1 <= bins ->
  exists v w,
    py_min (np_linspace lo hi bins) = Ok v /\
    py_max (np_linspace lo hi bins) = Ok w /\
    (v == lo)%Q /\ (w == hi)%Q.
Proof.
  intros Hle Hbins.
  pose proof (np_linspace_bounds lo hi bins) as Hbounds.
  destruct (np_linspace_head lo hi bins Hbins) as [e [r [Hedges He]]].
  assert (Hlast : In hi (np_linspace lo hi bins)).
  { unfold np_linspace. apply in_app_iff. right. left. reflexivity. }
  rewrite Hedges in *.
  exists (fold_left Qmin r e), (fold_left Qmax r e).
  split; [reflexivity|]. split; [reflexivity|]. split.
  - apply Qle_antisym.
    + rewrite <- He. apply fold_Qmin_le_init.
    + apply fold_Qmin_ge.
      * apply (Hbounds e Hle Hbins). left. reflexivity.
      * intros y Hy. apply (Hbounds y Hle Hbins). right. exact Hy.
  - apply Qle_antisym.
    + apply fold_Qmax_le.
      * apply (Hbounds e Hle Hbins). left. reflexivity.
      * intros y Hy. apply (Hbounds y Hle Hbins). right. exact Hy.
    + destruct Hlast as [<-|Hlast].
      * apply fold_Qmax_ge_init.
      * apply fold_Qmax_ge_In. exact Hlast.
Qed.

Lemma sample_range_ordered (x0 : Q) (r : list Q) :
  (fst (sample_range x0 r) <= snd (sample_range x0 r))%Q /\
  forall x, In x (x0 :: r) ->
    (fst (sample_range x0 r) <= x <= snd (sample_range x0 r))%Q.
Proof.
  assert (Hrange : forall x, In x (x0 :: r) ->
            (fold_left Qmin r x0 <= x)%Q /\ (x <= fold_left Qmax r x0)%Q).
  { intros x [<-|Hin]; split.
    - apply fold_Qmin_le_init.
    - apply fold_Qmax_ge_init.
    - apply fold_Qmin_le_In, Hin.
    - apply fold_Qmax_ge_In, Hin. }
  pose proof (Hrange x0 (or_introl eq_refl)) as [Ha Hb].
  unfold sample_range.
  set (smin := fold_left Qmin r x0) in *. set (smax := fold_left Qmax r x0) in *.
  destruct (Qeq_bool smin smax); cbn [fst snd].
  - split; [Lqa.lra|]. intros x Hx. destruct (Hrange x Hx). split; Lqa.lra.
  - split; [Lqa.lra|]. intros x Hx. destruct (Hrange x Hx). split; assumption.
Qed.

Lemma bin_axis_extent (x0 : Q) (r : list Q) (bins : Z) (edges : list Q)
  (bn : list Z) :
  1 <= bins -> bin_axis (x0 :: r) bins = Ok (edges, bn) ->
  exists lo hi,
    py_min edges = Ok lo /\ py_max edges = Ok hi /\
    (lo == fst (sample_range x0 r))%Q /\ (hi == snd (sample_range x0 r))%Q.
Proof.
  intros Hbins Hrun.
  destruct (sample_range_ordered x0 r) as [Hle _].
  unfold bin_axis in Hrun. destruct (Z.leb_spec bins 0) as [|_]; [lia|].
  unfold sample_range in *.
  destruct (Qeq_bool (fold_left Qmin r x0) (fold_left Qmax r x0));
    cbn [fst snd] in *; inversion Hrun; subst edges;
    destruct (np_linspace_extent _ _ bins Hle Hbins) as [v [w [Hv [Hw [E1 E2]]]]];
    exists v, w; repeat split; assumption.
Qed.

Lemma binned_statistic_2d_axes (x y : list Q) (bins : Z) (xe ye : list Q)
  (bn0 bn1 : list Z) :
  binned_statistic_2d x y bins = Ok (xe, ye, bn0, bn1) ->
  bin_axis x bins = Ok (xe, bn0) /\ bin_axis y bins = Ok (ye, bn1).
Proof.
  unfold binned_statistic_2d.
  destruct (bin_axis x bins) as [[xe' bn0']|e];
    destruct (bin_axis y bins) as [[ye' bn1']|e']; intros H; inversion H.
  split; reflexivity.
Qed.

Section Extent.

Variable imread : string -> option (ndarray R).
Variable resize : ndarray R -> Z * Z -> ndarray R.

(** X15. The extent is the bounding box of the points: on each axis it runs
    from the smallest to the largest coordinate of the manifold, widened by
    one half on both sides when all points share the coordinate; so every
    point of the manifold lies within the extent. *)
Theorem extent_is_bounding_box (self : loc) (this : ManifoldProjection2D)
  (point : Q * Q) (others : list (Q * Q)) (bins : Z) (st : state) :
  valid_call imread resize self this (point :: others) bins st ->
  exists imgrid st' x_lo x_hi y_lo y_hi,
    __call__ imread resize self (point :: others) bins st
    = (Ok (imgrid, [x_lo; x_hi; y_lo; y_hi]), st') /\
    (x_lo == fst (sample_range (fst point) (map fst others)))%Q /\
    (x_hi == snd (sample_range (fst point) (map fst others)))%Q /\
    (y_lo == fst (sample_range (snd point) (map snd others)))%Q /\
    (y_hi == snd (sample_range (snd point) (map snd others)))%Q /\
    forall p, In p (point :: others) ->
      (x_lo <= fst p <= x_hi)%Q /\ (y_lo <= snd p <= y_hi)%Q.
Proof.
  intros Hvalid. pose proof Hvalid as [_ [_ [_ [_ [_ Hbins]]]]].
  destruct (call_succeeds imread resize self this (point :: others) bins st Hvalid)
    as [xe [ye [bn0 [bn1 [imgrid [canvas [x_lo [x_hi [y_lo [y_hi [st'
        [Ebin [Hrun [_ [_ [Ex0 [Ex1 [_ [Ey0 [Ey1 _]]]]]]]]]]]]]]]]]]]].
  destruct (binned_statistic_2d_axes _ _ _ _ _ _ _ Ebin) as [Ax Ay].
  cbn [map] in Ax, Ay.
  destruct (bin_axis_extent _ _ bins xe bn0 Hbins Ax)
    as [lo [hi [Hlo [Hhi [Elo Ehi]]]]].
  destruct (bin_axis_extent _ _ bins ye bn1 Hbins Ay)
    as [lo' [hi' [Hlo' [Hhi' [Elo' Ehi']]]]].
  rewrite Ex0 in Hlo. rewrite Ex1 in Hhi. rewrite Ey0 in Hlo'. rewrite Ey1 in Hhi'.
  apply ok_injective in Hlo, Hhi, Hlo', Hhi'. subst lo hi lo' hi'.
  exists imgrid, st', x_lo, x_hi, y_lo, y_hi.
  split; [exact Hrun|]. split; [exact Elo|]. split; [exact Ehi|].
  split; [exact Elo'|]. split; [exact Ehi'|].
  intros p Hp.
  destruct (sample_range_ordered (fst point) (map fst others)) as [_ Hxs].
  destruct (sample_range_ordered (snd point) (map snd others)) as [_ Hys].
  specialize (Hxs (fst p)). specialize (Hys (snd p)).
  rewrite Elo, Ehi, Elo', Ehi'. split.
  - apply Hxs. change (fst point :: map fst others) with (map fst (point :: others)).
    apply in_map. exact Hp.
  - apply Hys. change (snd point :: map snd others) with (map snd (point :: others)).
    apply in_map. exact Hp.
Qed.

End Extent.

(** ** Files that are never read *)

Section FirstFilesOnly.

Variable imread : string -> option (ndarray R).
Variable resize : ndarray R -> Z * Z -> ndarray R.
Variable self : loc.
Variable this : ManifoldProjection2D.

Hypothesis Hlazy : _images this = [].

(** The grid loop without cached images asks only for the files of the rows
    at which a bin occurs first. *)
Lemma build_grid_lazy_first (rest : list key) : forall (k : nat) (g : dict)
  (st : state),
  self_at (heap st) self this ->
  (forall idx, In idx (first_indices k rest (map fst g)) ->
     exists a, load imread resize this (file_at this idx) = Ok a) ->
  (forall b v, dict_get g b = Some v -> v <> []) ->
  (k + List.length rest <= List.length (_image_files this))%nat ->
  exists g' new,
    build_grid imread resize self rest k g st
    = (Ok g',
       mk_state (heap st ++ map F64 new)
         (trace st ++ map (fun idx => EvImread (file_at this idx))
                          (first_indices k rest (map fst g)))) /\
    Forall2 (fun idx a => load imread resize this (file_at this idx) = Ok a)
            (first_indices k rest (map fst g)) new /\
    (NoDup (map fst g) -> NoDup (map fst g')) /\
    (forall b, In b (map fst g') <-> In b (map fst g) \/ In b rest) /\
    (forall b, In b (map fst g) -> dict_get g' b = dict_get g b) /\
    (forall b, ~ In b (map fst g) -> In b rest ->
       exists l a,
         dict_get g' b = Some [l] /\
         nth_error (heap st ++ map F64 new) l = Some (F64 a) /\
         load imread resize this
           (file_at this (hd 0%nat (members_from k rest b))) = Ok a).
Proof.
  induction rest as [|b rest IH]; intros k g st Hself Hfirst Hinv Hlen.
  - exists g, []. simpl. rewrite !app_nil_r. destruct st as [hp tr]. simpl.
    split; [reflexivity|]. split; [constructor|]. split; [tauto|].
    split; [intros b; tauto|]. split; [reflexivity|]. intros b _ [].
  - simpl in Hlen. cbn [first_indices] in Hfirst |- *.
    destruct (existsb (key_eqb b) (map fst g)) eqn:Hseen.
    + apply existsb_key_In in Hseen.
      destruct (IH (S k) g st Hself Hfirst Hinv ltac:(lia))
        as [g' [new [Hrun [Hnew [Hnd [Hkeys [Hold Hfresh]]]]]]].
      exists g', new. split; [|split; [exact Hnew|split; [exact Hnd|split; [|split; [exact Hold|]]]]].
      * cbn [build_grid].
        erewrite bind_ok;
          [|apply (grid_step_lazy_old imread resize self this); assumption].
        exact Hrun.
      * intros b'. rewrite Hkeys. simpl. intuition (subst; auto).
      * intros b' Hnot Hin.
        assert (Hneq : b <> b') by (intros ->; contradiction).
        destruct Hin as [Heq|Hin]; [contradiction|].
        rewrite (members_from_other _ _ _ _ Hneq). apply Hfresh; assumption.
    + assert (Hnotin : ~ In b (map fst g)).
      { intros H. apply existsb_key_In in H. congruence. }
      destruct (Hfirst k (or_introl eq_refl)) as [a Ha].
      pose proof (ensure_append g b (List.length (heap st))) as Hea. cbv zeta in Hea.
      destruct Hea as [Hnd1 [Hkeys1 [Hb1 Hother1]]].
      pose proof (ensure_append_keys_new g b (List.length (heap st))
                    (proj2 (dict_get_None_keys g b) Hnotin)) as Hk1.
      set (g1 := dict_append (ensure g b) b (List.length (heap st))) in *.
      set (st1 := mk_state (heap st ++ [F64 a])
                    (trace st ++ [EvImread (file_at this k)])).
      assert (Hg1b : dict_get g1 b = Some [List.length (heap st)]).
      { destruct (dict_get g1 b) as [v|] eqn:E.
        - unfold bucket in Hb1. rewrite E in Hb1.
          rewrite (proj2 (dict_get_None_keys g b) Hnotin) in Hb1. subst v. reflexivity.
        - apply dict_get_None_keys in E. exfalso. apply E. apply Hkeys1. right. reflexivity. }
      assert (Hinv1 : forall b' v, dict_get g1 b' = Some v -> v <> []).
      { intros b' v Hv. destruct (key_eqb b' b) eqn:E.
        - apply key_eqb_eq in E. subst b'. rewrite Hg1b in Hv. inversion Hv. discriminate.
        - assert (b' <> b) by (intros ->; rewrite key_eqb_refl in E; discriminate).
          rewrite Hother1 in Hv by assumption. eapply Hinv. exact Hv. }
      assert (Hfirst1 : forall idx,
                In idx (first_indices (S k) rest (map fst g1)) ->
                exists a0, load imread resize this (file_at this idx) = Ok a0).
      { intros idx Hidx. apply Hfirst. right. rewrite <- Hk1. exact Hidx. }
      destruct (IH (S k) g1 st1 (self_at_app _ _ _ _ Hself) Hfirst1 Hinv1 ltac:(lia))
        as [g' [new [Hrun [Hnew [Hnd [Hkeys [Hold Hfresh]]]]]]].
      rewrite Hk1 in Hrun, Hnew.
      assert (Hheap : heap st1 ++ map F64 new = heap st ++ map F64 (a :: new)).
      { unfold st1. simpl. rewrite <- app_assoc. reflexivity. }
      exists g', (a :: new). split; [|split; [|split; [|split; [|split]]]].
      * cbn [build_grid].
        erewrite bind_ok; [|apply (grid_step_lazy_new imread resize self this g k b a st Hself Hlazy Hnotin
                           ltac:(lia) Ha)].
        fold g1. fold st1. rewrite Hrun. rewrite Hheap. unfold st1. simpl.
        rewrite <- app_assoc. reflexivity.
      * constructor; assumption.
      * intros H. apply Hnd, Hnd1, H.
      * intros b'. rewrite Hkeys, Hkeys1. simpl. intuition congruence.
      * intros b' Hin.
        assert (b' <> b) by (intros ->; contradiction).
        rewrite Hold by (apply Hkeys1; left; exact Hin).
        apply Hother1. assumption.
      * intros b' Hnot Hin. rewrite <- Hheap.
        destruct (key_eqb b b') eqn:E.
        -- apply key_eqb_eq in E. subst b'.
           exists (List.length (heap st)), a. split; [|split].
           ++ rewrite Hold by (apply Hkeys1; right; reflexivity). exact Hg1b.
           ++ rewrite Hheap. rewrite nth_error_app2 by lia.
              rewrite Nat.sub_diag. reflexivity.
           ++ rewrite members_from_same. exact Ha.
        -- assert (Hneq : b <> b') by (intros ->; rewrite key_eqb_refl in E; discriminate).
           destruct Hin as [Heq|Hin]; [contradiction|].
           rewrite (members_from_other _ _ _ _ Hneq).
           apply Hfresh; [|exact Hin].
           intros Hin1. apply Hkeys1 in Hin1. destruct Hin1; [contradiction|congruence].
Qed.


(** X16. Without preloaded images only the file of the first row of each bin
    matters: when these files are readable three-channel images the call
    succeeds and reads exactly them, whether or not the files of the other
    rows can be read. *)
Theorem lazy_call_needs_first_files_only (manifold : list (Q * Q))
  (bins : Z) (st : state) (xe ye : list Q) (bn0 bn1 : list Z) :
  self_at (heap st) self this -> self_ok (heap st) this ->
  List.length manifold = List.length (_image_files this) ->
  manifold <> [] -> 1 <= bins ->
  binned_statistic_2d (map fst manifold) (map snd manifold) bins
  = Ok (xe, ye, bn0, bn1) ->
  (forall idx, In idx (first_indices 0 (combine bn0 bn1) []) ->
     exists raw,
       imread (file_at this idx) = Some raw /\
       shape (resize raw (_output_shape this))
       = (fst (_output_shape this), snd (_output_shape this), 3)) ->
  exists imgrid extent st' canvas,
    __call__ imread resize self manifold bins st = (Ok (imgrid, extent), st') /\
    nth_error (heap st') imgrid = Some (U8 canvas) /\
    shape canvas = canvas_shape (_output_shape this) bins /\
    trace st'
    = (trace st ++ [EvBinning])
      ++ map (fun idx => EvImread (file_at this idx))
             (first_indices 0 (combine bn0 bn1) []).
Proof.
  intros Hself Hok Hrows Hpoints Hbins Ebin Hfirst.
  pose proof Hok as [Hf0 [Hf1 _]].
  destruct (valid_call_lengths manifold bins xe ye bn0 bn1 Hpoints Hbins Ebin)
    as [Lbxy Hkeysok].
  assert (Hx : map fst manifold <> []).
  { destruct manifold; [congruence|discriminate]. }
  destruct (binned_statistic_2d_spec (map fst manifold) (map snd manifold) bins
              Hx ltac:(rewrite !length_map; reflexivity) Hbins)
    as [xe' [ye' [bn0' [bn1' [Ebin' [Hxe [Hye _]]]]]]].
  rewrite Ebin in Ebin'. inversion Ebin'; subst xe' ye' bn0' bn1'.
  set (st1 := mk_state (heap st) (trace st ++ [EvBinning])).
  assert (Hloads : forall idx, In idx (first_indices 0 (combine bn0 bn1) (map fst ([] : dict))) ->
            exists a, load imread resize this (file_at this idx) = Ok a).
  { intros idx Hidx. destruct (Hfirst idx Hidx) as [raw [Hraw _]].
    eexists. apply load_readable. exact Hraw. }
  assert (Hfit : (0 + List.length (combine bn0 bn1)
                  <= List.length (_image_files this))%nat).
  { unfold key in *. lia. }
  destruct (build_grid_lazy_first (combine bn0 bn1) 0%nat [] st1 Hself Hloads
              ltac:(intros b v; discriminate) Hfit)
    as [g [new [Hgrid [_ [Hnd [Hkeys [_ Hfresh]]]]]]].
  specialize (Hnd (NoDup_nil _)). cbn [heap trace st1 map] in Hgrid, Hfresh.
  set (hp := heap st ++ map F64 new) in *.
  assert (Hvalid : forall xy locs, In (xy, locs) g ->
            key_in_range bins xy /\ locs <> [] /\
            Forall (is_image (_output_shape this) hp) locs).
  { intros xy locs Hin.
    assert (Hxy : In xy (combine bn0 bn1)).
    { apply (in_map fst) in Hin. apply Hkeys in Hin. destruct Hin as [[]|H]. exact H. }
    destruct (Hfresh xy (fun H => H) Hxy) as [l [a [Hget [Hl Ha]]]].
    apply (dict_In_get g xy locs Hnd) in Hin. rewrite Hget in Hin.
    inversion Hin; subst locs.
    split; [apply Hkeysok; exact Hxy|]. split; [discriminate|].
    constructor; [|constructor]. exists a. split; [exact Hl|].
    assert (Hidx : In (hd 0%nat (members_from 0 (combine bn0 bn1) xy))
                      (first_indices 0 (combine bn0 bn1) [])).
    { apply first_indices_iff. exists xy. split; [exact Hxy|].
      split; [intros []|reflexivity]. }
    destruct (Hfirst _ Hidx) as [raw [Hraw Hshape]].
    rewrite (load_readable imread resize this _ raw Hraw) in Ha.
    apply ok_injective in Ha. subst a.
    cbn [rescale shape]. rewrite normalize_channels_shape. exact Hshape. }
  destruct (call_tail (_output_shape this) bins xe ye hp
              (trace st1 ++ map (fun idx => EvImread (file_at this idx))
                                (first_indices 0 (combine bn0 bn1) []))
              g Hf0 Hf1 Hbins Hxe Hye Hnd Hvalid)
    as [canvas [x_lo [x_hi [y_lo [y_hi [Htail [Hshape _]]]]]]].
  exists (List.length hp), [x_lo; x_hi; y_lo; y_hi],
    (mk_state (hp ++ [U8 canvas])
       (trace st1 ++ map (fun idx => EvImread (file_at this idx))
                         (first_indices 0 (combine bn0 bn1) []))), canvas.
  split; [|split; [apply nth_error_last|split; [exact Hshape|reflexivity]]].
  unfold __call__.
  erewrite bind_ok; [|apply read_self_ok; exact Hself].
  rewrite Hrows, Nat.eqb_refl. cbn [negb].
  erewrite bind_ok; [|reflexivity].
  erewrite bind_ok; [|unfold lift; rewrite Ebin; reflexivity].
  cbv beta iota zeta.
  erewrite bind_ok; [|exact Hgrid].
  erewrite bind_ok;
    [|apply read_self_ok; cbn [heap]; apply self_at_app; exact Hself].
  exact Htail.
Qed.

End FirstFilesOnly.

(** ** The conversion of a tile never wraps *)

Lemma np_sum_ge (d : list R) (x : R) :
  (forall y, In y d -> (x <= y)%R) -> (INR (List.length d) * x <= np_sum d)%R.
Proof.
  induction d as [|a d IH]; intros Hall.
  - simpl. lra.
  - change (np_sum (a :: d)) with (a + np_sum d)%R.
    change (List.length (a :: d)) with (S (List.length d)). rewrite S_INR.
    specialize (IH (fun y Hy => Hall y (or_intror Hy))).
    specialize (Hall a (or_introl eq_refl)). lra.
Qed.

Lemma np_mean_bounds (d : list R) (lo hi : R) :
  d <> [] -> (forall x, In x d -> (lo <= x <= hi)%R) ->
  (lo <= np_mean d <= hi)%R.
Proof.
  intros Hne Hall. pose proof (length_pos_INR d Hne) as Hn.
  pose proof (np_sum_le d hi (fun y Hy => proj2 (Hall y Hy))) as Hhi.
  pose proof (np_sum_ge d lo (fun y Hy => proj1 (Hall y Hy))) as Hlo.
  unfold np_mean. split.
  - apply (Rmult_le_reg_r (INR (List.length d))); [exact Hn|].
    unfold Rdiv. rewrite Rmult_assoc, Rinv_l by lra. lra.
  - apply (Rmult_le_reg_r (INR (List.length d))); [exact Hn|].
    unfold Rdiv. rewrite Rmult_assoc, Rinv_l by lra. lra.
Qed.

(** Between 0 and 255 the conversion to uint8 is the integer part. *)
Lemma astype_uint8_floor (x : R) :
  (0 <= x <= 255)%R ->
  0 <= astype_uint8 x <= 255 /\
  (IZR (astype_uint8 x) <= x < IZR (astype_uint8 x) + 1)%R.
Proof.
  intros [Hlo Hhi]. unfold astype_uint8, trunc.
  destruct (Rle_dec 0 x) as [_|Hneg]; [|lra].
  destruct (base_Int_part x) as [H1 H2].
  assert (Hge : -1 < Int_part x) by (apply lt_IZR; lra).
  assert (Hle : Int_part x <= 255) by (apply le_IZR; lra).
  rewrite Z.mod_small by lia. split; [lia|lra].
Qed.

Lemma arrays_at_In (hp : list pyobj) (locs : list loc) (a : ndarray R) :
  In a (arrays_at hp locs) ->
  exists l, In l locs /\ nth_error hp l = Some (F64 a).
Proof.
  unfold arrays_at. rewrite in_flat_map. intros [l [Hl Ha]]. exists l.
  split; [exact Hl|].
  destruct (nth_error hp l) as [[b|b|o]|]; try (destruct Ha; fail).
  destruct Ha as [->|[]]. reflexivity.
Qed.

Lemma load_value_range (imread : string -> option (ndarray R))
  (resize : ndarray R -> Z * Z -> ndarray R) (this : ManifoldProjection2D)
  (f : string) (a : ndarray R) (i j c : Z) :
  load imread resize this f = Ok a -> (0 <= data a i j c <= 255)%R.
Proof.
  unfold load, _load_and_normalize. destruct (imread f); [|discriminate].
  intros H. apply ok_injective in H. subst a. cbn [rescale data].
  apply np_clip_bounds. lra.
Qed.

Section NoWrap.

Variable imread : string -> option (ndarray R).
Variable resize : ndarray R -> Z * Z -> ndarray R.

(** X17. The conversion to the canvas's dtype never wraps around. With
    cached images that are the normalised images of the files, the mean of a
    bin lies between 0 and 255, and the pixel stored in the bin's tile is its
    integer part. *)
Theorem preloaded_tile_is_floor_of_mean (self : loc)
  (this : ManifoldProjection2D) (manifold : list (Q * Q)) (bins : Z)
  (st : state) :
  valid_call imread resize self this manifold bins st ->
  _images this <> [] ->
  images_loaded imread resize (heap st) this ->
  exists xe ye bn0 bn1 imgrid extent st' canvas,
    binned_statistic_2d (map fst manifold) (map snd manifold) bins
    = Ok (xe, ye, bn0, bn1) /\
    __call__ imread resize self manifold bins st = (Ok (imgrid, extent), st') /\
    nth_error (heap st') imgrid = Some (U8 canvas) /\
    forall xy, In xy (combine bn0 bn1) ->
      forall i j c,
        0 <= i < fst (_output_shape this) ->
        0 <= j < snd (_output_shape this) -> 0 <= c < 3 ->
        let images :=
          arrays_at (heap st)
            (map (fun idx => nth idx (_images this) 0%nat)
                 (bin_members (combine bn0 bn1) xy)) in
        let mean := np_mean (map (fun im => data im i j c) images) in
        let pixel :=
          data canvas (tile_start (fst (_output_shape this)) (fst xy) + i)
                      (tile_start (snd (_output_shape this)) (snd xy) + j) c in
        (0 <= mean <= 255)%R /\ 0 <= pixel <= 255 /\
        (IZR pixel <= mean < IZR pixel + 1)%R.
Proof.
  intros [Hself [Hok [_ [Hrows [Hpoints Hbins]]]]] Hpre Hloaded.
  destruct (call_preload imread resize self this manifold bins st Hself Hok Hrows
              Hpoints Hbins Hpre)
    as [xe [ye [bn0 [bn1 [canvas [x_lo [x_hi [y_lo [y_hi
        [Ebin [Hrun [_ [_ [_ [_ [_ [_ [_ [Hin _]]]]]]]]]]]]]]]]]]].
  destruct (valid_call_lengths manifold bins xe ye bn0 bn1 Hpoints Hbins Ebin)
    as [Lbxy _].
  exists xe, ye, bn0, bn1, (List.length (heap st)), [x_lo; x_hi; y_lo; y_hi].
  eexists. exists canvas.
  split; [exact Ebin|]. split; [exact Hrun|]. split; [apply nth_error_last|].
  intros xy Hxy i j c Hi Hj Hc images mean pixel.
  pose proof (bucket_locs_are_images (heap st) this (combine bn0 bn1) xy Hok Hpre
                (eq_trans Lbxy Hrows)) as Himgs.
  assert (Hne : images <> []).
  { intros E. pose proof (arrays_at_length _ _ _ Himgs) as Hlen.
    fold images in Hlen. rewrite E, length_map in Hlen.
    pose proof (members_from_nonempty (combine bn0 bn1) xy 0%nat Hxy) as Hm.
    unfold bin_members in Hlen.
    destruct (members_from 0 (combine bn0 bn1) xy); [congruence|discriminate]. }
  assert (Hmean : (0 <= mean <= 255)%R).
  { apply np_mean_bounds.
    - intros E. apply map_eq_nil in E. contradiction.
    - intros x Hx. apply in_map_iff in Hx. destruct Hx as [a [<- Ha]].
      apply arrays_at_In in Ha. destruct Ha as [l [Hl Hheap]].
      apply in_map_iff in Hl. destruct Hl as [idx [Hnth Hidx]].
      apply bin_members_iff in Hidx.
      assert (Hlt : (idx < List.length (_images this))%nat).
      { assert ((idx < List.length (combine bn0 bn1))%nat).
        { apply nth_error_Some. unfold key in *. rewrite Hidx. discriminate. }
        destruct Hok as [_ [_ [_ Hcount]]]. specialize (Hcount Hpre).
        unfold key in *. lia. }
      destruct (Hloaded idx l) as [a' [Hheap' Hload]].
      { rewrite <- Hnth. apply nth_error_nth'. exact Hlt. }
      rewrite Hheap in Hheap'. inversion Hheap'; subst a'.
      apply (load_value_range imread resize this _ a i j c Hload). }
  assert (Hpixel : pixel = astype_uint8 mean).
  { unfold pixel.
    rewrite (Hin xy _ _ c Hxy (in_tile_offset _ xy i j Hi Hj) Hc).
    apply tile_value_offset. }
  rewrite Hpixel. split; [exact Hmean|]. apply astype_uint8_floor. exact Hmean.
Qed.

End NoWrap.

(** ** A file that cannot be read *)

Section UnreadableFile.

Variable imread : string -> option (ndarray R).
Variable resize : ndarray R -> Z * Z -> ndarray R.

Lemma build_grid_app (self : loc) (l1 l2 : list key) :
  forall (k : nat) (g : dict) (st : state),
  build_grid imread resize self (l1 ++ l2) k g st
  = bind (build_grid imread resize self l1 k g)
         (fun g' => build_grid imread resize self l2 (k + List.length l1) g') st.
Proof.
  induction l1 as [|b l1 IH]; intros k g st.
  - cbn [app build_grid List.length]. rewrite Nat.add_0_r. reflexivity.
  - cbn [app build_grid List.length]. unfold bind.
    destruct (grid_step imread resize self g k b st) as [[g1|e] st1];
      [|reflexivity].
    specialize (IH (S k) g1 st1). unfold bind in IH. rewrite IH.
    replace (S k + List.length l1)%nat with (k + S (List.length l1))%nat by lia.
    reflexivity.
Qed.

(** X10. Without preloaded images, when the file of a row at which a bin
    occurs first cannot be read, the call raises [OSError] at that row: the
    first files of the bins met before have been read, no later file is
    read, and no canvas is allocated. *)
Theorem lazy_call_fails_at_unreadable_first_file (self : loc)
  (this : ManifoldProjection2D) (manifold : list (Q * Q)) (bins : Z)
  (st : state) (xe ye : list Q) (bn0 bn1 : list Z)
  (before : list key) (b : key) (after : list key) :
  self_at (heap st) self this -> _images this = [] ->
  List.length manifold = List.length (_image_files this) ->
  manifold <> [] -> 1 <= bins ->
  binned_statistic_2d (map fst manifold) (map snd manifold) bins
  = Ok (xe, ye, bn0, bn1) ->
  combine bn0 bn1 = before ++ b :: after -> ~ In b before ->
  (forall idx, In idx (first_indices 0 before []) ->
     exists raw, imread (file_at this idx) = Some raw) ->
  imread (file_at this (List.length before)) = None ->
  exists new,
    List.length new = List.length (first_indices 0 before []) /\
    __call__ imread resize self manifold bins st
    = (Raise OSError,
       mk_state (heap st ++ map F64 new)
         ((trace st ++ [EvBinning])
          ++ map (fun idx => EvImread (file_at this idx))
                 (first_indices 0 before [])
          ++ [EvImread (file_at this (List.length before))])).
Proof.
  intros Hself Hlazy Hrows Hpoints Hbins Ebin Hsplit Hnew Hfirst Hnone.
  destruct (valid_call_lengths manifold bins xe ye bn0 bn1 Hpoints Hbins Ebin)
    as [Lbxy _].
  rewrite Hsplit in Lbxy. rewrite length_app in Lbxy. cbn [List.length] in Lbxy.
  set (st1 := mk_state (heap st) (trace st ++ [EvBinning])).
  assert (Hloads : forall idx,
            In idx (first_indices 0 before (map fst ([] : dict))) ->
            exists a, load imread resize this (file_at this idx) = Ok a).
  { intros idx Hidx. destruct (Hfirst idx Hidx) as [raw Hraw].
    eexists. apply load_readable. exact Hraw. }
  destruct (build_grid_lazy_first imread resize self this Hlazy before 0%nat []
              st1 Hself Hloads ltac:(intros k v; discriminate) ltac:(simpl; lia))
    as [g [new [Hgrid [Hall [_ [Hkeys _]]]]]].
  cbn [heap trace st1 map] in Hgrid, Hall.
  exists new. split; [symmetry; eapply Forall2_length; exact Hall|].
  assert (Hfresh : dict_get g b = None).
  { apply dict_get_None_keys. intros Hin. apply Hkeys in Hin.
    destruct Hin as [[]|Hin]. contradiction. }
  unfold __call__.
  erewrite bind_ok; [|apply read_self_ok; exact Hself].
  rewrite Hrows, Nat.eqb_refl. cbn [negb].
  erewrite bind_ok; [|reflexivity].
  erewrite bind_ok; [|unfold lift; rewrite Ebin; reflexivity].
  cbv beta iota zeta. rewrite Hsplit.
  apply bind_raise. rewrite build_grid_app.
  erewrite bind_ok; [|exact Hgrid].
  cbn [build_grid]. apply bind_raise.
  set (st2 := mk_state (heap st ++ map F64 new)
                ((trace st ++ [EvBinning])
                 ++ map (fun idx => EvImread (file_at this idx))
                        (first_indices 0 before []))).
  assert (Hself2 : self_at (heap st2) self this).
  { unfold st2. cbn [heap]. apply self_at_app. exact Hself. }
  unfold grid_step. rewrite Hfresh.
  erewrite bind_ok; [|apply read_self_ok; exact Hself2].
  rewrite Hlazy, dict_get_set_same.
  assert (Hfile : nth_error (_image_files this) (0 + List.length before)
                  = Some (file_at this (List.length before))).
  { unfold file_at. cbn [Nat.add]. apply nth_error_nth'. lia. }
  rewrite Hfile. apply bind_raise.
  rewrite (get_image_unreadable imread resize self this _ st2 Hself2 Hnone).
  unfold st2. cbn [heap trace]. rewrite <- !app_assoc. reflexivity.
Qed.

End UnreadableFile.

(** * The further properties at concrete inputs *)

Lemma demo_cached_loaded :
  images_loaded demo_imread demo_resize (heap demo_cached_state) demo_cached.
Proof.
  intros idx l H. destruct idx as [|[|idx]]; simpl in H.
  - inversion H; subst. exists demo_loaded_image. split; reflexivity.
  - inversion H; subst. exists demo_loaded_image. split; reflexivity.
  - destruct idx; discriminate H.
Qed.

Lemma demo_cached_valid :
  valid_call demo_imread demo_resize 0%nat demo_cached demo_manifold 2
    demo_cached_state.
Proof.
  split; [reflexivity|]. split.
  - split; [simpl; lia|]. split; [simpl; lia|]. split.
    + constructor; [|constructor; [|constructor]]; eexists; split; reflexivity.
    + intros _. reflexivity.
  - split; [intros H; discriminate H|]. split; [reflexivity|].
    split; [discriminate|lia].
Qed.

Lemma normalization_preserves_order_witness :
  (data demo_gradient 0 0 0 < data demo_gradient 1 1 0)%R /\
  exists out,
    _load_and_normalize demo_imread_gradient demo_resize_keep "a.png" (2, 2)
    = Ok out /\
    (data out 0 0 0 <= data out 1 1 0)%R.
Proof.
  split; [simpl; lra|].
  apply (normalization_preserves_order demo_imread_gradient demo_resize_keep
           "a.png" (2, 2) demo_gradient 0 0 0 1 1 eq_refl).
  - simpl. lia.
  - simpl. lia.
  - simpl. lia.
  - simpl. lra.
Defined.

Lemma normalization_of_flat_channel_witness :
  exists out,
    _load_and_normalize demo_imread demo_resize "a.png" (2, 2) = Ok out /\
    data out 0 0 2 = 51%R.
Proof.
  destruct (normalization_of_flat_channel demo_imread demo_resize "a.png" (2, 2)
              demo_raw 2 2 eq_refl) as [out [Hout Hflat]].
  - simpl. lia.
  - lia.
  - simpl. lia.
  - intros i j _. reflexivity.
  - exists out. split; [exact Hout|]. apply Hflat.
    unfold _load_and_normalize in Hout. simpl in Hout.
    apply ok_injective in Hout. subst out.
    unfold in_bounds. cbn [rescale shape]. rewrite normalize_channels_shape.
    simpl. lia.
Defined.

Lemma init_reads_each_file_once_witness :
  exists self st',
    __init__ demo_imread demo_resize demo_files (2, 2) true (mk_state [] [])
    = (Ok self, st') /\
    trace st' = [EvImread "a.png"; EvImread "b.png"].
Proof.
  destruct (init_reads_each_file_once demo_imread demo_resize demo_files (2, 2)
              true (mk_state [] [])) as [this [imgs [Hrun _]]].
  - intros _ f _. exists demo_raw. reflexivity.
  - eexists. eexists. split; [exact Hrun|]. reflexivity.
Defined.

Lemma init_stops_at_first_unreadable_file_witness :
  exists st',
    __init__ demo_imread_broken demo_resize ["a.png"; "b.png"; "c.png"]%string
      (2, 2) true (mk_state [] [])
    = (Raise OSError, st') /\
    trace st' = [EvImread "a.png"; EvImread "b.png"].
Proof.
  destruct (init_stops_at_first_unreadable_file demo_imread_broken demo_resize
              ["a.png"%string] "b.png" ["c.png"%string] (2, 2) (mk_state [] []))
    as [imgs [_ Hrun]].
  - intros f [<-|[]]. exists demo_raw. reflexivity.
  - reflexivity.
  - eexists. split; [exact Hrun|]. reflexivity.
Defined.

Lemma init_changes_no_existing_object_witness :
  nth_error
    (heap (snd (__init__ demo_imread demo_resize demo_files (2, 2) true
                  demo_lazy_state))) 0
  = nth_error (heap demo_lazy_state) 0.
Proof.
  destruct (init_changes_no_existing_object demo_imread demo_resize demo_files
              (2, 2) true demo_lazy_state _ _ (surjective_pairing _))
    as [Hsame _].
  apply Hsame. simpl. lia.
Defined.

Lemma init_then_call_succeeds_witness :
  exists self imgrid extent st',
    (self <- __init__ demo_imread demo_resize demo_files (2, 2) true ;;
     r <- __call__ demo_imread demo_resize self demo_manifold 2 ;;
     ret (self, r)) (mk_state [] [])
    = (Ok (self, (imgrid, extent)), st') /\
    trace st' = [EvImread "a.png"; EvImread "b.png"; EvBinning].
Proof.
  destruct (init_then_call_succeeds demo_imread demo_resize demo_files (2, 2)
              true demo_manifold 2 (mk_state [] []))
    as [xe [ye [bn0 [bn1 [self [imgrid [extent [st' [canvas
        [_ [Hrun [_ [_ [_ Htrace]]]]]]]]]]]]]].
  - simpl. lia.
  - simpl. lia.
  - apply demo_files_ok.
  - reflexivity.
  - discriminate.
  - lia.
  - exists self, imgrid, extent, st'. split; [exact Hrun|exact Htrace].
Defined.

Lemma preloaded_call_reads_no_file_witness :
  exists canvas extent,
    __call__ (fun _ => None) demo_resize 0%nat demo_manifold 2
      demo_preloaded_state
    = (Ok (3%nat, extent),
       mk_state (heap demo_preloaded_state ++ [U8 canvas]) [EvBinning]).
Proof.
  apply (preloaded_call_reads_no_file (fun _ => None) demo_resize 0%nat
           demo_preloaded demo_manifold 2 demo_preloaded_state).
  - reflexivity.
  - split; [simpl; lia|]. split; [simpl; lia|]. split.
    + constructor; [|constructor; [|constructor]]; eexists; split; reflexivity.
    + intros _. reflexivity.
  - discriminate.
  - reflexivity.
  - discriminate.
  - lia.
Defined.

Lemma demo_binning :
  exists xe ye,
    binned_statistic_2d (map fst demo_manifold) (map snd demo_manifold) 2
    = Ok (xe, ye, [1; 2], [1; 2]).
Proof. eexists. eexists. vm_compute. reflexivity. Qed.

Lemma lazy_call_fails_at_unreadable_first_file_witness :
  exists st',
    __call__ demo_imread_broken demo_resize 0%nat demo_manifold 2
      demo_lazy_state
    = (Raise OSError, st') /\
    trace st' = [EvBinning; EvImread "a.png"; EvImread "b.png"].
Proof.
  destruct demo_binning as [xe [ye Ebin]].
  destruct (lazy_call_fails_at_unreadable_first_file demo_imread_broken
              demo_resize 0%nat demo_lazy demo_manifold 2 demo_lazy_state
              xe ye [1; 2] [1; 2] [(1, 1)] (2, 2) [])
    as [new [_ Hrun]].
  - reflexivity.
  - reflexivity.
  - reflexivity.
  - discriminate.
  - lia.
  - exact Ebin.
  - reflexivity.
  - intros [H|[]]. discriminate H.
  - intros idx [<-|[]]. exists demo_raw. reflexivity.
  - reflexivity.
  - eexists. split; [exact Hrun|]. reflexivity.
Defined.

Lemma unoccupied_bins_stay_black_witness :
  exists imgrid extent st' canvas,
    __call__ demo_imread demo_resize 0%nat demo_manifold 2 demo_lazy_state
    = (Ok (imgrid, extent), st') /\
    nth_error (heap st') imgrid = Some (U8 canvas) /\
    data canvas 1 3 0 = 0.
Proof.
  destruct (unoccupied_bins_stay_black demo_imread demo_resize 0%nat demo_lazy
              demo_manifold 2 demo_lazy_state demo_lazy_valid)
    as [xe [ye [bn0 [bn1 [imgrid [extent [st' [canvas
        [Ebin [Hrun [Hcanvas Hblack]]]]]]]]]]].
  vm_compute in Ebin. inversion Ebin; subst.
  exists imgrid, extent, st', canvas.
  split; [exact Hrun|]. split; [exact Hcanvas|].
  apply (Hblack (1, 2)).
  - intros [H|[H|[]]]; discriminate H.
  - unfold in_tile, tile_start. simpl. lia.
Defined.

Lemma canvas_border_stays_black_witness :
  exists imgrid extent st' canvas,
    __call__ demo_imread demo_resize 0%nat demo_manifold 2 demo_lazy_state
    = (Ok (imgrid, extent), st') /\
    nth_error (heap st') imgrid = Some (U8 canvas) /\
    data canvas 0 2 0 = 0 /\ data canvas 5 2 0 = 0.
Proof.
  destruct (canvas_border_stays_black demo_imread demo_resize 0%nat demo_lazy
              demo_manifold 2 demo_lazy_state demo_lazy_valid)
    as [imgrid [extent [st' [canvas [Hrun [Hcanvas Hblack]]]]]].
  exists imgrid, extent, st', canvas.
  split; [exact Hrun|]. split; [exact Hcanvas|]. split.
  - apply Hblack. left. simpl. lia.
  - apply Hblack. right. left. simpl. lia.
Defined.

Lemma second_call_gives_same_picture_witness :
  exists imgrid1 extent st1 canvas1 imgrid2 st2 canvas2,
    __call__ demo_imread demo_resize 0%nat demo_manifold 2 demo_lazy_state
    = (Ok (imgrid1, extent), st1) /\
    __call__ demo_imread demo_resize 0%nat demo_manifold 2 st1
    = (Ok (imgrid2, extent), st2) /\
    nth_error (heap st2) imgrid1 = Some (U8 canvas1) /\
    nth_error (heap st2) imgrid2 = Some (U8 canvas2) /\
    data canvas2 1 1 0 = data canvas1 1 1 0.
Proof.
  destruct (second_call_gives_same_picture demo_imread demo_resize 0%nat
              demo_lazy demo_manifold 2 demo_lazy_state demo_lazy_valid)
    as [imgrid1 [extent [st1 [canvas1 [imgrid2 [st2 [canvas2
        [Hrun1 [Hrun2 [_ [Hc1 [Hc2 [_ Hsame]]]]]]]]]]]]].
  exists imgrid1, extent, st1, canvas1, imgrid2, st2, canvas2.
  split; [exact Hrun1|]. split; [exact Hrun2|]. split; [exact Hc1|].
  split; [exact Hc2|]. apply Hsame. lia.
Defined.

Lemma modes_agree_on_single_row_bins_witness :
  exists extent imgrid_p st_p' canvas_p imgrid_l st_l' canvas_l,
    __call__ demo_imread demo_resize 0%nat demo_manifold 2 demo_cached_state
    = (Ok (imgrid_p, extent), st_p') /\
    __call__ demo_imread demo_resize 0%nat demo_manifold 2 demo_lazy_state
    = (Ok (imgrid_l, extent), st_l') /\
    nth_error (heap st_p') imgrid_p = Some (U8 canvas_p) /\
    nth_error (heap st_l') imgrid_l = Some (U8 canvas_l) /\
    data canvas_l 1 1 0 = data canvas_p 1 1 0 /\
    data canvas_l 0 0 0 = data canvas_p 0 0 0.
Proof.
  destruct (modes_agree_on_single_row_bins demo_imread demo_resize
              0%nat demo_cached demo_cached_state
              0%nat demo_lazy demo_lazy_state demo_manifold 2
              demo_cached_valid)
    as [xe [ye [bn0 [bn1 [extent [imgrid_p [st_p' [canvas_p [imgrid_l
        [st_l' [canvas_l [Ebin [Hp [Hl [Hcp [Hcl [_ [Htiles Hrest]]]]]]]]]]]]]]]]]].
  - discriminate.
  - exact demo_cached_loaded.
  - exact demo_lazy_valid.
  - reflexivity.
  - reflexivity.
  - reflexivity.
  - vm_compute in Ebin. inversion Ebin; subst.
    exists extent, imgrid_p, st_p', canvas_p, imgrid_l, st_l', canvas_l.
    split; [exact Hp|]. split; [exact Hl|]. split; [exact Hcp|].
    split; [exact Hcl|]. split.
    + apply (Htiles (1, 1)).
      * left. reflexivity.
      * reflexivity.
      * unfold in_tile, tile_start. simpl. lia.
      * lia.
    + apply Hrest. intros xy [<-|[<-|[]]];
        unfold in_tile, tile_start; simpl; lia.
Defined.

Lemma extent_is_bounding_box_witness :
  exists imgrid st' x_lo x_hi y_lo y_hi,
    __call__ demo_imread demo_resize 0%nat demo_manifold 2 demo_lazy_state
    = (Ok (imgrid, [x_lo; x_hi; y_lo; y_hi]), st') /\
    (x_lo == 0)%Q /\ (x_hi == 1)%Q /\ (y_lo == 0)%Q /\ (y_hi == 1)%Q.
Proof.
  destruct (extent_is_bounding_box demo_imread demo_resize 0%nat demo_lazy
              (0, 0)%Q [(1, 1)%Q] 2 demo_lazy_state demo_lazy_valid)
    as [imgrid [st' [x_lo [x_hi [y_lo [y_hi
        [Hrun [Hxl [Hxh [Hyl [Hyh _]]]]]]]]]]].
  exists imgrid, st', x_lo, x_hi, y_lo, y_hi.
  split; [exact Hrun|]. split; [exact Hxl|]. split; [exact Hxh|].
  split; [exact Hyl|exact Hyh].
Defined.

Lemma lazy_call_needs_first_files_only_witness :
  exists imgrid extent st' canvas,
    __call__ demo_imread_broken demo_resize 0%nat [(0, 0)%Q; (0, 0)%Q] 2
      demo_lazy_state
    = (Ok (imgrid, extent), st') /\
    nth_error (heap st') imgrid = Some (U8 canvas) /\
    trace st' = [EvBinning; EvImread "a.png"].
Proof.
  assert (Ebin : exists xe ye,
             binned_statistic_2d (map fst [(0, 0)%Q; (0, 0)%Q])
               (map snd [(0, 0)%Q; (0, 0)%Q]) 2
             = Ok (xe, ye, [2; 2], [2; 2])).
  { eexists. eexists. vm_compute. reflexivity. }
  destruct Ebin as [xe [ye Ebin]].
  destruct (lazy_call_needs_first_files_only demo_imread_broken demo_resize
              0%nat demo_lazy eq_refl [(0, 0)%Q; (0, 0)%Q] 2 demo_lazy_state
              xe ye [2; 2] [2; 2])
    as [imgrid [extent [st' [canvas [Hrun [Hcanvas [_ Htrace]]]]]]].
  - reflexivity.
  - split; [simpl; lia|]. split; [simpl; lia|]. split; [constructor|].
    intros H. exfalso. apply H. reflexivity.
  - reflexivity.
  - discriminate.
  - lia.
  - exact Ebin.
  - intros idx [<-|[]]. exists demo_raw. split; reflexivity.
  - exists imgrid, extent, st', canvas.
    split; [exact Hrun|]. split; [exact Hcanvas|]. exact Htrace.
Defined.

Lemma preloaded_tile_is_floor_of_mean_witness :
  exists imgrid extent st' canvas,
    __call__ demo_imread demo_resize 0%nat demo_manifold 2 demo_cached_state
    = (Ok (imgrid, extent), st') /\
    nth_error (heap st') imgrid = Some (U8 canvas) /\
    0 <= data canvas 1 1 0 <= 255 /\
    (IZR (data canvas 1 1 0)
     <= np_mean [data demo_loaded_image 0 0 0]
     < IZR (data canvas 1 1 0) + 1)%R.
Proof.
  destruct (preloaded_tile_is_floor_of_mean demo_imread demo_resize 0%nat
              demo_cached demo_manifold 2 demo_cached_state demo_cached_valid)
    as [xe [ye [bn0 [bn1 [imgrid [extent [st' [canvas
        [Ebin [Hrun [Hcanvas Htiles]]]]]]]]]]].
  - discriminate.
  - exact demo_cached_loaded.
  - vm_compute in Ebin. inversion Ebin; subst.
    exists imgrid, extent, st', canvas.
    split; [exact Hrun|]. split; [exact Hcanvas|].
    destruct (Htiles (1, 1) (or_introl eq_refl) 0 0 0) as [_ [Hpix Hfloor]];
      [simpl; lia | simpl; lia | lia |].
    split; [exact Hpix|exact Hfloor].
Defined.
